(** * wdk-core, dual-signature subsystem: shallow embedding and properties

    The development follows the four JavaScript modules of the subsystem:

    - [DualKeyDerivation]     src/crypto/dual-key-derivation.js
    - [ECDSASigner]           src/crypto/ecdsa-signer.js
    - [MLDSASigner]           src/crypto/mldsa-signer.js
    - [DualSignatureProtocol] src/protocols/dual-signature-protocol.js

    JavaScript values are dynamically typed, so the embedding works over a
    small universe of values ([JS.value]).  Exceptions are explicit
    ([JS.result]); a method that assigns to fields of [this] is a function
    from the object's state to an outcome and a new state ([JS.M]), so that
    the assignments made before a [throw] are kept, as they are at run time.
    An [async] method is embedded as the sequence of its steps; the one
    place where two tasks are started together is [Promise.all]
    ([JS.promise_all2]).

    Everything the sources import from npm packages (hash functions, curve
    and lattice primitives, HD derivation) or take from the host (JSON
    encoding, the clock) is a field of the record [JS.Imports]; the
    definitions are parametric in it and the theorems hold for every
    instance.  [Reference] builds one small executable instance, used to run
    the embedding on concrete inputs. *)

From Stdlib Require Import ZArith NArith List String Ascii Bool Lia.
From Stdlib Require Import DecimalString HexadecimalString.
From Stdlib.Strings Require Import Byte.
From stdpp Require Import gmap strings.
Import ListNotations.

#[local] Open Scope Z_scope.
#[local] Set Warnings "-register-all".

(* ===================================================================== *)
(** * JavaScript values, exceptions, state                               *)
(* ===================================================================== *)

Module JS.

(** The values that flow through the four modules.  Numbers are the
    integers that occur here (indices, sizes, recovery identifiers,
    timestamps); a [Uint8Array] is its list of bytes; an object literal is
    the list of its own properties in insertion order. *)
Inductive value : Type :=
| VUndefined
| VNull
| VBool (b : bool)
| VNum (n : Z)
| VBigInt (n : Z)
| VStr (s : string)
| VBytes (b : list byte)
| VArr (items : list value)
| VObj (props : list (string * value)).

(** Outcome of an evaluation: a value, or a thrown [Error] with its
    message. *)
Inductive result (A : Type) : Type :=
| Ok (a : A)
| Throw (msg : string).
Arguments Ok {A} a.
Arguments Throw {A} msg.

Definition bind {A B} (r : result A) (k : A -> result B) : result B :=
  match r with
  | Ok a => k a
  | Throw e => Throw e
  end.

(** [try { body } catch (error) { handler }] *)
Definition try_catch {A} (body : result A) (handler : string -> result A) : result A :=
  match body with
  | Ok a => Ok a
  | Throw e => handler e
  end.

Definition is_ok {A} (r : result A) : bool :=
  match r with Ok _ => true | Throw _ => false end.

(** Methods that assign to [this]. *)
Definition M (S A : Type) : Type := S -> result A * S.

Definition ret {S A} (a : A) : M S A := fun s => (Ok a, s).
Definition throw {S A} (e : string) : M S A := fun s => (Throw e, s).
Definition lift {S A} (r : result A) : M S A := fun s => (r, s).
Definition get {S} : M S S := fun s => (Ok s, s).
Definition put {S} (s' : S) : M S unit := fun _ => (Ok tt, s').
Definition bindM {S A B} (m : M S A) (k : A -> M S B) : M S B :=
  fun s => match m s with
           | (Ok a, s') => k a s'
           | (Throw e, s') => (Throw e, s')
           end.
Definition try_catchM {S A} (body : M S A) (handler : string -> M S A) : M S A :=
  fun s => match body s with
           | (Ok a, s') => (Ok a, s')
           | (Throw e, s') => handler e s'
           end.

(** [Promise.all([a, b])]: both tasks are started whatever the other does;
    the joined promise is fulfilled when both are, and rejected otherwise.
    The tasks joined in these sources do not assign to the state once it is
    initialised, so they are run one after the other; when both reject, the
    reason reported is the one of the first in the array. *)
Definition promise_all2 {S A B} (a : M S A) (b : M S B) : M S (A * B) :=
  fun s =>
    let '(ra, s1) := a s in
    let '(rb, s2) := b s1 in
    (match ra, rb with
     | Ok x, Ok y => Ok (x, y)
     | Throw e, _ => Throw e
     | _, Throw e => Throw e
     end, s2).

Declare Scope js_scope.
Delimit Scope js_scope with js.
Notation "x <- e ;; k" := (bind e (fun x => k))
  (at level 100, e at next level, right associativity) : js_scope.
Notation "x <~ e ;; k" := (bindM e (fun x => k))
  (at level 100, e at next level, right associativity) : js_scope.
#[local] Open Scope js_scope.

(** ** Operators *)

Definition typeof (v : value) : string :=
  match v with
  | VUndefined => "undefined"
  | VNull => "object"
  | VBool _ => "boolean"
  | VNum _ => "number"
  | VBigInt _ => "bigint"
  | VStr _ => "string"
  | VBytes _ | VArr _ | VObj _ => "object"
  end.

(** ToBoolean, as used by [!], [||], [&&], [?:] and [if]. *)
Definition truthy (v : value) : bool :=
  match v with
  | VUndefined | VNull => false
  | VBool b => b
  | VNum n | VBigInt n => negb (n =? 0)
  | VStr s => negb (String.eqb s "")
  | VBytes _ | VArr _ | VObj _ => true
  end.

(** [a || b] *)
Definition or_else (a b : value) : value := if truthy a then a else b.

(** A parameter with a default: the default replaces [undefined] only. *)
Definition param (default v : value) : value :=
  match v with VUndefined => default | _ => v end.

(** [v instanceof Uint8Array] *)
Definition is_Uint8Array (v : value) : bool :=
  match v with VBytes _ => true | _ => false end.

Definition Z_toString (n : Z) : string :=
  DecimalString.NilZero.string_of_int (Z.to_int n).

(** [Number.MAX_SAFE_INTEGER]: up to it every integer is a Number of its
    own. *)
Definition MAX_SAFE_INTEGER : Z := 9007199254740991.

(** The Number nearest to a positive integer [m] (ties to even): [m]
    itself while it has at most 53 bits; above, its 53 leading bits, the
    rest rounded. *)
Definition to_double (m : Z) : Z :=
  let shift := Z.log2 m - 52 in
  if shift <=? 0 then m
  else
    let q := Z.shiftr m shift in
    let r := Z.land m (Z.ones shift) in
    let half := Z.shiftl 1 (shift - 1) in
    let q' := if ((half <? r) || ((r =? half) && Z.odd q))%bool then q + 1 else q in
    Z.shiftl q' shift.

(** The integer that [Number::toString] writes for the Number [x]: the one
    with the fewest significant digits that still rounds to [x], and of
    those the nearest to [x] (the even one on a tie).  With [k]
    significant digits only the two multiples of [10^(n-k)] around [x] can
    qualify. *)
Definition shortest_with (x : Z) (k : Z) : option Z :=
  let n := Z.of_nat (String.length (Z_toString x)) in
  if n <? k then Some x
  else
    let p := 10 ^ (n - k) in
    let lo := x / p in
    let below := lo * p in
    let above := (lo + 1) * p in
    let ok_below := to_double below =? x in
    let ok_above := to_double above =? x in
    if (ok_below && ok_above)%bool then
      if x - below <? above - x then Some below
      else if above - x <? x - below then Some above
      else if Z.even lo then Some below else Some above
    else if ok_below then Some below
    else if ok_above then Some above
    else None.

Fixpoint shortest_from (x : Z) (k : Z) (fuel : nat) : Z :=
  match fuel with
  | O => x
  | S fuel' =>
      match shortest_with x k with
      | Some v => v
      | None => shortest_from x (k + 1) fuel'
      end
  end.

(** The search starts with one digit and ends at the latest with all the
    digits of [x], which give [x] itself. *)
Definition shortest (x : Z) : Z := shortest_from x 1 (String.length (Z_toString x)).

Fixpoint strip_zeros (rev_digits : list ascii) : list ascii :=
  match rev_digits with
  | "0"%char :: rest => strip_zeros rest
  | _ => rev_digits
  end.

(** The exponent notation of the numeral [digits] (more than 21 of them):
    [d1.d2...dk e+(n-1)], the fraction left out when [k = 1]. *)
Definition exponent_form (digits : string) : string :=
  let significant := rev (strip_zeros (rev (list_ascii_of_string digits))) in
  let exponent := Z_toString (Z.of_nat (String.length digits) - 1) in
  match significant with
  | [] => digits
  | [d] => String d ("e+" +:+ exponent)
  | d :: fraction => String d ("." +:+ string_of_list_ascii fraction +:+ "e+" +:+ exponent)
  end.

(** [Number::toString] of an integer Number.  A safe integer is written
    with all its digits.  Above, the digits are those of [shortest]:
    written out, zeros behind, below [1e21] (as in
    [18446744073709552000] for [2 ** 64]) and in exponent notation from
    [1e21] on ([1e+21]); what rounds beyond the largest Number is
    [Infinity]. *)
Definition Number_toString (n : Z) : string :=
  if Z.abs n <=? MAX_SAFE_INTEGER then Z_toString n
  else
    let x := to_double (Z.abs n) in
    let sign := if n <? 0 then "-" else "" in
    if 2 ^ 1024 <=? x then sign +:+ "Infinity"
    else
      let digits := Z_toString (shortest x) in
      sign +:+ (if (String.length digits <=? 21)%nat then digits else exponent_form digits).

Fixpoint join (sep : string) (l : list string) : string :=
  match l with
  | [] => ""
  | [x] => x
  | x :: rest => x +:+ sep +:+ join sep rest
  end.

(** ToString, as applied by a template literal [`${v}`]. *)
Fixpoint toString (v : value) : string :=
  match v with
  | VUndefined => "undefined"
  | VNull => "null"
  | VBool true => "true"
  | VBool false => "false"
  | VNum n => Number_toString n
  | VBigInt n => Z_toString n
  | VStr s => s
  | VBytes b => join "," (map (fun x => Z_toString (Z.of_N (Byte.to_N x))) b)
  | VArr items =>
      join "," (map (fun x => match x with
                              | VUndefined | VNull => ""
                              | _ => toString x
                              end) items)
  | VObj _ => "[object Object]"
  end.

Fixpoint assoc {A} (k : string) (ps : list (string * A)) : option A :=
  match ps with
  | [] => None
  | (k', v) :: rest => if String.eqb k k' then Some v else assoc k rest
  end.

(** [table[k]] for a constant object literal [table] and a computed key:
    the own property, or a member inherited from [Object.prototype], or
    [undefined]. *)
Inductive member (A : Type) : Type :=
| Own (a : A)
| Inherited
| Missing.
Arguments Own {A} a.
Arguments Inherited {A}.
Arguments Missing {A}.

Definition Object_prototype : list string :=
  [ "constructor"; "toString"; "toLocaleString"; "valueOf"; "hasOwnProperty";
    "isPrototypeOf"; "propertyIsEnumerable"; "__proto__"; "__defineGetter__";
    "__defineSetter__"; "__lookupGetter__"; "__lookupSetter__" ].

Definition table_get {A} (table : list (string * A)) (k : string) : member A :=
  match assoc k table with
  | Some a => Own a
  | None => if existsb (String.eqb k) Object_prototype then Inherited else Missing
  end.

(** [s.length]: the number of UTF-16 code units of the string.  A string
    is held as its UTF-8 bytes (see [utf8ToBytes]): a byte that begins a
    character of one, two or three bytes stands for one unit, a byte that
    begins a character of four bytes for the two units of a surrogate
    pair, and a continuation byte for none. *)
Definition utf16_units (c : ascii) : nat :=
  let n := nat_of_ascii c in
  if (n <? 128)%nat then 1%nat
  else if (n <? 192)%nat then 0%nat
  else if (n <? 240)%nat then 1%nat
  else 2%nat.

Fixpoint utf16_length (s : string) : nat :=
  match s with
  | EmptyString => 0%nat
  | String c rest => (utf16_units c + utf16_length rest)%nat
  end.

(** [v.k]: reading a property of [null] or [undefined] is a [TypeError];
    of the built-in properties only [length] is read by these sources. *)
Definition getProp (v : value) (k : string) : result value :=
  match v with
  | VUndefined => Throw ("Cannot read properties of undefined (reading '" +:+ k +:+ "')")
  | VNull => Throw ("Cannot read properties of null (reading '" +:+ k +:+ "')")
  | VObj ps => Ok (match assoc k ps with Some x => x | None => VUndefined end)
  | VStr s => Ok (if String.eqb k "length" then VNum (Z.of_nat (utf16_length s)) else VUndefined)
  | VBytes b => Ok (if String.eqb k "length" then VNum (Z.of_nat (length b)) else VUndefined)
  | VArr l => Ok (if String.eqb k "length" then VNum (Z.of_nat (length l)) else VUndefined)
  | VBool _ | VNum _ | VBigInt _ => Ok VUndefined
  end.

(** [v.k || default] *)
Definition prop_or (v : value) (k : string) (default : value) : result value :=
  x <- getProp v k ;; Ok (or_else x default).

(** Assignment of one own property: an existing key keeps its place. *)
Fixpoint setProp (k : string) (v : value) (ps : list (string * value)) : list (string * value) :=
  match ps with
  | [] => [(k, v)]
  | (k', v') :: rest =>
      if String.eqb k k' then (k, v) :: rest else (k', v') :: setProp k v rest
  end.

(** [{ ...base, ...extra }] for a list of own properties [extra]. *)
Definition spread (base extra : list (string * value)) : list (string * value) :=
  fold_left (fun acc kv => setProp (fst kv) (snd kv) acc) extra base.

(** The named own properties copied by [...v] inside an object literal:
    none for [undefined] and [null]; the index properties of strings and
    arrays are not read by these sources. *)
Definition ownProps (v : value) : list (string * value) :=
  match v with VObj ps => ps | _ => [] end.

(** [v === n] for a number literal [n] *)
Definition strict_eq_num (v : value) (n : Z) : bool :=
  match v with VNum m => m =? n | _ => false end.

(** [v === s] for a string literal [s], as in the cases of a [switch] *)
Definition is_string (v : value) (s : string) : bool :=
  match v with VStr x => String.eqb x s | _ => false end.

(** [a === b] where [b] is a number or [undefined] *)
Definition strict_eq (a b : value) : bool :=
  match a, b with
  | VUndefined, VUndefined => true
  | VNum m, VNum n => m =? n
  | _, _ => false
  end.

(** ** Strings and bytes *)

(** Strings are held as their UTF-8 bytes, so [utf8ToBytes] (and
    [TextEncoder]) is the list of bytes of the string. *)
Definition utf8ToBytes (s : string) : list byte := list_byte_of_string s.

Definition startsWith (s pre : string) : bool := String.prefix pre s.

(** The slices count positions in bytes; on ASCII text, which is what
    these sources slice (hexadecimal text and the [0x] prefix), a byte is
    a UTF-16 code unit. *)

(** [s.slice(n)] for [0 <= n] *)
Definition slice_from (n : nat) (s : string) : string :=
  String.substring n (String.length s - n) s.

(** [s.slice(0, n)] for [0 <= n] *)
Definition slice_to (n : nat) (s : string) : string :=
  String.substring 0 (Nat.min n (String.length s)) s.

(** [s.slice(-n)] for [0 < n] *)
Definition slice_last (n : nat) (s : string) : string :=
  String.substring (String.length s - n) (Nat.min n (String.length s)) s.

Fixpoint padStart_aux (n : nat) (s : string) : string :=
  match n with
  | O => s
  | S n' => String "0" (padStart_aux n' s)
  end.

(** [s.padStart(n, '0')] *)
Definition padStart (n : nat) (s : string) : string :=
  padStart_aux (n - String.length s) s.

(** [b.toString(16)] for a non-negative BigInt [b] *)
Definition BigInt_toString16 (n : Z) : string :=
  HexadecimalString.NilZero.string_of_uint (N.to_hex_uint (Z.to_N n)).

Definition ascii_lower (c : ascii) : ascii :=
  let n := nat_of_ascii c in
  if (Nat.leb 65 n && Nat.leb n 90)%bool then ascii_of_nat (n + 32) else c.

Definition ascii_upper (c : ascii) : ascii :=
  let n := nat_of_ascii c in
  if (Nat.leb 97 n && Nat.leb n 122)%bool then ascii_of_nat (n - 32) else c.

Fixpoint string_map (f : ascii -> ascii) (s : string) : string :=
  match s with
  | EmptyString => EmptyString
  | String c rest => String (f c) (string_map f rest)
  end.

Definition toLowerCase : string -> string := string_map ascii_lower.
Definition toUpperCase : string -> string := string_map ascii_upper.

(** ** What the sources import *)

(** A node of the HD tree ([HDKey] of @scure/bip32): the three fields read
    by the derivation engine, each [null] or a [Uint8Array]. *)
Record HDKey : Type := {
  hd_privateKey : option (list byte);
  hd_publicKey : option (list byte);
  hd_chainCode : option (list byte)
}.

Definition of_option_bytes (o : option (list byte)) : value :=
  match o with Some b => VBytes b | None => VNull end.

(** The object returned by [secp256k1.sign]. *)
Record Signature : Type := {
  sig_r : Z;
  sig_s : Z;
  sig_recovery : Z;
  sig_toCompactHex : string
}.

(** The lattice primitive as the signer imports it. *)
Record MlDsa : Type := {
  (** [sign(message, privateKey, { context, deterministic })] *)
  mldsa_sign : list byte -> value -> value -> value -> result (list byte);
  (** [verify(sigBytes, message, pubKey)] *)
  mldsa_verify : value -> list byte -> value -> result bool
}.

Record Imports : Type := {
  (** @scure/bip39 *)
  mnemonicToSeed : string -> result (list byte);
  (** @scure/bip32: [HDKey.fromMasterSeed], [node.derive(path)] *)
  fromMasterSeed : list byte -> result HDKey;
  derive : HDKey -> string -> result HDKey;
  (** @noble/hashes; [sha256] is only applied to byte arrays built by the
      engine itself *)
  sha256 : list byte -> list byte;
  sha3_256 : value -> result (list byte);
  (** [shake256(input, { dkLen })] *)
  shake256 : list byte -> value -> result (list byte);
  keccak_256 : value -> result (list byte);
  bytesToHex : value -> result string;
  hexToBytes : string -> result (list byte);
  (** [ml_dsa65.keygen] of @noble/post-quantum/ml-dsa.js, [None] when the
      dynamic import is rejected or the module has no such export *)
  ml_dsa65_keygen : option (list byte -> result (list byte * list byte));
  (** the export [ml_dsa_65] of @noble/post-quantum, [None] when the
      dynamic import is rejected (the sources then continue with [{}]) or
      the module has no such export *)
  ml_dsa_65 : option MlDsa;
  (** @noble/curves/secp256k1 *)
  secp256k1_sign : list byte -> value -> result Signature;
  secp256k1_verify : value -> list byte -> value -> result bool;
  (** [ProjectivePoint.fromHex(hex).toRawBytes(isCompressed)] *)
  point_toRawBytes : string -> bool -> result (list byte);
  (** host: [JSON.stringify], the spread of a value that is not a
      [Uint8Array] into a [Uint8Array], [Date.now()] *)
  JSON_stringify : value -> result string;
  spread_other : value -> result (list byte);
  Date_now : Z
}.

(** [...v] inside [new Uint8Array([ ... ])] *)
Definition spreadBytes (E : Imports) (v : value) : result (list byte) :=
  match v with
  | VBytes b => Ok b
  | _ => spread_other E v
  end.

End JS.

Import JS.
#[local] Open Scope js_scope.

(* ===================================================================== *)
(** * src/crypto/dual-key-derivation.js                                  *)
(* ===================================================================== *)

Module DualKeyDerivation.

Record PathConfig : Type := {
  PURPOSE : Z;
  COIN_TYPE : Z;
  PREFIX : string
}.

Definition DERIVATION_PATHS : list (string * PathConfig) :=
  [ ("ECDSA", {| PURPOSE := 44; COIN_TYPE := 60; PREFIX := "m/44'/60'" |});
    ("MLDSA", {| PURPOSE := 44; COIN_TYPE := 9000; PREFIX := "m/44'/9000'" |}) ].

(** The fields of an engine; [_masterSeed] is [None] until [_initialize]
    assigns it. *)
Record t : Type := {
  _seed : value;
  _masterKey : option HDKey;
  _masterSeed : option (list byte);
  _initialized : bool
}.

Definition constructor (seed : value) : t :=
  {| _seed := seed; _masterKey := None; _masterSeed := None; _initialized := false |}.

(** [_buildPath(type, accountIndex = 0, addressIndex = 0)] reads no field
    and calls no import. *)
Definition _buildPath (type : string) (accountIndex addressIndex : value) : result string :=
  let accountIndex := param (VNum 0) accountIndex in
  let addressIndex := param (VNum 0) addressIndex in
  match table_get DERIVATION_PATHS type with
  | Missing => Throw ("Invalid key type: " +:+ type)
  | Own pathConfig =>
      Ok (PREFIX pathConfig +:+ "/" +:+ toString accountIndex +:+ "'/0/" +:+ toString addressIndex)
  | Inherited =>
      Ok ("undefined/" +:+ toString accountIndex +:+ "'/0/" +:+ toString addressIndex)
  end.

(** [getDerivationPaths(accountIndex = 0, addressIndex = 0)] *)
Definition getDerivationPaths (accountIndex addressIndex : value) : M t value :=
  let accountIndex := param (VNum 0) accountIndex in
  let addressIndex := param (VNum 0) addressIndex in
  ecdsa <~ lift (_buildPath "ECDSA" accountIndex addressIndex) ;;
  mldsa <~ lift (_buildPath "MLDSA" accountIndex addressIndex) ;;
  ret (VObj [("ecdsa", VStr ecdsa); ("mldsa", VStr mldsa)]).

Section WithImports.
Context (E : Imports).

Definition _initialize : M t unit := fun this =>
  if _initialized this then (Ok tt, this)
  else
    let masterSeed :=
      match _seed this with
      | VStr mnemonic => mnemonicToSeed E mnemonic
      | VBytes b => Ok b
      | _ => Throw "Seed must be a BIP-39 mnemonic string or Uint8Array"
      end in
    match masterSeed with
    | Throw e => (Throw e, this)
    | Ok masterSeed =>
        match fromMasterSeed E masterSeed with
        | Throw e => (Throw e, this)
        | Ok masterKey =>
            (Ok tt, {| _seed := _seed this;
                       _masterKey := Some masterKey;
                       _masterSeed := Some masterSeed;
                       _initialized := true |})
        end
    end.

(** [this._masterKey.derive(path)] *)
Definition masterKey_derive (path : string) : M t HDKey := fun this =>
  match _masterKey this with
  | Some masterKey => (derive E masterKey path, this)
  | None => (Throw "Cannot read properties of null (reading 'derive')", this)
  end.

Definition deriveECDSAKey (accountIndex addressIndex : value) : M t value :=
  let accountIndex := param (VNum 0) accountIndex in
  let addressIndex := param (VNum 0) addressIndex in
  _ <~ _initialize ;;
  path <~ lift (_buildPath "ECDSA" accountIndex addressIndex) ;;
  derived <~ masterKey_derive path ;;
  match hd_privateKey derived with
  | None => throw "Failed to derive ECDSA private key"
  | Some privateKey =>
      ret (VObj [ ("privateKey", VBytes privateKey);
                  ("publicKey", of_option_bytes (hd_publicKey derived));
                  ("chainCode", of_option_bytes (hd_chainCode derived));
                  ("path", VStr path);
                  ("type", VStr "ECDSA");
                  ("curve", VStr "secp256k1");
                  ("accountIndex", accountIndex);
                  ("addressIndex", addressIndex) ])
  end.

(** [_generateMLDSAFromSeed(seed)]: the [try] block calls the imported key
    generation; the [catch] block returns two zero-filled arrays.  The two
    digests computed there are bound to constants that nothing reads. *)
Definition _generateMLDSAFromSeed (seed : list byte) : result value :=
  try_catch
    (match ml_dsa65_keygen E with
     | None => Throw "Cannot find module '@noble/post-quantum/ml-dsa.js'"
     | Some keygen =>
         let mldsaSeed := if (length seed =? 32)%nat then seed else take 32 seed in
         keyPair <- keygen mldsaSeed ;;
         Ok (VObj [ ("privateKey", VBytes (fst keyPair));
                    ("publicKey", VBytes (snd keyPair));
                    ("__placeholder", VBool false);
                    ("__seed", VBytes mldsaSeed) ])
     end)
    (fun error =>
       let expandedSeed := sha256 E (seed ++ [x00]) in
       let publicKeySeed := sha256 E (seed ++ [x01]) in
       Ok (VObj [ ("privateKey", VBytes (replicate 4032 x00));
                  ("publicKey", VBytes (replicate 1952 x00));
                  ("__placeholder", VBool true);
                  ("__seed", VBytes seed) ])).

Definition deriveMLDSAKey (accountIndex addressIndex : value) : M t value :=
  let accountIndex := param (VNum 0) accountIndex in
  let addressIndex := param (VNum 0) addressIndex in
  _ <~ _initialize ;;
  path <~ lift (_buildPath "MLDSA" accountIndex addressIndex) ;;
  derived <~ masterKey_derive path ;;
  match hd_privateKey derived with
  | None => throw "Failed to derive ML-DSA seed"
  | Some privateKey =>
      let mldsaSeed := take 32 privateKey in
      mldsaKeyPair <~ lift (_generateMLDSAFromSeed mldsaSeed) ;;
      sk <~ lift (getProp mldsaKeyPair "privateKey") ;;
      pk <~ lift (getProp mldsaKeyPair "publicKey") ;;
      ret (VObj [ ("privateKey", sk);
                  ("publicKey", pk);
                  ("seed", VBytes mldsaSeed);
                  ("path", VStr path);
                  ("type", VStr "ML-DSA");
                  ("algorithm", VStr "ML-DSA-65");
                  ("securityLevel", VNum 3);
                  ("accountIndex", accountIndex);
                  ("addressIndex", addressIndex) ])
  end.

Definition deriveBothKeys (accountIndex addressIndex : value) : M t value :=
  let accountIndex := param (VNum 0) accountIndex in
  let addressIndex := param (VNum 0) addressIndex in
  keys <~ promise_all2 (deriveECDSAKey accountIndex addressIndex)
                       (deriveMLDSAKey accountIndex addressIndex) ;;
  ret (VObj [ ("ecdsa", fst keys);
              ("mldsa", snd keys);
              ("accountIndex", accountIndex);
              ("addressIndex", addressIndex) ]).

(** [bytesToHex(keys.<kind>.<field>)] *)
Definition hex_of_key (keys : value) (kind field : string) : result string :=
  k <- getProp keys kind ;;
  b <- getProp k field ;;
  bytesToHex E b.

Definition validateDeterministic (accountIndex addressIndex : value) : M t bool :=
  let accountIndex := param (VNum 0) accountIndex in
  let addressIndex := param (VNum 0) addressIndex in
  keys1 <~ deriveBothKeys accountIndex addressIndex ;;
  keys2 <~ deriveBothKeys accountIndex addressIndex ;;
  lift (sk1 <- hex_of_key keys1 "ecdsa" "privateKey" ;;
        sk2 <- hex_of_key keys2 "ecdsa" "privateKey" ;;
        ecdsaMatch <-
          (if String.eqb sk1 sk2
           then (pk1 <- hex_of_key keys1 "ecdsa" "publicKey" ;;
                 pk2 <- hex_of_key keys2 "ecdsa" "publicKey" ;;
                 Ok (String.eqb pk1 pk2))
           else Ok false) ;;
        seed1 <- hex_of_key keys1 "mldsa" "seed" ;;
        seed2 <- hex_of_key keys2 "mldsa" "seed" ;;
        let mldsaMatch := String.eqb seed1 seed2 in
        Ok (ecdsaMatch && mldsaMatch)%bool).

End WithImports.

(** [dispose()]: the two [fill(0)] act on arrays whose references the
    engine drops in the same call. *)
Definition dispose : M t unit := fun this =>
  (Ok tt, {| _seed := VNull; _masterKey := None; _masterSeed := None; _initialized := false |}).

(** The constant [DERIVATION_PATHS] as the object it is. *)
Definition DERIVATION_PATHS_value : value :=
  VObj (map (fun entry =>
               (fst entry,
                VObj [ ("PURPOSE", VNum (PURPOSE (snd entry)));
                       ("COIN_TYPE", VNum (COIN_TYPE (snd entry)));
                       ("PREFIX", VStr (PREFIX (snd entry))) ]))
            DERIVATION_PATHS).

(** [getInfo()] *)
Definition getInfo (this : t) : value :=
  VObj [ ("initialized", VBool (_initialized this));
         ("paths", DERIVATION_PATHS_value);
         ("ecdsaCurve", VStr "secp256k1");
         ("mldsaAlgorithm", VStr "ML-DSA-65");
         ("mldsaSecurityLevel", VNum 3) ].

End DualKeyDerivation.

(* ===================================================================== *)
(** * src/crypto/ecdsa-signer.js                                         *)
(* ===================================================================== *)

Module ECDSASigner.

Record t : Type := {
  _privateKey : value;
  _publicKey : value;
  _path : value;
  _accountIndex : value;
  _addressIndex : value
}.

(** [!keyPair || !keyPair.privateKey || !keyPair.publicKey] *)
Definition invalid_keyPair (keyPair : value) : result bool :=
  if negb (truthy keyPair) then Ok true
  else
    sk <- getProp keyPair "privateKey" ;;
    if negb (truthy sk) then Ok true
    else pk <- getProp keyPair "publicKey" ;; Ok (negb (truthy pk)).

Definition constructor (keyPair : value) : result t :=
  invalid <- invalid_keyPair keyPair ;;
  if invalid : bool then Throw "Invalid key pair provided to ECDSASigner"
  else
    privateKey <- getProp keyPair "privateKey" ;;
    publicKey <- getProp keyPair "publicKey" ;;
    path <- prop_or keyPair "path" (VStr "") ;;
    accountIndex <- prop_or keyPair "accountIndex" (VNum 0) ;;
    addressIndex <- prop_or keyPair "addressIndex" (VNum 0) ;;
    Ok {| _privateKey := privateKey;
          _publicKey := publicKey;
          _path := path;
          _accountIndex := accountIndex;
          _addressIndex := addressIndex |}.

(** The text put in front of a personal message of [len] bytes (EIP-191):
    [`\x19Ethereum Signed Message:\n${len}`]. *)
Definition message_prefix (len : nat) : string :=
  String "025"%char ("Ethereum Signed Message:" +:+ String "010"%char (Z_toString (Z.of_nat len))).

(** [v.slice(1)] *)
Definition slice1 (v : value) : result value :=
  match v with
  | VBytes b => Ok (VBytes (drop 1 b))
  | VStr s => Ok (VStr (slice_from 1 s))
  | VArr l => Ok (VArr (drop 1 l))
  | VUndefined => Throw "Cannot read properties of undefined (reading 'slice')"
  | VNull => Throw "Cannot read properties of null (reading 'slice')"
  | _ => Throw "pubKey.slice is not a function"
  end.

(** [v[0] === 0x04] *)
Definition first_is_04 (v : value) : bool :=
  match v with
  | VBytes (b :: _) => N.eqb (Byte.to_N b) 4
  | VArr (x :: _) => strict_eq_num x 4
  | VObj ps => match assoc "0" ps with Some x => strict_eq_num x 4 | None => false end
  | _ => false
  end.

(** [b.slice(-20)] on a byte array *)
Definition last20 (b : list byte) : list byte := drop (length b - 20) b.

(** [s.replace(pat, '')]: the first occurrence of [pat] is removed. *)
Fixpoint remove_first (pat s : string) : string :=
  if String.prefix pat s then slice_from (String.length pat) s
  else match s with
       | EmptyString => EmptyString
       | String c rest => String c (remove_first pat rest)
       end.

(** [parseInt(c, 16)] for one character; [None] is [NaN]. *)
Definition parseInt16 (c : ascii) : option nat :=
  let n := nat_of_ascii c in
  if (Nat.leb 48 n && Nat.leb n 57)%bool then Some (n - 48)%nat
  else if (Nat.leb 97 n && Nat.leb n 102)%bool then Some (n - 87)%nat
  else if (Nat.leb 65 n && Nat.leb n 70)%bool then Some (n - 55)%nat
  else None.

(** The loop of [getChecksumAddress]: [hash[i]] is [undefined] past the
    end of [hash], and [parseInt(undefined, 16) >= 8] is false. *)
Fixpoint checksum_loop (address hash : string) : string :=
  match address with
  | EmptyString => EmptyString
  | String a rest =>
      let up := match hash with
                | String h _ => match parseInt16 h with
                                | Some d => Nat.leb 8 d
                                | None => false
                                end
                | EmptyString => false
                end in
      let hash' := match hash with String _ h' => h' | EmptyString => EmptyString end in
      String (if up then ascii_upper a else a) (checksum_loop rest hash')
  end.

Section WithImports.
Context (E : Imports).

Definition _dataToBytes (data : value) : result (list byte) :=
  match data with
  | VBytes b => Ok b
  | VStr s =>
      if startsWith s "0x" then hexToBytes E (slice_from 2 s)
      else Ok (utf8ToBytes s)
  | VNull | VArr _ | VObj _ =>
      json <- JSON_stringify E data ;; Ok (utf8ToBytes json)
  | VUndefined | VBool _ | VNum _ | VBigInt _ =>
      Throw "Unsupported data type for signing"
  end.

(** The bytes that [sign] hands to the hash function: the serialised data,
    behind the personal-message prefix when [addPrefix] is set. *)
Definition with_prefix (addPrefix : value) (message : list byte) : list byte :=
  if truthy addPrefix
  then utf8ToBytes (message_prefix (length message)) ++ message
  else message.

(** The constant [messageHash] of [sign]: what is handed to
    [secp256k1.sign]. *)
Definition sign_messageHash (hashMessage addPrefix data : value) : result (list byte) :=
  message <- _dataToBytes data ;;
  let message := with_prefix addPrefix message in
  if truthy hashMessage then keccak_256 E (VBytes message) else Ok message.

(** [sign(data, options = {})] *)
Definition sign (this : t) (data options : value) : result value :=
  let options := param (VObj []) options in
  hashMessage <- getProp options "hashMessage" ;;
  let hashMessage := param (VBool true) hashMessage in
  addPrefix <- getProp options "addPrefix" ;;
  let addPrefix := param (VBool false) addPrefix in
  messageHash <- sign_messageHash hashMessage addPrefix data ;;
  signature <- secp256k1_sign E messageHash (_privateKey this) ;;
  let recovery := sig_recovery signature in
  r <- bytesToHex E (VStr (padStart 64 (BigInt_toString16 (sig_r signature)))) ;;
  s <- bytesToHex E (VStr (padStart 64 (BigInt_toString16 (sig_s signature)))) ;;
  messageHashHex <- bytesToHex E (VBytes messageHash) ;;
  Ok (VObj [ ("r", VStr r);
             ("s", VStr s);
             ("v", VNum (recovery + 27));
             ("signature", VStr (sig_toCompactHex signature));
             ("compact", VStr (sig_toCompactHex signature));
             ("messageHash", VStr messageHashHex);
             ("recovery", VNum recovery) ]).

Definition signMessage (this : t) (message : value) : result value :=
  sign this message (VObj [("hashMessage", VBool true); ("addPrefix", VBool true)]).

Definition _serializeTransaction (tx : value) : result (list byte) :=
  nonce <- prop_or tx "nonce" (VNum 0) ;;
  gasPrice <- prop_or tx "gasPrice" (VNum 0) ;;
  gasLimit <- (gl <- getProp tx "gasLimit" ;;
               if truthy gl then Ok gl else prop_or tx "gas" (VNum 21000)) ;;
  to <- prop_or tx "to" (VStr "") ;;
  val <- prop_or tx "value" (VNum 0) ;;
  data <- prop_or tx "data" (VStr "0x") ;;
  chainId <- prop_or tx "chainId" (VNum 1) ;;
  json <- JSON_stringify E (VArr [nonce; gasPrice; gasLimit; to; val; data; chainId]) ;;
  Ok (utf8ToBytes json).

Definition signTransaction (this : t) (tx : value) : result value :=
  txData <- _serializeTransaction tx ;;
  signature <- sign this (VBytes txData)
                 (VObj [("hashMessage", VBool true); ("addPrefix", VBool false)]) ;;
  v <- getProp signature "v" ;;
  r <- getProp signature "r" ;;
  s <- getProp signature "s" ;;
  Ok (VObj (spread (ownProps tx)
              [("signature", signature); ("v", v); ("r", r); ("s", s)])).

(** The constant [messageHash] of [verify]: what is handed to
    [secp256k1.verify]. *)
Definition verify_messageHash (data : value) : result (list byte) :=
  message <- _dataToBytes data ;;
  keccak_256 E (VBytes message).

(** The statements inside the [try] block of [verify]. *)
Definition verify_body (this : t) (data signature publicKey : value) : result bool :=
  messageHash <- verify_messageHash data ;;
  let pubKey := or_else publicKey (_publicKey this) in
  sig <- (match signature with
          | VStr hex => b <- hexToBytes E hex ;; Ok (VBytes b)
          | _ => Ok signature
          end) ;;
  secp256k1_verify E sig messageHash pubKey.

(** [verify(data, signature, publicKey = null)] *)
Definition verify (this : t) (data signature publicKey : value) : result bool :=
  let publicKey := param VNull publicKey in
  try_catch (verify_body this data signature publicKey) (fun error => Ok false).

Definition getAddress (this : t) : result string :=
  let pubKey := _publicKey this in
  len <- getProp pubKey "length" ;;
  pubKey <- (if (strict_eq_num len 65 && first_is_04 pubKey)%bool then slice1 pubKey
             else if strict_eq_num len 33 then
                    hex <- bytesToHex E pubKey ;;
                    uncompressed <- point_toRawBytes E hex false ;;
                    Ok (VBytes (drop 1 uncompressed))
                  else Ok pubKey) ;;
  pubKeyHash <- keccak_256 E pubKey ;;
  let address := last20 pubKeyHash in
  hex <- bytesToHex E (VBytes address) ;;
  Ok ("0x" +:+ hex).

Definition getChecksumAddress (this : t) : result string :=
  a <- getAddress this ;;
  let address := remove_first "0x" (toLowerCase a) in
  h <- keccak_256 E (VBytes (utf8ToBytes address)) ;;
  hash <- bytesToHex E (VBytes h) ;;
  Ok ("0x" +:+ checksum_loop address hash).

Definition _getCompressedPublicKey (this : t) : result value :=
  len <- getProp (_publicKey this) "length" ;;
  if strict_eq_num len 33 then Ok (_publicKey this)
  else
    hex <- bytesToHex E (_publicKey this) ;;
    b <- point_toRawBytes E hex true ;;
    Ok (VBytes b).

Definition _getUncompressedPublicKey (this : t) : result value :=
  len <- getProp (_publicKey this) "length" ;;
  if strict_eq_num len 65 then Ok (_publicKey this)
  else
    hex <- bytesToHex E (_publicKey this) ;;
    b <- point_toRawBytes E hex false ;;
    Ok (VBytes b).

Definition getPublicKey (this : t) : result value :=
  compressed <- _getCompressedPublicKey this ;;
  uncompressed <- _getUncompressedPublicKey this ;;
  compressedHex <- bytesToHex E compressed ;;
  uncompressedHex <- bytesToHex E uncompressed ;;
  Ok (VObj [ ("compressed", VStr compressedHex);
             ("uncompressed", VStr uncompressedHex);
             ("raw", _publicKey this);
             ("path", _path this);
             ("accountIndex", _accountIndex this);
             ("addressIndex", _addressIndex this) ]).

Definition getInfo (this : t) : result value :=
  address <- getAddress this ;;
  checksumAddress <- getChecksumAddress this ;;
  compressed <- _getCompressedPublicKey this ;;
  publicKeyCompressed <- bytesToHex E compressed ;;
  Ok (VObj [ ("type", VStr "ECDSA");
             ("curve", VStr "secp256k1");
             ("address", VStr address);
             ("checksumAddress", VStr checksumAddress);
             ("publicKeyCompressed", VStr publicKeyCompressed);
             ("path", _path this);
             ("accountIndex", _accountIndex this);
             ("addressIndex", _addressIndex this) ]).

End WithImports.

(** [dispose()]: the private key is overwritten and released when it is a
    [Uint8Array]; the signer keeps no other reference to that array. *)
Definition dispose (this : t) : t :=
  {| _privateKey := if (truthy (_privateKey this) && is_Uint8Array (_privateKey this))%bool
                    then VNull else _privateKey this;
     _publicKey := VNull;
     _path := VNull;
     _accountIndex := _accountIndex this;
     _addressIndex := _addressIndex this |}.

End ECDSASigner.

(* ===================================================================== *)
(** * src/crypto/mldsa-signer.js                                         *)
(* ===================================================================== *)

Module MLDSASigner.

Record Level : Type := {
  level : Z;
  privateKeySize : Z;
  publicKeySize : Z;
  signatureSize : Z
}.

Definition ML_DSA_LEVELS : list (string * Level) :=
  [ ("ML_DSA_44", {| level := 2; privateKeySize := 2560; publicKeySize := 1312; signatureSize := 2420 |});
    ("ML_DSA_65", {| level := 3; privateKeySize := 4032; publicKeySize := 1952; signatureSize := 3293 |});
    ("ML_DSA_87", {| level := 5; privateKeySize := 4896; publicKeySize := 2592; signatureSize := 4595 |}) ].

(** [ML_DSA_LEVELS[key]]: the key is converted to a string. *)
Definition levels (key : value) : member Level := table_get ML_DSA_LEVELS (toString key).

(** [ML_DSA_LEVELS[key].signatureSize] *)
Definition levels_signatureSize (key : value) : result value :=
  match levels key with
  | Own sizes => Ok (VNum (signatureSize sizes))
  | Inherited => Ok VUndefined
  | Missing => Throw "Cannot read properties of undefined (reading 'signatureSize')"
  end.

Record t : Type := {
  _privateKey : value;
  _publicKey : value;
  _seed : value;
  _path : value;
  _algorithm : value;
  _securityLevel : value;
  _accountIndex : value;
  _addressIndex : value;
  _hasRealImplementation : value
}.

(** [!keyPair || !keyPair.privateKey || !keyPair.publicKey] *)
Definition invalid_keyPair (keyPair : value) : result bool :=
  if negb (truthy keyPair) then Ok true
  else
    sk <- getProp keyPair "privateKey" ;;
    if negb (truthy sk) then Ok true
    else pk <- getProp keyPair "publicKey" ;; Ok (negb (truthy pk)).

(** [_validateKeySizes()].  The two size comparisons only print a warning;
    reading [length] is all that is left of them. *)
Definition _validateKeySizes (this : t) : result unit :=
  match levels (_algorithm this) with
  | Missing => Throw ("Unknown ML-DSA algorithm: " +:+ toString (_algorithm this))
  | Own _ | Inherited =>
      if negb (truthy (_hasRealImplementation this)) then Ok tt
      else
        _ <- getProp (_privateKey this) "length" ;;
        _ <- getProp (_publicKey this) "length" ;;
        Ok tt
  end.

(** [constructor(keyPair)]: [_validateKeySizes] runs before
    [_hasRealImplementation] is assigned, so it reads [undefined] there. *)
Definition constructor (keyPair : value) : result t :=
  invalid <- invalid_keyPair keyPair ;;
  if invalid : bool then Throw "Invalid key pair provided to MLDSASigner"
  else
    privateKey <- getProp keyPair "privateKey" ;;
    publicKey <- getProp keyPair "publicKey" ;;
    seed <- getProp keyPair "seed" ;;
    path <- prop_or keyPair "path" (VStr "") ;;
    algorithm <- prop_or keyPair "algorithm" (VStr "ML-DSA-65") ;;
    securityLevel <- prop_or keyPair "securityLevel" (VNum 3) ;;
    accountIndex <- prop_or keyPair "accountIndex" (VNum 0) ;;
    addressIndex <- prop_or keyPair "addressIndex" (VNum 0) ;;
    let this := {| _privateKey := privateKey;
                   _publicKey := publicKey;
                   _seed := seed;
                   _path := path;
                   _algorithm := algorithm;
                   _securityLevel := securityLevel;
                   _accountIndex := accountIndex;
                   _addressIndex := addressIndex;
                   _hasRealImplementation := VUndefined |} in
    _ <- _validateKeySizes this ;;
    placeholder <- getProp keyPair "__placeholder" ;;
    Ok {| _privateKey := privateKey;
          _publicKey := publicKey;
          _seed := seed;
          _path := path;
          _algorithm := algorithm;
          _securityLevel := securityLevel;
          _accountIndex := accountIndex;
          _addressIndex := addressIndex;
          _hasRealImplementation := VBool (negb (truthy placeholder)) |}.

Definition hasRealImplementation (this : t) : value := _hasRealImplementation this.

Definition getSignatureSize (this : t) : result value := levels_signatureSize (_algorithm this).

(** [v.toLowerCase()] *)
Definition toLowerCase_of (v : value) : result string :=
  match v with
  | VStr s => Ok (toLowerCase s)
  | VUndefined => Throw "Cannot read properties of undefined (reading 'toLowerCase')"
  | VNull => Throw "Cannot read properties of null (reading 'toLowerCase')"
  | _ => Throw "this._algorithm.toLowerCase is not a function"
  end.

Section WithImports.
Context (E : Imports).

Definition _dataToBytes (data : value) : result (list byte) :=
  match data with
  | VBytes b => Ok b
  | VStr s =>
      if startsWith s "0x" then hexToBytes E (slice_from 2 s)
      else Ok (utf8ToBytes s)
  | VNull | VArr _ | VObj _ =>
      json <- JSON_stringify E data ;; Ok (utf8ToBytes json)
  | VUndefined | VBool _ | VNum _ | VBigInt _ =>
      Throw "Unsupported data type for signing"
  end.

Definition _signWithPlaceholder (this : t) (message : list byte) (context deterministic : value)
  : result value :=
  messageHash <- sha3_256 E (VBytes message) ;;
  seedHash <- sha3_256 E (or_else (_seed this) (VBytes (replicate 32 x00))) ;;
  ctx <- spreadBytes E context ;;
  combinedHash <- sha3_256 E (VBytes (messageHash ++ seedHash ++ ctx)) ;;
  expectedSize <- levels_signatureSize (_algorithm this) ;;
  signature <- shake256 E combinedHash expectedSize ;;
  signatureHex <- bytesToHex E (VBytes signature) ;;
  messageHashHex <- bytesToHex E (VBytes messageHash) ;;
  contextHex <- bytesToHex E context ;;
  Ok (VObj [ ("signature", VBytes signature);
             ("signatureHex", VStr signatureHex);
             ("algorithm", _algorithm this);
             ("securityLevel", _securityLevel this);
             ("publicKey", _publicKey this);
             ("messageHash", VStr messageHashHex);
             ("context", VStr contextHex);
             ("timestamp", VNum (Date_now E));
             ("__placeholder", VBool true) ]).

(** The [try] block of [_signWithRealImplementation]: [Ok None] when it is
    left without a [return]. *)
Definition sign_real_attempt (this : t) (message : list byte) (context deterministic : value)
  : result (option value) :=
  match ml_dsa_65 E with
  | None => Ok None
  | Some prim =>
      signature <- mldsa_sign prim message (_privateKey this) context deterministic ;;
      signatureHex <- bytesToHex E (VBytes signature) ;;
      messageHash <- sha3_256 E (VBytes message) ;;
      messageHashHex <- bytesToHex E (VBytes messageHash) ;;
      contextHex <- bytesToHex E context ;;
      Ok (Some (VObj [ ("signature", VBytes signature);
                       ("signatureHex", VStr signatureHex);
                       ("algorithm", _algorithm this);
                       ("securityLevel", _securityLevel this);
                       ("publicKey", _publicKey this);
                       ("messageHash", VStr messageHashHex);
                       ("context", VStr contextHex);
                       ("timestamp", VNum (Date_now E)) ]))
  end.

Definition _signWithRealImplementation (this : t) (message : list byte)
    (context deterministic : value) : result value :=
  match sign_real_attempt this message context deterministic with
  | Ok (Some signature) => Ok signature
  | Ok None | Throw _ => _signWithPlaceholder this message context deterministic
  end.

(** [sign(data, options = {})] *)
Definition sign (this : t) (data options : value) : result value :=
  let options := param (VObj []) options in
  deterministic <- getProp options "deterministic" ;;
  let deterministic := param (VBool true) deterministic in
  context <- getProp options "context" ;;
  let context := param (VBytes []) context in
  message <- _dataToBytes data ;;
  if truthy (_hasRealImplementation this)
  then _signWithRealImplementation this message context deterministic
  else _signWithPlaceholder this message context deterministic.

(** The signature bytes extracted by [verify]; [Ok None] is the branch
    that returns [false] at once. *)
Definition extract_sigBytes (signature : value) : result (option value) :=
  if is_Uint8Array signature then Ok (Some signature)
  else if String.eqb (typeof signature) "object" then
    inner <- getProp signature "signature" ;;
    if truthy inner then Ok (Some inner) else Ok None
  else match signature with
       | VStr hex => b <- hexToBytes E hex ;; Ok (Some (VBytes b))
       | _ => Ok None
       end.

(** The inner [try] block of [verify]: [Some b] when the imported
    primitive answered [b]; [None] when there is no primitive or it threw. *)
Definition verify_real_attempt (this : t) (sigBytes : value) (message : list byte)
    (pubKey : value) : option bool :=
  if truthy (_hasRealImplementation this) then
    match ml_dsa_65 E with
    | None => None
    | Some prim =>
        match mldsa_verify prim sigBytes message pubKey with
        | Ok b => Some b
        | Throw _ => None
        end
    end
  else None.

(** The statements inside the outer [try] block of [verify]. *)
Definition verify_body (this : t) (data signature publicKey : value) : result bool :=
  message <- _dataToBytes data ;;
  let pubKey := or_else publicKey (_publicKey this) in
  extracted <- extract_sigBytes signature ;;
  match extracted with
  | None => Ok false
  | Some sigBytes =>
      match verify_real_attempt this sigBytes message pubKey with
      | Some b => Ok b
      | None =>
          expectedSize <- levels_signatureSize (_algorithm this) ;;
          len <- getProp sigBytes "length" ;;
          Ok (strict_eq len expectedSize)
      end
  end.

(** [verify(data, signature, publicKey = null)] *)
Definition verify (this : t) (data signature publicKey : value) : result bool :=
  let publicKey := param VNull publicKey in
  try_catch (verify_body this data signature publicKey) (fun error => Ok false).

(** [bytesToHex(sha3_256(this._publicKey).slice(0, n))] *)
Definition publicKey_hash_hex (this : t) (n : nat) : result string :=
  pubKeyHash <- sha3_256 E (_publicKey this) ;;
  bytesToHex E (VBytes (take n pubKeyHash)).

Definition getAddress (this : t) : result string :=
  hex <- publicKey_hash_hex this 20 ;;
  Ok ("mldsa:" +:+ hex).

Definition getAddressFormats (this : t) : result value :=
  pubKeyHash <- sha3_256 E (_publicKey this) ;;
  let addressBytes := take 20 pubKeyHash in
  standard <- getAddress this ;;
  hex <- bytesToHex E (VBytes addressBytes) ;;
  algorithm <- toLowerCase_of (_algorithm this) ;;
  hexFull <- bytesToHex E (VBytes addressBytes) ;;
  hexHead <- bytesToHex E (VBytes addressBytes) ;;
  hexTail <- bytesToHex E (VBytes addressBytes) ;;
  Ok (VObj [ ("standard", VStr standard);
             ("hex", VStr hex);
             ("bytes", VBytes addressBytes);
             ("full", VStr ("mldsa:" +:+ algorithm +:+ ":" +:+ hexFull));
             ("truncated", VStr ("mldsa:" +:+ slice_to 8 hexHead +:+ "..." +:+ slice_last 6 hexTail)) ]).

Definition getFingerprint (this : t) : result string := publicKey_hash_hex this 8.

Definition getPublicKey (this : t) : result value :=
  hex <- bytesToHex E (_publicKey this) ;;
  size <- getProp (_publicKey this) "length" ;;
  address <- getAddress this ;;
  Ok (VObj [ ("bytes", _publicKey this);
             ("hex", VStr hex);
             ("size", size);
             ("algorithm", _algorithm this);
             ("securityLevel", _securityLevel this);
             ("path", _path this);
             ("accountIndex", _accountIndex this);
             ("addressIndex", _addressIndex this);
             ("address", VStr address) ]).

Definition exportPublicKey (this : t) : result value :=
  hex <- bytesToHex E (_publicKey this) ;;
  fingerprint <- getFingerprint this ;;
  address <- getAddress this ;;
  Ok (VObj [ ("algorithm", _algorithm this);
             ("publicKey", VStr hex);
             ("fingerprint", VStr fingerprint);
             ("address", VStr address);
             ("securityLevel", _securityLevel this) ]).

Definition getInfo (this : t) : result value :=
  address <- getAddress this ;;
  fingerprint <- getFingerprint this ;;
  let size (f : Level -> Z) : result value :=
    match levels (_algorithm this) with
    | Own sizes => Ok (VNum (f sizes))
    | Inherited => Ok VUndefined
    | Missing => Throw "Cannot read properties of undefined (reading 'publicKeySize')"
    end in
  publicKeySize <- size publicKeySize ;;
  privateKeySize <- size privateKeySize ;;
  signatureSize <- size signatureSize ;;
      Ok (VObj [ ("type", VStr "ML-DSA");
                 ("algorithm", _algorithm this);
                 ("securityLevel", _securityLevel this);
                 ("nistLevel", VStr ("NIST Level " +:+ toString (_securityLevel this)));
                 ("address", VStr address);
                 ("fingerprint", VStr fingerprint);
                 ("publicKeySize", publicKeySize);
                 ("privateKeySize", privateKeySize);
                 ("signatureSize", signatureSize);
                 ("path", _path this);
                 ("accountIndex", _accountIndex this);
                 ("addressIndex", _addressIndex this);
                 ("hasRealImplementation", _hasRealImplementation this) ]).

End WithImports.

(** [dispose()] *)
Definition dispose (this : t) : t :=
  let released (v : value) := if (truthy v && is_Uint8Array v)%bool then VNull else v in
  {| _privateKey := released (_privateKey this);
     _publicKey := VNull;
     _seed := released (_seed this);
     _path := VNull;
     _algorithm := _algorithm this;
     _securityLevel := _securityLevel this;
     _accountIndex := _accountIndex this;
     _addressIndex := _addressIndex this;
     _hasRealImplementation := _hasRealImplementation this |}.

End MLDSASigner.

(* ===================================================================== *)
(** * src/protocols/dual-signature-protocol.js                           *)
(* ===================================================================== *)

Module DualSignatureProtocol.

(** The account collaborator, as far as the protocol looks at it: for each
    of the three optional methods, [Some r] when [typeof] the property is
    ['function'], with the outcome [r] of awaiting a call; and the three
    plain properties read when the method is missing. *)
Record Account : Type := {
  getSeed : option (result value);
  account_seed : value;
  getAccountIndex : option (result value);
  accountIndex : value;
  getAddressIndex : option (result value);
  addressIndex : value
}.

Record t : Type := {
  _account : option Account;
  _config : value;
  _keyDerivation : option DualKeyDerivation.t;
  _ecdsaSigner : option ECDSASigner.t;
  _mldsaSigner : option MLDSASigner.t;
  _initialized : bool;
  _accountIndex : value;
  _addressIndex : value;
  _addressCache : gmap string value;
  _publicKeyCache : gmap string value
}.

Definition set_keyDerivation (x : option DualKeyDerivation.t) (this : t) : t :=
  {| _account := _account this; _config := _config this; _keyDerivation := x;
     _ecdsaSigner := _ecdsaSigner this; _mldsaSigner := _mldsaSigner this;
     _initialized := _initialized this; _accountIndex := _accountIndex this;
     _addressIndex := _addressIndex this; _addressCache := _addressCache this;
     _publicKeyCache := _publicKeyCache this |}.

Definition set_ecdsaSigner (x : option ECDSASigner.t) (this : t) : t :=
  {| _account := _account this; _config := _config this; _keyDerivation := _keyDerivation this;
     _ecdsaSigner := x; _mldsaSigner := _mldsaSigner this;
     _initialized := _initialized this; _accountIndex := _accountIndex this;
     _addressIndex := _addressIndex this; _addressCache := _addressCache this;
     _publicKeyCache := _publicKeyCache this |}.

Definition set_mldsaSigner (x : option MLDSASigner.t) (this : t) : t :=
  {| _account := _account this; _config := _config this; _keyDerivation := _keyDerivation this;
     _ecdsaSigner := _ecdsaSigner this; _mldsaSigner := x;
     _initialized := _initialized this; _accountIndex := _accountIndex this;
     _addressIndex := _addressIndex this; _addressCache := _addressCache this;
     _publicKeyCache := _publicKeyCache this |}.

Definition set_initialized (x : bool) (this : t) : t :=
  {| _account := _account this; _config := _config this; _keyDerivation := _keyDerivation this;
     _ecdsaSigner := _ecdsaSigner this; _mldsaSigner := _mldsaSigner this;
     _initialized := x; _accountIndex := _accountIndex this;
     _addressIndex := _addressIndex this; _addressCache := _addressCache this;
     _publicKeyCache := _publicKeyCache this |}.

Definition set_accountIndex (x : value) (this : t) : t :=
  {| _account := _account this; _config := _config this; _keyDerivation := _keyDerivation this;
     _ecdsaSigner := _ecdsaSigner this; _mldsaSigner := _mldsaSigner this;
     _initialized := _initialized this; _accountIndex := x;
     _addressIndex := _addressIndex this; _addressCache := _addressCache this;
     _publicKeyCache := _publicKeyCache this |}.

Definition set_addressIndex (x : value) (this : t) : t :=
  {| _account := _account this; _config := _config this; _keyDerivation := _keyDerivation this;
     _ecdsaSigner := _ecdsaSigner this; _mldsaSigner := _mldsaSigner this;
     _initialized := _initialized this; _accountIndex := _accountIndex this;
     _addressIndex := x; _addressCache := _addressCache this;
     _publicKeyCache := _publicKeyCache this |}.

Definition set_addressCache (x : gmap string value) (this : t) : t :=
  {| _account := _account this; _config := _config this; _keyDerivation := _keyDerivation this;
     _ecdsaSigner := _ecdsaSigner this; _mldsaSigner := _mldsaSigner this;
     _initialized := _initialized this; _accountIndex := _accountIndex this;
     _addressIndex := _addressIndex this; _addressCache := x;
     _publicKeyCache := _publicKeyCache this |}.

Definition set_publicKeyCache (x : gmap string value) (this : t) : t :=
  {| _account := _account this; _config := _config this; _keyDerivation := _keyDerivation this;
     _ecdsaSigner := _ecdsaSigner this; _mldsaSigner := _mldsaSigner this;
     _initialized := _initialized this; _accountIndex := _accountIndex this;
     _addressIndex := _addressIndex this; _addressCache := _addressCache this;
     _publicKeyCache := x |}.

Definition set_account_config (a : option Account) (c : value) (this : t) : t :=
  {| _account := a; _config := c; _keyDerivation := _keyDerivation this;
     _ecdsaSigner := _ecdsaSigner this; _mldsaSigner := _mldsaSigner this;
     _initialized := _initialized this; _accountIndex := _accountIndex this;
     _addressIndex := _addressIndex this; _addressCache := _addressCache this;
     _publicKeyCache := _publicKeyCache this |}.

(** [this.field = x] as a step of a method *)
Definition assign (f : t -> t) : M t unit := fun this => (Ok tt, f this).

Definition default_config : list (string * value) :=
  [ ("ecdsaEnabled", VBool true);
    ("mldsaEnabled", VBool true);
    ("defaultSignatureType", VStr "ecdsa");
    ("mldsaAlgorithm", VStr "ML-DSA-65");
    ("autoInitialize", VBool true) ].

(** [constructor(account, config = {})]; [None] stands for a missing
    (falsy) account. *)
Definition constructor (account : option Account) (config : value) : result t :=
  let config := param (VObj []) config in
  match account with
  | None => Throw "Account is required for DualSignatureProtocol"
  | Some _ =>
      Ok {| _account := account;
            _config := VObj (spread default_config (ownProps config));
            _keyDerivation := None;
            _ecdsaSigner := None;
            _mldsaSigner := None;
            _initialized := false;
            _accountIndex := VNull;
            _addressIndex := VNull;
            _addressCache := ∅;
            _publicKeyCache := ∅ |}
  end.

(** [this._config.k] *)
Definition config (k : string) : M t value := fun this => (getProp (_config this) k, this).

(** [this._account], for reading the property [k] of it *)
Definition account (k : string) : M t Account := fun this =>
  match _account this with
  | Some a => (Ok a, this)
  | None => (Throw ("Cannot read properties of null (reading '" +:+ k +:+ "')"), this)
  end.

Definition _getAccountIndex : M t value :=
  fromConfig <~ config "accountIndex" ;;
  match fromConfig with
  | VUndefined =>
      a <~ account "getAccountIndex" ;;
      match getAccountIndex a with
      | Some r => lift r
      | None =>
          match accountIndex a with
          | VUndefined => ret (VNum 0)
          | x => ret x
          end
      end
  | x => ret x
  end.

Definition _getAddressIndex : M t value :=
  fromConfig <~ config "addressIndex" ;;
  match fromConfig with
  | VUndefined =>
      a <~ account "getAddressIndex" ;;
      match getAddressIndex a with
      | Some r => lift r
      | None =>
          match addressIndex a with
          | VUndefined => ret (VNum 0)
          | x => ret x
          end
      end
  | x => ret x
  end.

(** [clearCaches()] *)
Definition clearCaches : M t unit :=
  _ <~ assign (set_addressCache ∅) ;;
  assign (set_publicKeyCache ∅).

(** [isInitialized()] *)
Definition isInitialized (this : t) : bool := _initialized this.

(** [dispose()]: each owned object is disposed, then its reference is
    dropped. *)
Definition dispose : M t unit :=
  this <~ get ;;
  _ <~ match _ecdsaSigner this with
       | Some signer =>
           _ <~ assign (set_ecdsaSigner (Some (ECDSASigner.dispose signer))) ;;
           assign (set_ecdsaSigner None)
       | None => ret tt
       end ;;
  _ <~ match _mldsaSigner this with
       | Some signer =>
           _ <~ assign (set_mldsaSigner (Some (MLDSASigner.dispose signer))) ;;
           assign (set_mldsaSigner None)
       | None => ret tt
       end ;;
  _ <~ match _keyDerivation this with
       | Some engine =>
           _ <~ (fun this' => let '(r, engine') := DualKeyDerivation.dispose engine in
                              (r, set_keyDerivation (Some engine') this')) ;;
           assign (set_keyDerivation None)
       | None => ret tt
       end ;;
  _ <~ clearCaches ;;
  _ <~ assign (set_initialized false) ;;
  assign (set_account_config None VNull).

Section WithImports.
Context (E : Imports).

(** A method of [this._keyDerivation], run on the engine held in that
    field. *)
Definition on_keyDerivation {A} (m : M DualKeyDerivation.t A) : M t A := fun this =>
  match _keyDerivation this with
  | Some engine => let '(r, engine') := m engine in (r, set_keyDerivation (Some engine') this)
  | None => (Throw "Cannot read properties of null", this)
  end.

(** The [try] block of [_initialize]. *)
Definition _initialize_body : M t unit :=
  fromConfig <~ config "seed" ;;
  seed <~ (if truthy fromConfig then ret fromConfig
           else
             a <~ account "getSeed" ;;
             match getSeed a with
             | Some r => lift r
             | None =>
                 if truthy (account_seed a) then ret (account_seed a)
                 else throw "No seed available for key derivation"
             end) ;;
  _ <~ assign (set_keyDerivation (Some (DualKeyDerivation.constructor seed))) ;;
  accountIndex <~ _getAccountIndex ;;
  _ <~ assign (set_accountIndex accountIndex) ;;
  addressIndex <~ _getAddressIndex ;;
  _ <~ assign (set_addressIndex addressIndex) ;;
  ecdsaEnabled <~ config "ecdsaEnabled" ;;
  _ <~ (if truthy ecdsaEnabled then
          ecdsaKey <~ on_keyDerivation (DualKeyDerivation.deriveECDSAKey E accountIndex addressIndex) ;;
          signer <~ lift (ECDSASigner.constructor ecdsaKey) ;;
          assign (set_ecdsaSigner (Some signer))
        else ret tt) ;;
  mldsaEnabled <~ config "mldsaEnabled" ;;
  _ <~ (if truthy mldsaEnabled then
          mldsaKey <~ on_keyDerivation (DualKeyDerivation.deriveMLDSAKey E accountIndex addressIndex) ;;
          signer <~ lift (MLDSASigner.constructor mldsaKey) ;;
          assign (set_mldsaSigner (Some signer))
        else ret tt) ;;
  assign (set_initialized true).

Definition _initialize : M t unit := fun this =>
  if _initialized this then (Ok tt, this)
  else
    try_catchM _initialize_body
      (fun message => throw ("Failed to initialize DualSignatureProtocol: " +:+ message)) this.

(** [initialize()] *)
Definition initialize : M t unit := _initialize.

Definition _ensureInitialized : M t unit := fun this =>
  if _initialized this then (Ok tt, this)
  else
    (autoInitialize <~ config "autoInitialize" ;;
     if truthy autoInitialize then _initialize
     else throw "DualSignatureProtocol not initialized. Call initialize() first.") this.

(** [!this._config.ecdsaEnabled || !this._ecdsaSigner], then the signer *)
Definition enabled_ecdsaSigner : M t ECDSASigner.t :=
  enabled <~ config "ecdsaEnabled" ;;
  this <~ get ;;
  match _ecdsaSigner this with
  | Some signer => if truthy enabled then ret signer else throw "ECDSA signing is not enabled"
  | None => throw "ECDSA signing is not enabled"
  end.

Definition signWithECDSA (data options : value) : M t value :=
  let options := param (VObj []) options in
  _ <~ _ensureInitialized ;;
  signer <~ enabled_ecdsaSigner ;;
  lift (ECDSASigner.sign E signer data options).

Definition signMessageWithECDSA (message : value) : M t value :=
  _ <~ _ensureInitialized ;;
  signer <~ enabled_ecdsaSigner ;;
  lift (ECDSASigner.signMessage E signer message).

Definition signTransactionWithECDSA (transaction : value) : M t value :=
  _ <~ _ensureInitialized ;;
  signer <~ enabled_ecdsaSigner ;;
  lift (ECDSASigner.signTransaction E signer transaction).

Definition signWithMLDSA (data options : value) : M t value :=
  let options := param (VObj []) options in
  _ <~ _ensureInitialized ;;
  enabled <~ config "mldsaEnabled" ;;
  this <~ get ;;
  match _mldsaSigner this with
  | Some signer =>
      if truthy enabled then lift (MLDSASigner.sign E signer data options)
      else throw "ML-DSA signing is not enabled"
  | None => throw "ML-DSA signing is not enabled"
  end.

Definition dualSign (data options : value) : M t value :=
  let options := param (VObj []) options in
  _ <~ _ensureInitialized ;;
  signatures <~ promise_all2
    (ecdsaEnabled <~ config "ecdsaEnabled" ;;
     if truthy ecdsaEnabled then signWithECDSA data options else ret VNull)
    (mldsaEnabled <~ config "mldsaEnabled" ;;
     if truthy mldsaEnabled then signWithMLDSA data options else ret VNull) ;;
  this <~ get ;;
  ret (VObj [ ("ecdsa", fst signatures);
              ("mldsa", snd signatures);
              ("data", data);
              ("timestamp", VNum (Date_now E));
              ("accountIndex", _accountIndex this);
              ("addressIndex", _addressIndex this) ]).

Definition verifyECDSA (data signature publicKey : value) : M t value :=
  let publicKey := param VNull publicKey in
  _ <~ _ensureInitialized ;;
  this <~ get ;;
  match _ecdsaSigner this with
  | None => throw "ECDSA signer not available"
  | Some signer => b <~ lift (ECDSASigner.verify E signer data signature publicKey) ;; ret (VBool b)
  end.

Definition verifyMLDSA (data signature publicKey : value) : M t value :=
  let publicKey := param VNull publicKey in
  _ <~ _ensureInitialized ;;
  this <~ get ;;
  match _mldsaSigner this with
  | None => throw "ML-DSA signer not available"
  | Some signer => b <~ lift (MLDSASigner.verify E signer data signature publicKey) ;; ret (VBool b)
  end.

(** [`${this._accountIndex}-${this._addressIndex}`] *)
Definition cacheKey (this : t) : string :=
  toString (_accountIndex this) +:+ "-" +:+ toString (_addressIndex this).

(** [signer ? f(signer) : null] *)
Definition if_signer {S} (signer : option S) (f : S -> result value) : result value :=
  match signer with
  | Some s => f s
  | None => Ok VNull
  end.

Definition cached (cache : gmap string value) (key : string) : option value :=
  match cache !! key with
  | Some v => if truthy v then Some v else None
  | None => None
  end.

Definition getPublicKeys : M t value :=
  _ <~ _ensureInitialized ;;
  this <~ get ;;
  match cached (_publicKeyCache this) (cacheKey this) with
  | Some hit => ret hit
  | None =>
      ecdsa <~ lift (if_signer (_ecdsaSigner this) (ECDSASigner.getPublicKey E)) ;;
      mldsa <~ lift (if_signer (_mldsaSigner this) (MLDSASigner.getPublicKey E)) ;;
      let publicKeys := VObj [("ecdsa", ecdsa); ("mldsa", mldsa)] in
      _ <~ assign (set_publicKeyCache (<[cacheKey this := publicKeys]> (_publicKeyCache this))) ;;
      ret publicKeys
  end.

Definition getAddresses : M t value :=
  _ <~ _ensureInitialized ;;
  this <~ get ;;
  match cached (_addressCache this) (cacheKey this) with
  | Some hit => ret hit
  | None =>
      ethereum <~ lift (if_signer (_ecdsaSigner this)
                          (fun s => a <- ECDSASigner.getAddress E s ;; Ok (VStr a))) ;;
      ethereumChecksum <~ lift (if_signer (_ecdsaSigner this)
                          (fun s => a <- ECDSASigner.getChecksumAddress E s ;; Ok (VStr a))) ;;
      mldsa <~ lift (if_signer (_mldsaSigner this)
                          (fun s => a <- MLDSASigner.getAddress E s ;; Ok (VStr a))) ;;
      mldsaFormats <~ lift (if_signer (_mldsaSigner this) (MLDSASigner.getAddressFormats E)) ;;
      let addresses := VObj [ ("ethereum", ethereum);
                              ("ethereumChecksum", ethereumChecksum);
                              ("mldsa", mldsa);
                              ("mldsaFormats", mldsaFormats) ] in
      _ <~ assign (set_addressCache (<[cacheKey this := addresses]> (_addressCache this))) ;;
      ret addresses
  end.

(** [v.slice(0, 16)] on the hex string [compressed] *)
Definition slice_0_16 (v : value) : result value :=
  match v with
  | VStr s => Ok (VStr (slice_to 16 s))
  | VBytes b => Ok (VBytes (take 16 b))
  | VArr l => Ok (VArr (take 16 l))
  | VUndefined => Throw "Cannot read properties of undefined (reading 'slice')"
  | VNull => Throw "Cannot read properties of null (reading 'slice')"
  | _ => Throw "slice is not a function"
  end.

Definition getFingerprints : M t value :=
  _ <~ _ensureInitialized ;;
  this <~ get ;;
  ecdsa <~ lift (if_signer (_ecdsaSigner this)
                   (fun s => pk <- ECDSASigner.getPublicKey E s ;;
                             compressed <- getProp pk "compressed" ;;
                             slice_0_16 compressed)) ;;
  mldsa <~ lift (if_signer (_mldsaSigner this)
                   (fun s => f <- MLDSASigner.getFingerprint E s ;; Ok (VStr f))) ;;
  ret (VObj [("ecdsa", ecdsa); ("mldsa", mldsa)]).

Definition exportPublicKeys : M t value :=
  _ <~ _ensureInitialized ;;
  addresses <~ getAddresses ;;
  publicKeys <~ getPublicKeys ;;
  fingerprints <~ getFingerprints ;;
  this <~ get ;;
  ecdsa <~ lift (if_signer (_ecdsaSigner this)
                   (fun _ => address <- getProp addresses "ethereum" ;;
                             checksumAddress <- getProp addresses "ethereumChecksum" ;;
                             pk <- getProp publicKeys "ecdsa" ;;
                             publicKey <- getProp pk "compressed" ;;
                             fingerprint <- getProp fingerprints "ecdsa" ;;
                             Ok (VObj [ ("address", address);
                                        ("checksumAddress", checksumAddress);
                                        ("publicKey", publicKey);
                                        ("fingerprint", fingerprint);
                                        ("curve", VStr "secp256k1") ]))) ;;
  mldsa <~ lift (if_signer (_mldsaSigner this)
                   (fun _ => address <- getProp addresses "mldsa" ;;
                             pk <- getProp publicKeys "mldsa" ;;
                             publicKey <- getProp pk "hex" ;;
                             fingerprint <- getProp fingerprints "mldsa" ;;
                             algorithm <- getProp (_config this) "mldsaAlgorithm" ;;
                             Ok (VObj [ ("address", address);
                                        ("publicKey", publicKey);
                                        ("fingerprint", fingerprint);
                                        ("algorithm", algorithm) ]))) ;;
  ret (VObj [ ("ecdsa", ecdsa);
              ("mldsa", mldsa);
              ("accountIndex", _accountIndex this);
              ("addressIndex", _addressIndex this) ]).

(** [sign(data, options = {})] *)
Definition sign (data options : value) : M t value :=
  let options := param (VObj []) options in
  type <~ lift (getProp options "type") ;;
  signatureType <~ (if truthy type then ret type else config "defaultSignatureType") ;;
  if is_string signatureType "ecdsa" then signWithECDSA data options
  else if is_string signatureType "mldsa" then signWithMLDSA data options
  else if is_string signatureType "dual" then dualSign data options
  else throw ("Invalid signature type: " +:+ toString signatureType).

Definition getInfo : M t value :=
  _ <~ _ensureInitialized ;;
  addresses <~ getAddresses ;;
  this <~ get ;;
  ecdsaEnabled <~ config "ecdsaEnabled" ;;
  mldsaEnabled <~ config "mldsaEnabled" ;;
  defaultSignatureType <~ config "defaultSignatureType" ;;
  mldsaAlgorithm <~ config "mldsaAlgorithm" ;;
  ecdsa <~ lift (if_signer (_ecdsaSigner this) (ECDSASigner.getInfo E)) ;;
  mldsa <~ lift (if_signer (_mldsaSigner this) (MLDSASigner.getInfo E)) ;;
  ret (VObj [ ("protocol", VStr "DualSignatureProtocol");
              ("version", VStr "1.0.0");
              ("initialized", VBool (_initialized this));
              ("config", VObj [ ("ecdsaEnabled", ecdsaEnabled);
                                ("mldsaEnabled", mldsaEnabled);
                                ("defaultSignatureType", defaultSignatureType);
                                ("mldsaAlgorithm", mldsaAlgorithm) ]);
              ("signers", VObj [("ecdsa", ecdsa); ("mldsa", mldsa)]);
              ("addresses", addresses);
              ("accountIndex", _accountIndex this);
              ("addressIndex", _addressIndex this) ]).

(** The public methods, as calls with their arguments. *)
Inductive call : Type :=
| Initialize
| IsInitialized
| SignWithECDSA (data options : value)
| SignMessageWithECDSA (message : value)
| SignTransactionWithECDSA (transaction : value)
| SignWithMLDSA (data options : value)
| DualSign (data options : value)
| VerifyECDSA (data signature publicKey : value)
| VerifyMLDSA (data signature publicKey : value)
| GetPublicKeys
| GetAddresses
| GetFingerprints
| ExportPublicKeys
| Sign (data options : value)
| GetInfo
| ClearCaches
| Dispose.

Definition run (c : call) : M t value :=
  match c with
  | Initialize => _ <~ initialize ;; ret VUndefined
  | IsInitialized => this <~ get ;; ret (VBool (isInitialized this))
  | SignWithECDSA data options => signWithECDSA data options
  | SignMessageWithECDSA message => signMessageWithECDSA message
  | SignTransactionWithECDSA transaction => signTransactionWithECDSA transaction
  | SignWithMLDSA data options => signWithMLDSA data options
  | DualSign data options => dualSign data options
  | VerifyECDSA data signature publicKey => verifyECDSA data signature publicKey
  | VerifyMLDSA data signature publicKey => verifyMLDSA data signature publicKey
  | GetPublicKeys => getPublicKeys
  | GetAddresses => getAddresses
  | GetFingerprints => getFingerprints
  | ExportPublicKeys => exportPublicKeys
  | Sign data options => sign data options
  | GetInfo => getInfo
  | ClearCaches => _ <~ clearCaches ;; ret VUndefined
  | Dispose => _ <~ dispose ;; ret VUndefined
  end.

(** A sequence of calls on one protocol object; the outcomes are returned
    in order. *)
Fixpoint run_all (cs : list call) (this : t) : list (result value) * t :=
  match cs with
  | [] => ([], this)
  | c :: rest =>
      let '(r, this') := run c this in
      let '(rs, this'') := run_all rest this' in
      (r :: rs, this'')
  end.

(** Calls that sign, verify, or query addresses, keys and information. *)
Definition is_query (c : call) : bool :=
  match c with
  | IsInitialized | ClearCaches | Dispose | Initialize => false
  | _ => true
  end.

End WithImports.

End DualSignatureProtocol.

(* ===================================================================== *)
(** * A small executable instance of the imports                         *)
(* ===================================================================== *)

(** The functions below have the interfaces of the imported packages and
    none of their strength: digests are checksums, and the two signature
    schemes are consistent (a signature made with a key verifies under the
    matching public key, against the signed bytes only) without being
    secure.  They serve to evaluate the embedding on concrete inputs. *)
Module Reference.

Definition byte_of_Z (z : Z) : byte :=
  match Byte.of_N (Z.to_N (z mod 256)) with
  | Some b => b
  | None => x00
  end.

Definition checksum (tag : Z) (b : list byte) : Z :=
  fold_left (fun acc x => Z.land (acc * 1000003 + Z.of_N (Byte.to_N x) + 1) (Z.ones 256)) b tag.

(** [n] bytes determined by [tag] and [b] *)
Definition stream (tag : Z) (n : nat) (b : list byte) : list byte :=
  let c := checksum tag b in
  map (fun i => byte_of_Z (Z.shiftr c (8 * (Z.of_nat i mod 32)) + Z.of_nat i / 32)) (seq 0 n).

Definition hex_digit (n : Z) : ascii :=
  match String.get (Z.to_nat n) "0123456789abcdef" with
  | Some c => c
  | None => "0"%char
  end.

Fixpoint hex_of_bytes (b : list byte) : string :=
  match b with
  | [] => EmptyString
  | x :: rest =>
      let n := Z.of_N (Byte.to_N x) in
      String (hex_digit (n / 16)) (String (hex_digit (n mod 16)) (hex_of_bytes rest))
  end.

Fixpoint bytes_of_hex (s : string) : result (list byte) :=
  match s with
  | EmptyString => Ok []
  | String hi (String lo rest) =>
      match ECDSASigner.parseInt16 hi, ECDSASigner.parseInt16 lo with
      | Some h, Some l =>
          tail <- bytes_of_hex rest ;;
          Ok (byte_of_Z (Z.of_nat (16 * h + l)) :: tail)
      | _, _ => Throw "hex string expected, got non-hex character"
      end
  | String _ EmptyString => Throw "hex string expected, got unpadded hex"
  end.

(** Big-endian encoding on [n] bytes, and decoding *)
Definition bytes_of_Z (n : nat) (z : Z) : list byte :=
  map (fun i => byte_of_Z (Z.shiftr z (8 * Z.of_nat (n - 1 - i)))) (seq 0 n).

Definition Z_of_bytes (b : list byte) : Z :=
  fold_left (fun acc x => acc * 256 + Z.of_N (Byte.to_N x)) b 0.

Definition as_bytes (v : value) : result (list byte) :=
  match v with
  | VBytes b => Ok b
  | _ => Throw "Uint8Array expected"
  end.

Definition quote (s : string) : string := String "034"%char (s +:+ String "034"%char EmptyString).

(** [JSON.stringify] on the values of the universe, without escapes *)
Fixpoint json (v : value) : result string :=
  match v with
  | VUndefined | VNull => Ok "null"
  | VBool true => Ok "true"
  | VBool false => Ok "false"
  | VNum n => Ok (Z_toString n)
  | VBigInt _ => Throw "Do not know how to serialize a BigInt"
  | VStr s => Ok (quote s)
  | VBytes b =>
      Ok ("{" +:+ join "," (map (fun ix => quote (Z_toString (Z.of_nat (fst ix))) +:+ ":"
                                           +:+ Z_toString (Z.of_N (Byte.to_N (snd ix))))
                                (combine (seq 0 (length b)) b)) +:+ "}")
  | VArr items =>
      parts <- fold_right (fun x acc => rest <- acc ;; s <- json x ;; Ok (s :: rest)) (Ok []) items ;;
      Ok ("[" +:+ join "," parts +:+ "]")
  | VObj props =>
      parts <- fold_right (fun kv acc =>
                             rest <- acc ;;
                             match snd kv with
                             | VUndefined => Ok rest
                             | _ => s <- json (snd kv) ;;
                                    Ok ((quote (fst kv) +:+ ":" +:+ s) :: rest)
                             end) (Ok []) props ;;
      Ok ("{" +:+ join "," parts +:+ "}")
  end.

(** The secret key of the toy schemes determines the public key. *)
Definition secp_publicKey (sk : list byte) : list byte := x02 :: stream 3 32 sk.
Definition mldsa_publicKey (sk : list byte) : list byte := stream 9 1952 sk.

Definition secp_sign (h : list byte) (privateKey : value) : result Signature :=
  sk <- as_bytes privateKey ;;
  let r := checksum 10 (sk ++ h) in
  let s := checksum 11 (secp_publicKey sk ++ h) in
  Ok {| sig_r := r; sig_s := s; sig_recovery := r mod 2;
        sig_toCompactHex := hex_of_bytes (bytes_of_Z 32 r ++ bytes_of_Z 32 s) |}.

(** The signature argument must be a byte array or hex string in compact
    form, or an object whose [r] and [s] are BigInts. *)
Definition secp_decode (signature : value) : result (Z * Z) :=
  let compact (b : list byte) :=
    if (length b =? 64)%nat then Ok (Z_of_bytes (take 32 b), Z_of_bytes (drop 32 b))
    else Throw "compact signature expected" in
  match signature with
  | VBytes b => compact b
  | VStr hex => b <- bytes_of_hex hex ;; compact b
  | VObj props =>
      match assoc "r" props, assoc "s" props with
      | Some (VBigInt r), Some (VBigInt s) => Ok (r, s)
      | _, _ => Throw "signature must be Signature instance, Uint8Array or hex string"
      end
  | _ => Throw "signature must be Signature instance, Uint8Array or hex string"
  end.

Definition secp_verify (signature : value) (h : list byte) (publicKey : value) : result bool :=
  pk <- as_bytes publicKey ;;
  rs <- secp_decode signature ;;
  Ok (snd rs =? checksum 11 (pk ++ h)).

Definition list_byte_eqb (a b : list byte) : bool :=
  (length a =? length b)%nat && forallb (fun xy => Byte.eqb (fst xy) (snd xy)) (combine a b).

Definition mldsa : MlDsa :=
  {| mldsa_sign := fun message privateKey context deterministic =>
       sk <- as_bytes privateKey ;;
       ctx <- as_bytes context ;;
       Ok (stream 8 3293 (mldsa_publicKey sk ++ ctx ++ message));
     mldsa_verify := fun sigBytes message pubKey =>
       s <- as_bytes sigBytes ;;
       pk <- as_bytes pubKey ;;
       Ok (list_byte_eqb s (stream 8 3293 (pk ++ message))) |}.

Definition hd_node (sk chain : list byte) : HDKey :=
  {| hd_privateKey := Some sk;
     hd_publicKey := Some (secp_publicKey sk);
     hd_chainCode := Some chain |}.

(** [pq]: whether the post-quantum package is installed.
    [hex_of_string]: whether [bytesToHex] accepts a string (it then encodes
    the bytes of the string) or insists on a [Uint8Array]. *)
Definition imports (pq hex_of_string : bool) : Imports :=
  {| mnemonicToSeed := fun mnemonic => Ok (stream 1 64 (utf8ToBytes mnemonic));
     fromMasterSeed := fun seed =>
       if ((16 <=? length seed) && (length seed <=? 64))%nat
       then Ok (hd_node (stream 2 32 seed) (stream 4 32 seed))
       else Throw "HDKey: seed length must be between 128 and 512 bits";
     derive := fun node path =>
       match hd_privateKey node, hd_chainCode node with
       | Some sk, Some chain =>
           if startsWith path "m"
           then Ok (hd_node (stream 5 32 (sk ++ chain ++ utf8ToBytes path))
                            (stream 6 32 (chain ++ utf8ToBytes path)))
           else Throw "Path must start with m"
       | _, _ => Throw "No private key"
       end;
     sha256 := stream 13 32;
     sha3_256 := fun v => b <- as_bytes v ;; Ok (stream 14 32 b);
     shake256 := fun input dkLen =>
       match dkLen with
       | VNum n => Ok (stream 15 (Z.to_nat n) input)
       | _ => Ok (stream 15 32 input)
       end;
     keccak_256 := fun v => b <- as_bytes v ;; Ok (stream 16 32 b);
     bytesToHex := fun v =>
       match v with
       | VBytes b => Ok (hex_of_bytes b)
       | VStr s => if hex_of_string then Ok (hex_of_bytes (utf8ToBytes s))
                   else Throw "Uint8Array expected"
       | _ => Throw "Uint8Array expected"
       end;
     hexToBytes := bytes_of_hex;
     ml_dsa65_keygen :=
       if pq then Some (fun seed => let sk := stream 7 4032 seed in Ok (sk, mldsa_publicKey sk))
       else None;
     ml_dsa_65 := if pq then Some mldsa else None;
     secp256k1_sign := secp_sign;
     secp256k1_verify := secp_verify;
     point_toRawBytes := fun hex compressed =>
       b <- bytes_of_hex hex ;;
       Ok (if compressed : bool then x02 :: stream 3 32 b else x04 :: stream 12 64 b);
     JSON_stringify := json;
     spread_other := fun v => Throw "context is not iterable";
     Date_now := 1700000000000 |}.

Definition mnemonic : value :=
  VStr "abandon abandon abandon abandon abandon abandon abandon abandon abandon abandon abandon about".

(** An account with the three methods, as the mock account of the test
    script. *)
Definition account : DualSignatureProtocol.Account :=
  {| DualSignatureProtocol.getSeed := Some (Ok mnemonic);
     DualSignatureProtocol.account_seed := mnemonic;
     DualSignatureProtocol.getAccountIndex := Some (Ok (VNum 0));
     DualSignatureProtocol.accountIndex := VUndefined;
     DualSignatureProtocol.getAddressIndex := Some (Ok (VNum 0));
     DualSignatureProtocol.addressIndex := VUndefined |}.

End Reference.

(* ===================================================================== *)
(** * Properties                                                          *)
(* ===================================================================== *)

(** ** Derivation paths *)

(** The decimal numeral of a non-negative integer. *)
Definition decimal (n : N) : string := DecimalString.NilZero.string_of_uint (N.to_uint n).

Lemma Z_toString_of_N (n : N) : Z_toString (Z.of_N n) = decimal n.
Proof. destruct n; reflexivity. Qed.

Lemma buildPath_ECDSA (a i : value) :
  DualKeyDerivation._buildPath "ECDSA" a i
  = Ok ("m/44'/60'/" +:+ toString (param (VNum 0) a) +:+ "'/0/" +:+ toString (param (VNum 0) i)).
Proof. reflexivity. Qed.

Lemma buildPath_MLDSA (a i : value) :
  DualKeyDerivation._buildPath "MLDSA" a i
  = Ok ("m/44'/9000'/" +:+ toString (param (VNum 0) a) +:+ "'/0/" +:+ toString (param (VNum 0) i)).
Proof. reflexivity. Qed.

(** An index that JavaScript holds exactly: a non-negative integer up to
    [Number.MAX_SAFE_INTEGER]. *)
Definition safe_index (n : N) : Prop := Z.of_N n <= MAX_SAFE_INTEGER.

(** A safe integer is written with all its decimal digits. *)
Lemma Number_toString_safe (n : N) :
  safe_index n -> Number_toString (Z.of_N n) = decimal n.
Proof.
  unfold safe_index, Number_toString. intros H.
  rewrite Z.abs_eq by lia.
  destruct (Z.leb_spec (Z.of_N n) MAX_SAFE_INTEGER) as [_|Hgt]; [|lia].
  apply Z_toString_of_N.
Qed.

(** C6.  For every account index [a] and address index [i] that JavaScript
    holds exactly (non-negative integers up to [Number.MAX_SAFE_INTEGER],
    which covers the indices of BIP-32), the classical path is
    [m/44'/60'/a'/0/i] and the post-quantum path is [m/44'/9000'/a'/0/i],
    with [a] and [i] written in decimal: the two strings are a common tail
    behind the prefixes [m/44'/60'] and [m/44'/9000'], so they differ in
    the coin-type segment only.  [getDerivationPaths(a, i)] returns exactly
    these two strings, leaves every field of the engine as it was, and
    calls no import (it takes none). *)
Theorem derivation_paths_differ_in_coin_type_only (a i : N) (this : DualKeyDerivation.t) :
  safe_index a ->
  safe_index i ->
  let ecdsa := "m/44'/60'/" +:+ decimal a +:+ "'/0/" +:+ decimal i in
  let mldsa := "m/44'/9000'/" +:+ decimal a +:+ "'/0/" +:+ decimal i in
  let tail := "/" +:+ decimal a +:+ "'/0/" +:+ decimal i in
  DualKeyDerivation._buildPath "ECDSA" (VNum (Z.of_N a)) (VNum (Z.of_N i)) = Ok ecdsa
  /\ DualKeyDerivation._buildPath "MLDSA" (VNum (Z.of_N a)) (VNum (Z.of_N i)) = Ok mldsa
  /\ ecdsa = "m/44'/60'" +:+ tail
  /\ mldsa = "m/44'/9000'" +:+ tail
  /\ DualKeyDerivation.getDerivationPaths (VNum (Z.of_N a)) (VNum (Z.of_N i)) this
     = (Ok (VObj [("ecdsa", VStr ecdsa); ("mldsa", VStr mldsa)]), this).
Proof.
  intros Ha Hi. cbv zeta.
  rewrite buildPath_ECDSA, buildPath_MLDSA.
  unfold DualKeyDerivation.getDerivationPaths, bindM, lift, ret.
  rewrite buildPath_ECDSA, buildPath_MLDSA.
  cbn [param toString].
  rewrite (Number_toString_safe a Ha), (Number_toString_safe i Hi).
  repeat split.
Qed.

(** The largest hardened index of BIP-32 as account, the largest safe
    integer as address index. *)
Lemma derivation_paths_differ_in_coin_type_only_witness :
  DualKeyDerivation.getDerivationPaths (VNum 2147483647) (VNum 9007199254740991)
    (DualKeyDerivation.constructor VNull)
  = (Ok (VObj [ ("ecdsa", VStr "m/44'/60'/2147483647'/0/9007199254740991");
                ("mldsa", VStr "m/44'/9000'/2147483647'/0/9007199254740991") ]),
     DualKeyDerivation.constructor VNull).
Proof.
  refine (proj2 (proj2 (proj2 (proj2
    (derivation_paths_differ_in_coin_type_only 2147483647 9007199254740991
       (DualKeyDerivation.constructor VNull) _ _))))).
  - unfold safe_index, MAX_SAFE_INTEGER. simpl. lia.
  - unfold safe_index, MAX_SAFE_INTEGER. simpl. lia.
Defined.

(** Beyond the safe integers the path is no longer the decimal numeral of
    the index: [2 ** 64] is written with zeros for its last digits, and
    from [1e21] on the segment is in exponent notation. *)
Example derivation_paths_beyond_safe_integers :
  DualKeyDerivation._buildPath "ECDSA" (VNum (2 ^ 64)) (VNum 0)
  = Ok "m/44'/60'/18446744073709552000'/0/0"
  /\ DualKeyDerivation._buildPath "ECDSA" (VNum (10 ^ 21)) (VNum 0)
     = Ok "m/44'/60'/1e+21'/0/0"
  /\ DualKeyDerivation._buildPath "MLDSA" (VNum (10 ^ 21)) (VNum 0)
     = Ok "m/44'/9000'/1e+21'/0/0".
Proof. vm_compute. repeat split. Qed.

(** The paths of the test suite. *)
Example derivation_paths_2_5 :
  fst (DualKeyDerivation.getDerivationPaths (VNum 2) (VNum 5) (DualKeyDerivation.constructor VNull))
  = Ok (VObj [("ecdsa", VStr "m/44'/60'/2'/0/5"); ("mldsa", VStr "m/44'/9000'/2'/0/5")]).
Proof. reflexivity. Qed.

(** ** Placeholder key material *)

(** The key generation of the post-quantum package cannot be used on
    [seed]: the import failed, or [keygen] throws. *)
Definition keygen_unavailable (E : Imports) (seed : list byte) : Prop :=
  match ml_dsa65_keygen E with
  | None => True
  | Some keygen =>
      exists e, keygen (if (length seed =? 32)%nat then seed else take 32 seed) = Throw e
  end.

Lemma generate_placeholder (E : Imports) (seed : list byte) :
  keygen_unavailable E seed ->
  DualKeyDerivation._generateMLDSAFromSeed E seed
  = Ok (VObj [ ("privateKey", VBytes (replicate 4032 x00));
               ("publicKey", VBytes (replicate 1952 x00));
               ("__placeholder", VBool true);
               ("__seed", VBytes seed) ]).
Proof.
  unfold keygen_unavailable, DualKeyDerivation._generateMLDSAFromSeed.
  destruct (ml_dsa65_keygen E) as [keygen|]; [intros [e He]; rewrite He|intros _]; reflexivity.
Qed.

(** C2.  In the degraded mode the two buffers have the sizes of ML-DSA-65
    (4032 and 1952 bytes), and every byte of both is zero whatever the
    sub-seed: two sub-seeds, distinct or not, yield the same key bytes. *)
Theorem placeholder_keys_ignore_the_seed (E : Imports) (seed1 seed2 : list byte) :
  keygen_unavailable E seed1 ->
  keygen_unavailable E seed2 ->
  exists kp1 kp2,
    DualKeyDerivation._generateMLDSAFromSeed E seed1 = Ok kp1
    /\ DualKeyDerivation._generateMLDSAFromSeed E seed2 = Ok kp2
    /\ getProp kp1 "privateKey" = Ok (VBytes (replicate 4032 x00))
    /\ getProp kp2 "privateKey" = Ok (VBytes (replicate 4032 x00))
    /\ getProp kp1 "publicKey" = Ok (VBytes (replicate 1952 x00))
    /\ getProp kp2 "publicKey" = Ok (VBytes (replicate 1952 x00))
    /\ length (replicate 4032 x00) = 4032%nat
    /\ length (replicate 1952 x00) = 1952%nat.
Proof.
  intros H1 H2.
  rewrite (generate_placeholder E seed1 H1), (generate_placeholder E seed2 H2).
  do 2 eexists. repeat split; apply length_replicate.
Qed.

Lemma placeholder_keys_ignore_the_seed_witness :
  exists kp1 kp2,
    DualKeyDerivation._generateMLDSAFromSeed (Reference.imports false true) (replicate 32 x00) = Ok kp1
    /\ DualKeyDerivation._generateMLDSAFromSeed (Reference.imports false true) (replicate 32 x01) = Ok kp2
    /\ getProp kp1 "privateKey" = Ok (VBytes (replicate 4032 x00))
    /\ getProp kp2 "privateKey" = Ok (VBytes (replicate 4032 x00))
    /\ getProp kp1 "publicKey" = Ok (VBytes (replicate 1952 x00))
    /\ getProp kp2 "publicKey" = Ok (VBytes (replicate 1952 x00))
    /\ length (replicate 4032 x00) = 4032%nat
    /\ length (replicate 1952 x00) = 1952%nat.
Proof.
  apply (placeholder_keys_ignore_the_seed (Reference.imports false true)
           (replicate 32 x00) (replicate 32 x01)); exact I.
Defined.

(** ** Inversion of the two sequencing operators *)

Lemma bind_Ok {A B} (r : result A) (k : A -> result B) (b : B) :
  bind r k = Ok b -> exists a, r = Ok a /\ k a = Ok b.
Proof. destruct r as [a|e]; simpl; [eauto | discriminate]. Qed.

Lemma bindM_Ok {S A B} (m : M S A) (k : A -> M S B) (s s' : S) (b : B) :
  bindM m k s = (Ok b, s') -> exists a s1, m s = (Ok a, s1) /\ k a s1 = (Ok b, s').
Proof.
  unfold bindM. destruct (m s) as [[a|e] s1]; [eauto | discriminate].
Qed.

Lemma bindM_Throw {S A B} (m : M S A) (k : A -> M S B) (s s1 : S) (e : string) :
  m s = (Throw e, s1) -> bindM m k s = (Throw e, s1).
Proof. unfold bindM. intros ->. reflexivity. Qed.

Lemma bindM_step {S A B} (m : M S A) (k : A -> M S B) (s s1 : S) (a : A) :
  m s = (Ok a, s1) -> bindM m k s = k a s1.
Proof. unfold bindM. intros ->. reflexivity. Qed.

Ltac inv_bind H :=
  let a := fresh "x" in
  let H1 := fresh "Hx" in
  apply bind_Ok in H; destruct H as (a & H1 & H).

Ltac inv_bindM H :=
  let a := fresh "x" in
  let s := fresh "s" in
  let H1 := fresh "Hx" in
  apply bindM_Ok in H; destruct H as (a & s & H1 & H).

(** ** The placeholder flag *)

(** The object returned by [deriveMLDSAKey] when the key generation is not
    installed. *)
Lemma deriveMLDSAKey_placeholder_result (E : Imports) (this this' : DualKeyDerivation.t)
    (a i kp : value) :
  ml_dsa65_keygen E = None ->
  DualKeyDerivation.deriveMLDSAKey E a i this = (Ok kp, this') ->
  exists (seed : list byte) (path : string),
    kp = VObj [ ("privateKey", VBytes (replicate 4032 x00));
                ("publicKey", VBytes (replicate 1952 x00));
                ("seed", VBytes seed);
                ("path", VStr path);
                ("type", VStr "ML-DSA");
                ("algorithm", VStr "ML-DSA-65");
                ("securityLevel", VNum 3);
                ("accountIndex", param (VNum 0) a);
                ("addressIndex", param (VNum 0) i) ].
Proof.
  intros Hpq H. unfold DualKeyDerivation.deriveMLDSAKey in H.
  inv_bindM H. inv_bindM H. inv_bindM H.
  destruct (hd_privateKey x1) as [sk|]; [|discriminate].
  rewrite generate_placeholder in H by (unfold keygen_unavailable; rewrite Hpq; exact I).
  injection H as <- _. eauto.
Qed.

(** C1.  When the key generation of the post-quantum package is not
    installed, the object that [deriveMLDSAKey] returns holds the
    zero-filled placeholder key and has no [__placeholder] property; the
    signer constructor rejects that object (its algorithm name is not a key
    of [ML_DSA_LEVELS]); and on the same object under the name [ML_DSA_65]
    the constructor succeeds with [hasRealImplementation()] true. *)
Theorem placeholder_flag_is_dropped (E : Imports) (this this' : DualKeyDerivation.t)
    (a i kp : value) :
  ml_dsa65_keygen E = None ->
  DualKeyDerivation.deriveMLDSAKey E a i this = (Ok kp, this') ->
  getProp kp "privateKey" = Ok (VBytes (replicate 4032 x00))
  /\ getProp kp "__placeholder" = Ok VUndefined
  /\ MLDSASigner.constructor kp = Throw "Unknown ML-DSA algorithm: ML-DSA-65"
  /\ exists signer,
       MLDSASigner.constructor (VObj (spread (ownProps kp) [("algorithm", VStr "ML_DSA_65")]))
       = Ok signer
       /\ MLDSASigner.hasRealImplementation signer = VBool true.
Proof.
  intros Hpq H.
  destruct (deriveMLDSAKey_placeholder_result E this this' a i kp Hpq H) as (seed & path & ->).
  repeat split; try reflexivity.
  eexists. split; reflexivity.
Qed.

Lemma placeholder_flag_is_dropped_witness :
  let E := Reference.imports false true in
  let run := DualKeyDerivation.deriveMLDSAKey E (VNum 0) (VNum 0)
               (DualKeyDerivation.constructor Reference.mnemonic) in
  exists kp,
    fst run = Ok kp
    /\ getProp kp "privateKey" = Ok (VBytes (replicate 4032 x00))
    /\ getProp kp "__placeholder" = Ok VUndefined
    /\ MLDSASigner.constructor kp = Throw "Unknown ML-DSA algorithm: ML-DSA-65"
    /\ exists signer,
         MLDSASigner.constructor (VObj (spread (ownProps kp) [("algorithm", VStr "ML_DSA_65")]))
         = Ok signer
         /\ MLDSASigner.hasRealImplementation signer = VBool true.
Proof.
  intros E run.
  destruct run as [r this'] eqn:Hrun.
  assert (Hr : exists kp, r = Ok kp).
  { revert Hrun. unfold run, E. vm_compute. intros [= <- _]. eauto. }
  destruct Hr as [kp ->].
  exists kp. split; [reflexivity|].
  exact (placeholder_flag_is_dropped E _ this' (VNum 0) (VNum 0) kp eq_refl Hrun).
Defined.

(** ** Disposal of the protocol *)

(** C7.  From every state of the protocol object (never initialised,
    ready, partly initialised, already disposed) [dispose()] returns
    without throwing; a second [dispose()] returns without throwing and
    changes nothing; [isInitialized()] answers [false] after each. *)
Theorem dispose_never_throws (this : DualSignatureProtocol.t) :
  let first := DualSignatureProtocol.dispose this in
  let second := DualSignatureProtocol.dispose (snd first) in
  fst first = Ok tt
  /\ DualSignatureProtocol.isInitialized (snd first) = false
  /\ fst second = Ok tt
  /\ DualSignatureProtocol.isInitialized (snd second) = false
  /\ snd second = snd first.
Proof.
  destruct this as [acc cfg kd es ms ini ai adi c1 c2].
  destruct es, ms, kd; repeat split.
Qed.

(** ** The disposed state *)

(** What [dispose()] leaves behind, as far as the other methods can tell. *)
Definition Disposed (this : DualSignatureProtocol.t) : Prop :=
  DualSignatureProtocol._initialized this = false
  /\ DualSignatureProtocol._config this = VNull.

(** The calls that cannot succeed on a disposed protocol: all but
    [isInitialized()], [clearCaches()] and [dispose()]. *)
Definition needs_configuration (c : DualSignatureProtocol.call) : bool :=
  match c with
  | DualSignatureProtocol.IsInitialized
  | DualSignatureProtocol.ClearCaches
  | DualSignatureProtocol.Dispose => false
  | _ => true
  end.

Lemma dispose_Disposed (this : DualSignatureProtocol.t) :
  Disposed (snd (DualSignatureProtocol.dispose this)).
Proof.
  destruct this as [acc cfg kd es ms ini ai adi c1 c2].
  destruct es, ms, kd; split; reflexivity.
Qed.

Lemma dispose_returns (this : DualSignatureProtocol.t) :
  DualSignatureProtocol.dispose this = (Ok tt, snd (DualSignatureProtocol.dispose this)).
Proof.
  destruct this as [acc cfg kd es ms ini ai adi c1 c2].
  destruct es, ms, kd; reflexivity.
Qed.

(** The check made at the head of every signing and query method reads
    [autoInitialize] from the configuration, which is [null]. *)
Lemma ensureInitialized_Disposed (E : Imports) (this : DualSignatureProtocol.t) :
  Disposed this ->
  DualSignatureProtocol._ensureInitialized E this
  = (Throw "Cannot read properties of null (reading 'autoInitialize')", this).
Proof.
  intros [Hi Hc]. unfold DualSignatureProtocol._ensureInitialized. rewrite Hi.
  unfold bindM, DualSignatureProtocol.config. rewrite Hc. reflexivity.
Qed.

Lemma initialize_Disposed (E : Imports) (this : DualSignatureProtocol.t) :
  Disposed this ->
  DualSignatureProtocol._initialize E this
  = (Throw "Failed to initialize DualSignatureProtocol: Cannot read properties of null (reading 'seed')",
     this).
Proof.
  intros [Hi Hc]. unfold DualSignatureProtocol._initialize. rewrite Hi.
  unfold try_catchM, DualSignatureProtocol._initialize_body, bindM, DualSignatureProtocol.config.
  rewrite Hc. reflexivity.
Qed.

(** A method whose first statement is [await this._ensureInitialized()]. *)
Lemma gated_Disposed (E : Imports) (this : DualSignatureProtocol.t) {A}
    (k : unit -> M DualSignatureProtocol.t A) :
  Disposed this ->
  bindM (DualSignatureProtocol._ensureInitialized E) k this
  = (Throw "Cannot read properties of null (reading 'autoInitialize')", this).
Proof.
  intros H. apply bindM_Throw, ensureInitialized_Disposed, H.
Qed.

Lemma sign_Disposed (E : Imports) (this : DualSignatureProtocol.t) (data options : value) :
  Disposed this ->
  exists e, DualSignatureProtocol.sign E data options this = (Throw e, this).
Proof.
  intros H. unfold DualSignatureProtocol.sign. cbv zeta.
  unfold bindM at 1. unfold lift at 1.
  destruct (getProp (param (VObj []) options) "type") as [type|e]; [|eauto].
  assert (Hdispatch : forall signatureType, exists e,
    (if is_string signatureType "ecdsa" then DualSignatureProtocol.signWithECDSA E data (param (VObj []) options)
     else if is_string signatureType "mldsa" then DualSignatureProtocol.signWithMLDSA E data (param (VObj []) options)
     else if is_string signatureType "dual" then DualSignatureProtocol.dualSign E data (param (VObj []) options)
     else throw ("Invalid signature type: " +:+ toString signatureType)) this = (Throw e, this)).
  { intros st.
    destruct (is_string st "ecdsa"); [eexists; apply gated_Disposed, H|].
    destruct (is_string st "mldsa"); [eexists; apply gated_Disposed, H|].
    destruct (is_string st "dual"); [eexists; apply gated_Disposed, H|].
    eexists; reflexivity. }
  unfold bindM at 1.
  destruct (truthy type).
  - unfold ret at 1. apply Hdispatch.
  - unfold DualSignatureProtocol.config at 1. destruct H as [_ ->]. simpl. eauto.
Qed.

Lemma run_Disposed (E : Imports) (c : DualSignatureProtocol.call) (this : DualSignatureProtocol.t) :
  Disposed this ->
  Disposed (snd (DualSignatureProtocol.run E c this))
  /\ (needs_configuration c = true -> exists e, fst (DualSignatureProtocol.run E c this) = Throw e).
Proof.
  intros H.
  destruct c; cbn [DualSignatureProtocol.run needs_configuration];
    try (unfold DualSignatureProtocol.signWithECDSA, DualSignatureProtocol.signMessageWithECDSA,
           DualSignatureProtocol.signTransactionWithECDSA, DualSignatureProtocol.signWithMLDSA,
           DualSignatureProtocol.dualSign, DualSignatureProtocol.verifyECDSA,
           DualSignatureProtocol.verifyMLDSA, DualSignatureProtocol.getPublicKeys,
           DualSignatureProtocol.getAddresses, DualSignatureProtocol.getFingerprints,
           DualSignatureProtocol.exportPublicKeys, DualSignatureProtocol.getInfo;
         cbv zeta; rewrite gated_Disposed by exact H; simpl; split; [exact H | eauto]).
  - (* initialize *)
    unfold bindM, DualSignatureProtocol.initialize. rewrite (initialize_Disposed E this H).
    simpl; split; [exact H | eauto].
  - (* isInitialized *)
    split; [exact H | discriminate].
  - (* sign *)
    destruct (sign_Disposed E this data options H) as [e ->]. simpl; split; [exact H | eauto].
  - (* clearCaches *)
    split; [destruct H; split; assumption | discriminate].
  - (* dispose *)
    split; [|discriminate].
    unfold bindM. rewrite dispose_returns. apply dispose_Disposed.
Qed.

Lemma run_all_Disposed (E : Imports) (calls : list DualSignatureProtocol.call)
    (this : DualSignatureProtocol.t) :
  Disposed this ->
  Disposed (snd (DualSignatureProtocol.run_all E calls this))
  /\ Forall2 (fun c r => needs_configuration c = true -> exists e, r = Throw e)
       calls (fst (DualSignatureProtocol.run_all E calls this)).
Proof.
  revert this. induction calls as [|c rest IH]; intros this H.
  - split; [exact H | constructor].
  - simpl. destruct (run_Disposed E c this H) as [H1 H2].
    destruct (DualSignatureProtocol.run E c this) as [r this1].
    destruct (IH this1 H1) as [H3 H4].
    destruct (DualSignatureProtocol.run_all E rest this1) as [rs this2].
    split; [exact H3 | constructor; assumption].
Qed.

(** C9.  After [dispose()], whatever the state and the configuration were
    (so also with [autoInitialize] true), the configuration is [null] and
    the protocol is not initialised; in every sequence of calls made
    afterwards, each signing, verifying, address, key or information call,
    and each [initialize()], throws, and [isInitialized()] stays false. *)
Theorem disposed_is_absorbing (E : Imports) (this : DualSignatureProtocol.t)
    (calls : list DualSignatureProtocol.call) :
  let disposed := snd (DualSignatureProtocol.dispose this) in
  let after := DualSignatureProtocol.run_all E calls disposed in
  DualSignatureProtocol._config disposed = VNull
  /\ DualSignatureProtocol.isInitialized disposed = false
  /\ DualSignatureProtocol.isInitialized (snd after) = false
  /\ Forall2 (fun c r => needs_configuration c = true -> exists e, r = Throw e) calls (fst after).
Proof.
  cbv zeta.
  pose proof (dispose_Disposed this) as H.
  destruct (run_all_Disposed E calls _ H) as [[Hi _] Hall].
  destruct H as [H1 H2]. auto.
Qed.

(** A protocol built with the default configuration, initialised, used and
    disposed: auto-initialisation does not bring it back. *)
Example disposed_reference_protocol :
  let E := Reference.imports false true in
  match DualSignatureProtocol.constructor (Some Reference.account)
          (VObj [("mldsaEnabled", VBool false)]) with
  | Throw _ => False
  | Ok fresh =>
      let ready := snd (DualSignatureProtocol.initialize E fresh) in
      let disposed := snd (DualSignatureProtocol.dispose ready) in
      getProp (DualSignatureProtocol._config ready) "autoInitialize" = Ok (VBool true)
      /\ DualSignatureProtocol.isInitialized ready = true
      /\ fst (DualSignatureProtocol.run E DualSignatureProtocol.GetAddresses disposed)
         = Throw "Cannot read properties of null (reading 'autoInitialize')"
      /\ fst (DualSignatureProtocol.run E DualSignatureProtocol.Initialize disposed)
         = Throw "Failed to initialize DualSignatureProtocol: Cannot read properties of null (reading 'seed')"
  end.
Proof. vm_compute. repeat split. Qed.

(** ** Verification does not throw *)



Lemma try_catch_total {A} (body : result A) (a : A) :
  exists b, try_catch body (fun _ => Ok a) = Ok b.
Proof. destruct body; simpl; eauto. Qed.











(** The [length] of a string counts UTF-16 code units, not bytes: one for
    a two-byte character, two for a four-byte one.  A signature object
    whose [signature] is a string of 3293 two-byte characters passes the
    size check. *)
Example string_length_counts_code_units :
  let two_bytes := String (ascii_of_nat 195) (String (ascii_of_nat 169) "") in
  let four_bytes :=
    String (ascii_of_nat 240) (String (ascii_of_nat 159)
      (String (ascii_of_nat 152) (String (ascii_of_nat 128) ""))) in
  let text := fold_right append "" (replicate 3293 two_bytes) in
  let signer :=
    {| MLDSASigner._privateKey := VBytes []; MLDSASigner._publicKey := VBytes [];
       MLDSASigner._seed := VUndefined; MLDSASigner._path := VStr "";
       MLDSASigner._algorithm := VStr "ML_DSA_65"; MLDSASigner._securityLevel := VNum 3;
       MLDSASigner._accountIndex := VNum 0; MLDSASigner._addressIndex := VNum 0;
       MLDSASigner._hasRealImplementation := VBool false |} in
  getProp (VStr two_bytes) "length" = Ok (VNum 1)
  /\ getProp (VStr four_bytes) "length" = Ok (VNum 2)
  /\ getProp (VStr "0x1f") "length" = Ok (VNum 4)
  /\ MLDSASigner.verify (Reference.imports true true) signer (VStr "test message")
       (VObj [("signature", VStr text)]) VUndefined = Ok true.
Proof. vm_compute. repeat split. Qed.

(** Malformed arguments on the reference instance: a number as data, [null]
    and a non-hexadecimal string as signature, a disposed signer. *)
Example verify_malformed_inputs :
  let E := Reference.imports true true in
  let classical :=
    {| ECDSASigner._privateKey := VBytes (replicate 32 x01);
       ECDSASigner._publicKey := VBytes (Reference.secp_publicKey (replicate 32 x01));
       ECDSASigner._path := VStr ""; ECDSASigner._accountIndex := VNum 0;
       ECDSASigner._addressIndex := VNum 0 |} in
  ECDSASigner.verify E classical (VNum 7) (VStr "00") VUndefined = Ok false
  /\ ECDSASigner.verify E classical (VStr "abc") VNull VUndefined = Ok false
  /\ ECDSASigner.verify E classical (VStr "abc") (VStr "not hex") VUndefined = Ok false
  /\ ECDSASigner.verify E (ECDSASigner.dispose classical) (VStr "abc") (VStr "00") VUndefined = Ok false.
Proof. vm_compute. repeat split. Qed.

(** ** Determinism of the derivations *)

(** A step that leaves the state as it found it. *)
Definition read_only {S A} (m : M S A) : Prop := forall s, snd (m s) = s.

Lemma read_only_ret {S A} (a : A) : read_only (S:=S) (ret a).
Proof. intros s. reflexivity. Qed.

Lemma read_only_throw {S A} (e : string) : read_only (S:=S) (A:=A) (throw e).
Proof. intros s. reflexivity. Qed.

Lemma read_only_lift {S A} (r : result A) : read_only (S:=S) (lift r).
Proof. intros s. reflexivity. Qed.

Lemma read_only_get {S} : read_only (S:=S) get.
Proof. intros s. reflexivity. Qed.

Lemma read_only_bindM {S A B} (m : M S A) (k : A -> M S B) :
  read_only m -> (forall a, read_only (k a)) -> read_only (bindM m k).
Proof.
  intros Hm Hk s. unfold bindM. specialize (Hm s).
  destruct (m s) as [[a|e] s1]; simpl in Hm; subst s1; [apply Hk | reflexivity].
Qed.

Lemma read_only_masterKey_derive (E : Imports) (path : string) :
  read_only (DualKeyDerivation.masterKey_derive E path).
Proof.
  intros s. unfold DualKeyDerivation.masterKey_derive.
  destruct (DualKeyDerivation._masterKey s); reflexivity.
Qed.

Create HintDb read_only.
#[local] Hint Resolve read_only_ret read_only_throw read_only_lift read_only_get
  read_only_masterKey_derive : read_only.
#[local] Hint Extern 2 (read_only (bindM _ _)) => apply read_only_bindM; [|intros ?] : read_only.
#[local] Hint Extern 3 (read_only (match ?x with _ => _ end)) => destruct x : read_only.

(** [_initialize] run again after itself answers the same and changes
    nothing: the master key is computed from the seed once. *)
Lemma initialize_again (E : Imports) (this : DualKeyDerivation.t) :
  DualKeyDerivation._initialize E (snd (DualKeyDerivation._initialize E this))
  = DualKeyDerivation._initialize E this.
Proof.
  unfold DualKeyDerivation._initialize.
  destruct (DualKeyDerivation._initialized this) eqn:Hi.
  - simpl. rewrite Hi. reflexivity.
  - destruct (DualKeyDerivation._seed this) eqn:Hs; simpl; rewrite ?Hi, ?Hs; try reflexivity.
    + destruct (mnemonicToSeed E s) as [masterSeed|e] eqn:Hm; simpl; rewrite ?Hi, ?Hs, ?Hm;
        [|reflexivity].
      destruct (fromMasterSeed E masterSeed) eqn:Hk; simpl; rewrite ?Hi, ?Hs, ?Hm, ?Hk; reflexivity.
    + destruct (fromMasterSeed E b) eqn:Hk; simpl; rewrite ?Hi, ?Hs, ?Hk; reflexivity.
Qed.

(** A method that starts with [await this._initialize()] and only reads the
    state afterwards. *)
Section AfterInitialize.
Context (E : Imports) {A B : Type}.
Context (k : unit -> M DualKeyDerivation.t A) (k' : unit -> M DualKeyDerivation.t B).
Hypothesis k_reads : forall u, read_only (k u).
Hypothesis k'_reads : forall u, read_only (k' u).

Let method := bindM (DualKeyDerivation._initialize E) k.
Let method' := bindM (DualKeyDerivation._initialize E) k'.

Lemma method_state (this : DualKeyDerivation.t) :
  snd (method this) = snd (DualKeyDerivation._initialize E this).
Proof.
  unfold method, bindM.
  destruct (DualKeyDerivation._initialize E this) as [[u|e] s1]; [apply k_reads | reflexivity].
Qed.

Lemma method_on_initialized (this : DualKeyDerivation.t) :
  method' (snd (DualKeyDerivation._initialize E this)) = method' this.
Proof.
  unfold method', bindM. rewrite initialize_again.
  destruct (DualKeyDerivation._initialize E this) as [[u|e] s1]; reflexivity.
Qed.

Lemma method_after_method (this : DualKeyDerivation.t) :
  method' (snd (method this)) = method' this.
Proof. rewrite method_state. apply method_on_initialized. Qed.
End AfterInitialize.

Lemma deriveECDSAKey_reads (E : Imports) (a i : value) :
  exists k, (forall u, read_only (k u))
            /\ DualKeyDerivation.deriveECDSAKey E a i = bindM (DualKeyDerivation._initialize E) k.
Proof.
  eexists. split; [|unfold DualKeyDerivation.deriveECDSAKey; cbv zeta; reflexivity].
  intros u. cbv beta. auto 10 with read_only.
Qed.

Lemma deriveMLDSAKey_reads (E : Imports) (a i : value) :
  exists k, (forall u, read_only (k u))
            /\ DualKeyDerivation.deriveMLDSAKey E a i = bindM (DualKeyDerivation._initialize E) k.
Proof.
  eexists. split; [|unfold DualKeyDerivation.deriveMLDSAKey; cbv zeta; reflexivity].
  intros u. cbv beta. auto 12 with read_only.
Qed.

(** Whatever derivation ran first, a derivation run next returns what it
    returns on the state before. *)
Lemma derive_after_derive (E : Imports) (this : DualKeyDerivation.t) (a i a' i' : value) :
  let dC := DualKeyDerivation.deriveECDSAKey E in
  let dM := DualKeyDerivation.deriveMLDSAKey E in
  dC a i (snd (dC a' i' this)) = dC a i this
  /\ dM a i (snd (dM a' i' this)) = dM a i this
  /\ dC a i (snd (dM a' i' this)) = dC a i this
  /\ dM a i (snd (dC a' i' this)) = dM a i this.
Proof.
  cbv zeta.
  destruct (deriveECDSAKey_reads E a i) as (kc & Hkc & ->).
  destruct (deriveMLDSAKey_reads E a i) as (km & Hkm & ->).
  destruct (deriveECDSAKey_reads E a' i') as (kc' & Hkc' & ->).
  destruct (deriveMLDSAKey_reads E a' i') as (km' & Hkm' & ->).
  repeat split; apply method_after_method; assumption.
Qed.

Lemma derive_state (E : Imports) (this : DualKeyDerivation.t) (a i : value) :
  snd (DualKeyDerivation.deriveECDSAKey E a i this) = snd (DualKeyDerivation._initialize E this)
  /\ snd (DualKeyDerivation.deriveMLDSAKey E a i this) = snd (DualKeyDerivation._initialize E this).
Proof.
  destruct (deriveECDSAKey_reads E a i) as (kc & Hkc & ->).
  destruct (deriveMLDSAKey_reads E a i) as (km & Hkm & ->).
  split; apply method_state; assumption.
Qed.

Lemma deriveBothKeys_again (E : Imports) (this : DualKeyDerivation.t) (a i : value) :
  fst (DualKeyDerivation.deriveBothKeys E a i (snd (DualKeyDerivation.deriveBothKeys E a i this)))
  = fst (DualKeyDerivation.deriveBothKeys E a i this).
Proof.
  unfold DualKeyDerivation.deriveBothKeys. cbv zeta.
  set (a0 := param (VNum 0) a). set (i0 := param (VNum 0) i).
  destruct (derive_after_derive E this a0 i0 a0 i0) as (Hcc & _ & _ & Hmc).
  destruct (derive_after_derive E (snd (DualKeyDerivation.deriveECDSAKey E a0 i0 this))
              a0 i0 a0 i0) as (_ & Hmm & Hcm & _).
  cbv zeta in *.
  unfold bindM, promise_all2.
  destruct (DualKeyDerivation.deriveECDSAKey E a0 i0 this) as [rc s1] eqn:Hc. simpl in *.
  destruct (DualKeyDerivation.deriveMLDSAKey E a0 i0 s1) as [rm s2] eqn:Hm. simpl in *.
  assert (Hs : s2 = s1).
  { pose proof (proj1 (derive_state E this a0 i0)) as H1.
    pose proof (proj2 (derive_state E s1 a0 i0)) as H2.
    rewrite Hc in H1. rewrite Hm in H2. simpl in H1, H2.
    rewrite H2, H1, initialize_again. reflexivity. }
  subst s2.
  assert (Hc1 : DualKeyDerivation.deriveECDSAKey E a0 i0 s1 = (rc, s1)).
  { rewrite Hcc. reflexivity. }
  destruct rc as [kc|e], rm as [km|e'].
  all: simpl; rewrite Hc1, Hm; reflexivity.
Qed.

(** C5.  On every engine, for every pair of indices, a second call to
    [deriveECDSAKey] returns what the first returned (the same object, or
    the same error), whether or not another derivation ran in between, and
    so does a second call to [deriveMLDSAKey]: private key, public key and
    chain code of the classical key, and the sub-seed of the post-quantum
    key (the first 32 bytes of the derived private key), are byte-identical
    across the two runs; [validateDeterministic], when it returns, returns
    [true]. *)
Theorem derivation_is_deterministic (E : Imports) (this : DualKeyDerivation.t) (a i : value) :
  let classical1 := DualKeyDerivation.deriveECDSAKey E a i this in
  let classical2 := DualKeyDerivation.deriveECDSAKey E a i (snd classical1) in
  let postQuantum1 := DualKeyDerivation.deriveMLDSAKey E a i this in
  let postQuantum2 := DualKeyDerivation.deriveMLDSAKey E a i (snd postQuantum1) in
  fst classical2 = fst classical1
  /\ fst postQuantum2 = fst postQuantum1
  /\ fst (DualKeyDerivation.deriveECDSAKey E a i (snd postQuantum1)) = fst classical1
  /\ fst (DualKeyDerivation.deriveMLDSAKey E a i (snd classical1)) = fst postQuantum1
  /\ (forall k1 k2, fst classical1 = Ok k1 -> fst classical2 = Ok k2 ->
        getProp k1 "privateKey" = getProp k2 "privateKey"
        /\ getProp k1 "publicKey" = getProp k2 "publicKey"
        /\ getProp k1 "chainCode" = getProp k2 "chainCode")
  /\ (forall k1 k2, fst postQuantum1 = Ok k1 -> fst postQuantum2 = Ok k2 ->
        getProp k1 "seed" = getProp k2 "seed"
        /\ exists sk, getProp k1 "seed" = Ok (VBytes (take 32 sk)))
  /\ (forall b this', DualKeyDerivation.validateDeterministic E a i this = (Ok b, this') ->
        b = true).
Proof.
  cbv zeta.
  destruct (derive_after_derive E this a i a i) as (Hcc & Hmm & Hcm & Hmc). cbv zeta in *.
  rewrite Hcc, Hmm, Hcm, Hmc.
  repeat split; try congruence.
  - (* the sub-seed *)
    clear - H. revert H. unfold DualKeyDerivation.deriveMLDSAKey.
    destruct (bindM _ _ this) as [r s] eqn:Hrun. simpl. intros ->.
    inv_bindM Hrun. inv_bindM Hrun. inv_bindM Hrun.
    destruct (hd_privateKey x1) as [sk|]; [|discriminate].
    inv_bindM Hrun. inv_bindM Hrun. inv_bindM Hrun.
    injection Hrun as <- _. exists sk. reflexivity.
  - (* validateDeterministic *)
    intros b this' H. unfold DualKeyDerivation.validateDeterministic in H. cbv zeta in H.
    inv_bindM H. inv_bindM H.
    pose proof (deriveBothKeys_again E this (param (VNum 0) a) (param (VNum 0) i)) as Hagain.
    rewrite Hx in Hagain. simpl in Hagain. rewrite Hx0 in Hagain. simpl in Hagain.
    injection Hagain as ->.
    unfold lift in H. injection H as H _.
    inv_bind H. inv_bind H. rewrite Hx1 in Hx2. injection Hx2 as <-.
    rewrite String.eqb_refl in H.
    inv_bind H. inv_bind Hx2. inv_bind Hx2. rewrite Hx3 in Hx4. injection Hx4 as <-.
    rewrite String.eqb_refl in Hx2. injection Hx2 as <-.
    inv_bind H. inv_bind H. rewrite Hx2 in Hx4. injection Hx4 as <-.
    rewrite String.eqb_refl in H. injection H as <-. reflexivity.
Qed.

(** The two derivations on the reference instance, run twice. *)
Example derivation_twice_on_reference :
  let E := Reference.imports true true in
  let engine := DualKeyDerivation.constructor Reference.mnemonic in
  let first := DualKeyDerivation.deriveECDSAKey E (VNum 0) (VNum 0) engine in
  let second := DualKeyDerivation.deriveECDSAKey E (VNum 0) (VNum 0) (snd first) in
  is_ok (fst first) = true
  /\ fst second = fst first
  /\ DualKeyDerivation._initialized engine = false
  /\ DualKeyDerivation._initialized (snd first) = true
  /\ fst (DualKeyDerivation.validateDeterministic E (VNum 0) (VNum 0) engine) = Ok true.
Proof. vm_compute. repeat split. Qed.

(** ** Dual signing *)

(** The configuration flag [flag] is readable and falsy, resp. truthy. *)
Definition disabled (this : DualSignatureProtocol.t) (flag : string) : Prop :=
  exists v, getProp (DualSignatureProtocol._config this) flag = Ok v /\ truthy v = false.

Definition enabled (this : DualSignatureProtocol.t) (flag : string) : Prop :=
  exists v, getProp (DualSignatureProtocol._config this) flag = Ok v /\ truthy v = true.

(** Steps that do not assign to [_config]. *)
Definition keeps_config {A} (m : M DualSignatureProtocol.t A) : Prop :=
  forall s r s', m s = (r, s') -> DualSignatureProtocol._config s' = DualSignatureProtocol._config s.

Lemma keeps_config_ret {A} (a : A) : keeps_config (ret a).
Proof. intros s r s' [= _ <-]. reflexivity. Qed.

Lemma keeps_config_throw {A} (e : string) : keeps_config (A:=A) (throw e).
Proof. intros s r s' [= _ <-]. reflexivity. Qed.

Lemma keeps_config_lift {A} (x : result A) : keeps_config (lift x).
Proof. intros s r s' [= _ <-]. reflexivity. Qed.

Lemma keeps_config_config (k : string) : keeps_config (DualSignatureProtocol.config k).
Proof. intros s r s' [= _ <-]. reflexivity. Qed.

Lemma keeps_config_account (k : string) : keeps_config (DualSignatureProtocol.account k).
Proof.
  intros s r s'. unfold DualSignatureProtocol.account.
  destruct (DualSignatureProtocol._account s); intros [= _ <-]; reflexivity.
Qed.

Lemma keeps_config_assign (f : DualSignatureProtocol.t -> DualSignatureProtocol.t) :
  (forall s, DualSignatureProtocol._config (f s) = DualSignatureProtocol._config s) ->
  keeps_config (DualSignatureProtocol.assign f).
Proof. intros Hf s r s' [= _ <-]. apply Hf. Qed.

Lemma keeps_config_bindM {A B} (m : M DualSignatureProtocol.t A)
    (k : A -> M DualSignatureProtocol.t B) :
  keeps_config m -> (forall a, keeps_config (k a)) -> keeps_config (bindM m k).
Proof.
  intros Hm Hk s r s'. unfold bindM.
  destruct (m s) as [[a|e] s1] eqn:Hms.
  - intros H. rewrite (Hk a _ _ _ H). exact (Hm _ _ _ Hms).
  - intros [= _ <-]. exact (Hm _ _ _ Hms).
Qed.

Lemma keeps_config_on_keyDerivation {A} (m : M DualKeyDerivation.t A) :
  keeps_config (DualSignatureProtocol.on_keyDerivation m).
Proof.
  intros s r s'. unfold DualSignatureProtocol.on_keyDerivation.
  destruct (DualSignatureProtocol._keyDerivation s) as [engine|].
  - destruct (m engine) as [r0 engine']. intros [= _ <-]. reflexivity.
  - intros [= _ <-]. reflexivity.
Qed.

Ltac keeps_config :=
  repeat first
    [ apply keeps_config_ret | apply keeps_config_throw | apply keeps_config_lift
    | apply keeps_config_config | apply keeps_config_account
    | apply keeps_config_on_keyDerivation
    | apply keeps_config_assign; intros ?; reflexivity
    | apply keeps_config_bindM; [|intros ?]
    | match goal with
      | |- keeps_config (match ?x with _ => _ end) => destruct x
      end ].

Lemma keeps_config_initialize_body (E : Imports) :
  keeps_config (DualSignatureProtocol._initialize_body E).
Proof.
  unfold DualSignatureProtocol._initialize_body, DualSignatureProtocol._getAccountIndex,
    DualSignatureProtocol._getAddressIndex.
  keeps_config.
Qed.

(** A successful [_initialize_body] ends with [this._initialized = true]. *)
Lemma initialize_body_Ok (E : Imports) (this s1 : DualSignatureProtocol.t) :
  DualSignatureProtocol._initialize_body E this = (Ok tt, s1) ->
  DualSignatureProtocol._initialized s1 = true.
Proof.
  unfold DualSignatureProtocol._initialize_body. intros H.
  repeat inv_bindM H.
  injection H as <-. reflexivity.
Qed.

(** When the check at the head of a method passes, the protocol is
    initialised and its configuration is the one it had. *)
Lemma ensureInitialized_Ok (E : Imports) (this s1 : DualSignatureProtocol.t) :
  DualSignatureProtocol._ensureInitialized E this = (Ok tt, s1) ->
  DualSignatureProtocol._initialized s1 = true
  /\ DualSignatureProtocol._config s1 = DualSignatureProtocol._config this.
Proof.
  unfold DualSignatureProtocol._ensureInitialized.
  destruct (DualSignatureProtocol._initialized this) eqn:Hi.
  - intros [= <-]. auto.
  - intros H. inv_bindM H.
    unfold DualSignatureProtocol.config in Hx. injection Hx as Hx <-.
    destruct (truthy x); [|discriminate].
    unfold DualSignatureProtocol._initialize in H. rewrite Hi in H.
    unfold try_catchM in H.
    destruct (DualSignatureProtocol._initialize_body E this) as [[[]|e] s2] eqn:Hb;
      [|discriminate].
    injection H as <-.
    split; [exact (initialize_body_Ok E _ _ Hb) | exact (keeps_config_initialize_body E _ _ _ Hb)].
Qed.

Lemma ensureInitialized_ready (E : Imports) (this : DualSignatureProtocol.t) :
  DualSignatureProtocol._initialized this = true ->
  DualSignatureProtocol._ensureInitialized E this = (Ok tt, this).
Proof. intros H. unfold DualSignatureProtocol._ensureInitialized. rewrite H. reflexivity. Qed.

(** What the two signers return is an object, never [null]. *)
Lemma ecdsa_sign_object (E : Imports) (signer : ECDSASigner.t) (data options v : value) :
  ECDSASigner.sign E signer data options = Ok v -> exists props, v = VObj props.
Proof.
  unfold ECDSASigner.sign. intros H. repeat inv_bind H. injection H as <-. eauto.
Qed.

Lemma mldsa_signWithPlaceholder_object (E : Imports) (signer : MLDSASigner.t)
    (message : list byte) (context deterministic v : value) :
  MLDSASigner._signWithPlaceholder E signer message context deterministic = Ok v ->
  exists props, v = VObj props.
Proof.
  unfold MLDSASigner._signWithPlaceholder. intros H. repeat inv_bind H. injection H as <-. eauto.
Qed.

Lemma mldsa_sign_object (E : Imports) (signer : MLDSASigner.t) (data options v : value) :
  MLDSASigner.sign E signer data options = Ok v -> exists props, v = VObj props.
Proof.
  unfold MLDSASigner.sign. intros H. do 3 inv_bind H.
  destruct (truthy (MLDSASigner._hasRealImplementation signer)).
  - unfold MLDSASigner._signWithRealImplementation in H.
    destruct (MLDSASigner.sign_real_attempt E signer x1 (param (VBytes []) x0)
                (param (VBool true) x)) as [[sig|]|e] eqn:Hreal;
      try (eapply mldsa_signWithPlaceholder_object; eassumption).
    injection H as <-.
    unfold MLDSASigner.sign_real_attempt in Hreal.
    destruct (ml_dsa_65 E); [|discriminate].
    repeat inv_bind Hreal. injection Hreal as <-. eauto.
  - eapply mldsa_signWithPlaceholder_object; eassumption.
Qed.

(** The two signing methods on an initialised protocol: the state is left
    as it is, and the outcome is the signer's, or the error of a disabled
    algorithm. *)
Lemma signWithECDSA_ready (E : Imports) (this : DualSignatureProtocol.t) (data options : value) :
  DualSignatureProtocol._initialized this = true ->
  DualSignatureProtocol.signWithECDSA E data options this
  = (match getProp (DualSignatureProtocol._config this) "ecdsaEnabled" with
     | Throw e => Throw e
     | Ok flag =>
         match DualSignatureProtocol._ecdsaSigner this with
         | Some signer =>
             if truthy flag then ECDSASigner.sign E signer data (param (VObj []) options)
             else Throw "ECDSA signing is not enabled"
         | None => Throw "ECDSA signing is not enabled"
         end
     end, this).
Proof.
  intros H. unfold DualSignatureProtocol.signWithECDSA. cbv zeta.
  rewrite (bindM_step _ _ _ _ _ (ensureInitialized_ready E this H)).
  unfold DualSignatureProtocol.enabled_ecdsaSigner, bindM, DualSignatureProtocol.config, get.
  destruct (getProp (DualSignatureProtocol._config this) "ecdsaEnabled") as [flag|e];
    [|reflexivity].
  destruct (DualSignatureProtocol._ecdsaSigner this); [|reflexivity].
  destruct (truthy flag); reflexivity.
Qed.

Lemma signWithMLDSA_ready (E : Imports) (this : DualSignatureProtocol.t) (data options : value) :
  DualSignatureProtocol._initialized this = true ->
  DualSignatureProtocol.signWithMLDSA E data options this
  = (match getProp (DualSignatureProtocol._config this) "mldsaEnabled" with
     | Throw e => Throw e
     | Ok flag =>
         match DualSignatureProtocol._mldsaSigner this with
         | Some signer =>
             if truthy flag then MLDSASigner.sign E signer data (param (VObj []) options)
             else Throw "ML-DSA signing is not enabled"
         | None => Throw "ML-DSA signing is not enabled"
         end
     end, this).
Proof.
  intros H. unfold DualSignatureProtocol.signWithMLDSA. cbv zeta.
  rewrite (bindM_step _ _ _ _ _ (ensureInitialized_ready E this H)).
  unfold bindM, DualSignatureProtocol.config, get.
  destruct (getProp (DualSignatureProtocol._config this) "mldsaEnabled") as [flag|e];
    [|reflexivity].
  destruct (DualSignatureProtocol._mldsaSigner this); [|reflexivity].
  destruct (truthy flag); reflexivity.
Qed.

(** One branch of [dualSign] on an initialised protocol. *)
Lemma ecdsa_branch (E : Imports) (this : DualSignatureProtocol.t) (data options : value) :
  DualSignatureProtocol._initialized this = true ->
  exists r,
    bindM (DualSignatureProtocol.config "ecdsaEnabled")
      (fun flag => if truthy flag then DualSignatureProtocol.signWithECDSA E data options
                   else ret VNull) this = (r, this)
    /\ (forall v, r = Ok v -> (v = VNull <-> disabled this "ecdsaEnabled"))
    /\ (enabled this "ecdsaEnabled" ->
        r = fst (DualSignatureProtocol.signWithECDSA E data options this)).
Proof.
  intros H. unfold bindM, DualSignatureProtocol.config, disabled, enabled.
  pose proof (signWithECDSA_ready E this data options H) as Hs.
  destruct (getProp (DualSignatureProtocol._config this) "ecdsaEnabled") as [flag|e].
  - destruct (truthy flag) eqn:Hflag.
    + rewrite Hs. eexists. split; [reflexivity|]. split; [|reflexivity].
      intros v Hv. split.
      * intros ->. destruct (DualSignatureProtocol._ecdsaSigner this); [|discriminate].
        apply ecdsa_sign_object in Hv. destruct Hv as [props Hv]. discriminate.
      * intros (v' & [= <-] & Hv'). congruence.
    + eexists. split; [reflexivity|]. split.
      * intros v [= <-]. split; eauto.
      * intros (v' & [= <-] & Hv'). congruence.
  - eexists. split; [reflexivity|]. split; [discriminate|].
    intros (v' & Hv' & _). discriminate.
Qed.

Lemma mldsa_branch (E : Imports) (this : DualSignatureProtocol.t) (data options : value) :
  DualSignatureProtocol._initialized this = true ->
  exists r,
    bindM (DualSignatureProtocol.config "mldsaEnabled")
      (fun flag => if truthy flag then DualSignatureProtocol.signWithMLDSA E data options
                   else ret VNull) this = (r, this)
    /\ (forall v, r = Ok v -> (v = VNull <-> disabled this "mldsaEnabled"))
    /\ (enabled this "mldsaEnabled" ->
        r = fst (DualSignatureProtocol.signWithMLDSA E data options this)).
Proof.
  intros H. unfold bindM, DualSignatureProtocol.config, disabled, enabled.
  pose proof (signWithMLDSA_ready E this data options H) as Hs.
  destruct (getProp (DualSignatureProtocol._config this) "mldsaEnabled") as [flag|e].
  - destruct (truthy flag) eqn:Hflag.
    + rewrite Hs. eexists. split; [reflexivity|]. split; [|reflexivity].
      intros v Hv. split.
      * intros ->. destruct (DualSignatureProtocol._mldsaSigner this); [|discriminate].
        apply mldsa_sign_object in Hv. destruct Hv as [props Hv]. discriminate.
      * intros (v' & [= <-] & Hv'). congruence.
    + eexists. split; [reflexivity|]. split.
      * intros v [= <-]. split; eauto.
      * intros (v' & [= <-] & Hv'). congruence.
  - eexists. split; [reflexivity|]. split; [discriminate|].
    intros (v' & Hv' & _). discriminate.
Qed.

(** [dualSign] once the check at its head has passed and left the state
    [ready]. *)
Lemma dualSign_ready (E : Imports) (this ready : DualSignatureProtocol.t) (data options : value) :
  DualSignatureProtocol._ensureInitialized E this = (Ok tt, ready) ->
  exists re rm,
    (forall v, re = Ok v -> (v = VNull <-> disabled this "ecdsaEnabled"))
    /\ (forall v, rm = Ok v -> (v = VNull <-> disabled this "mldsaEnabled"))
    /\ (enabled this "ecdsaEnabled" ->
        re = fst (DualSignatureProtocol.signWithECDSA E data (param (VObj []) options) ready))
    /\ (enabled this "mldsaEnabled" ->
        rm = fst (DualSignatureProtocol.signWithMLDSA E data (param (VObj []) options) ready))
    /\ DualSignatureProtocol.dualSign E data options this
       = (match re, rm with
          | Ok ecdsa, Ok mldsa =>
              Ok (VObj [ ("ecdsa", ecdsa); ("mldsa", mldsa); ("data", data);
                         ("timestamp", VNum (Date_now E));
                         ("accountIndex", DualSignatureProtocol._accountIndex ready);
                         ("addressIndex", DualSignatureProtocol._addressIndex ready) ])
          | Throw e, _ => Throw e
          | _, Throw e => Throw e
          end, ready).
Proof.
  intros Hready. destruct (ensureInitialized_Ok E _ _ Hready) as [Hi Hc].
  destruct (ecdsa_branch E ready data (param (VObj []) options) Hi) as (re & Hre & Hre1 & Hre2).
  destruct (mldsa_branch E ready data (param (VObj []) options) Hi) as (rm & Hrm & Hrm1 & Hrm2).
  exists re, rm.
  unfold disabled, enabled in *. rewrite Hc in *.
  repeat split; try (apply Hre1 || apply Hrm1); auto.
  unfold DualSignatureProtocol.dualSign. cbv zeta.
  rewrite (bindM_step _ _ _ _ _ Hready).
  unfold bindM at 1. unfold promise_all2. rewrite Hre, Hrm.
  destruct re as [ecdsa|e]; [destruct rm as [mldsa|e]|]; reflexivity.
Qed.

(** The null entries of a dual signature.  Whenever [dualSign(data)]
    returns, the [ecdsa] entry of its result is [null] exactly when the
    configuration disables the classical algorithm and the [mldsa] entry
    is [null] exactly when it disables the post-quantum algorithm.  When
    an enabled algorithm's signing call fails, [dualSign] throws.  With the post-quantum algorithm disabled,
    [signWithMLDSA] never returns: it throws "ML-DSA signing is not
    enabled" as soon as the initialisation check at its head passes. *)
Lemma dualSign_null_iff_disabled (E : Imports) (this : DualSignatureProtocol.t)
    (data options : value) :
  (forall r this',
      DualSignatureProtocol.dualSign E data options this = (Ok r, this') ->
      exists ecdsa mldsa,
        getProp r "ecdsa" = Ok ecdsa
        /\ getProp r "mldsa" = Ok mldsa
        /\ (ecdsa = VNull <-> disabled this "ecdsaEnabled")
        /\ (mldsa = VNull <-> disabled this "mldsaEnabled"))
  /\ (forall ready e,
        DualSignatureProtocol._ensureInitialized E this = (Ok tt, ready) ->
        (enabled this "ecdsaEnabled"
         /\ fst (DualSignatureProtocol.signWithECDSA E data (param (VObj []) options) ready) = Throw e)
        \/ (enabled this "mldsaEnabled"
            /\ fst (DualSignatureProtocol.signWithMLDSA E data (param (VObj []) options) ready) = Throw e) ->
        exists e', fst (DualSignatureProtocol.dualSign E data options this) = Throw e')
  /\ (disabled this "mldsaEnabled" ->
        (exists e, fst (DualSignatureProtocol.signWithMLDSA E data options this) = Throw e)
        /\ (fst (DualSignatureProtocol._ensureInitialized E this) = Ok tt ->
            fst (DualSignatureProtocol.signWithMLDSA E data options this)
            = Throw "ML-DSA signing is not enabled")).
Proof.
  split; [|split].
  - intros r this' H.
    destruct (DualSignatureProtocol._ensureInitialized E this) as [[[]|e] ready] eqn:Hready.
    + destruct (dualSign_ready E this ready data options Hready)
        as (re & rm & Hre & Hrm & _ & _ & Heq).
      rewrite Heq in H.
      destruct re as [ecdsa|e]; [|discriminate]. destruct rm as [mldsa|e]; [|discriminate].
      injection H as <- _. exists ecdsa, mldsa. auto.
    + unfold DualSignatureProtocol.dualSign in H. cbv zeta in H.
      rewrite (bindM_Throw _ _ _ _ _ Hready) in H. discriminate.
  - intros ready e Hready Hfail.
    destruct (dualSign_ready E this ready data options Hready)
      as (re & rm & _ & _ & Hre & Hrm & Heq).
    rewrite Heq. simpl.
    destruct Hfail as [[Hen Hf]|[Hen Hf]].
    + rewrite (Hre Hen), Hf. eauto.
    + rewrite (Hrm Hen), Hf. destruct re; eauto.
  - intros (flag & Hflag & Hfalsy).
    unfold DualSignatureProtocol.signWithMLDSA. cbv zeta.
    destruct (DualSignatureProtocol._ensureInitialized E this) as [[[]|e] ready] eqn:Hready.
    + destruct (ensureInitialized_Ok E _ _ Hready) as [Hi Hc].
      rewrite (bindM_step _ _ _ _ _ Hready).
      unfold bindM, DualSignatureProtocol.config, get. rewrite Hc, Hflag, Hfalsy.
      destruct (DualSignatureProtocol._mldsaSigner ready); simpl; eauto.
    + rewrite (bindM_Throw _ _ _ _ _ Hready). simpl. split; [eauto | discriminate].
Qed.

(** The contract on the reference instance: with the post-quantum
    algorithm disabled, [dualSign] returns an object as [ecdsa] and [null]
    as [mldsa], and [signWithMLDSA] throws; with the default configuration
    (both enabled) initialisation fails, because the signer constructor
    does not know the algorithm name that [deriveMLDSAKey] writes, and
    [dualSign] throws. *)
Example dualSign_on_reference :
  let E := Reference.imports true true in
  match DualSignatureProtocol.constructor (Some Reference.account)
          (VObj [("mldsaEnabled", VBool false)]),
        DualSignatureProtocol.constructor (Some Reference.account) VUndefined with
  | Ok classicalOnly, Ok both =>
      (exists r props, fst (DualSignatureProtocol.dualSign E (VStr "test") VUndefined classicalOnly) = Ok r
                       /\ getProp r "ecdsa" = Ok (VObj props)
                       /\ getProp r "mldsa" = Ok VNull)
      /\ fst (DualSignatureProtocol.signWithMLDSA E (VStr "test") VUndefined classicalOnly)
         = Throw "ML-DSA signing is not enabled"
      /\ fst (DualSignatureProtocol.dualSign E (VStr "test") VUndefined both)
         = Throw "Failed to initialize DualSignatureProtocol: Unknown ML-DSA algorithm: ML-DSA-65"
  | _, _ => False
  end.
Proof.
  vm_compute. split; [|split; reflexivity].
  do 2 eexists. split; [reflexivity|]. split; reflexivity.
Qed.

(** ** Classical signatures: what is signed and what is verified *)

(** The signer of the reference instance for a given private key. *)
Definition reference_signer (sk : list byte) : ECDSASigner.t :=
  {| ECDSASigner._privateKey := VBytes sk;
     ECDSASigner._publicKey := VBytes (Reference.secp_publicKey sk);
     ECDSASigner._path := VStr "m/44'/60'/0'/0/0";
     ECDSASigner._accountIndex := VNum 0;
     ECDSASigner._addressIndex := VNum 0 |}.

Lemma prefixed_message_differs (message : list byte) :
  utf8ToBytes (ECDSASigner.message_prefix (length message)) ++ message <> message.
Proof.
  intros Heq. apply (f_equal length) in Heq.
  rewrite length_app in Heq. unfold utf8ToBytes, ECDSASigner.message_prefix in Heq.
  simpl in Heq. lia.
Qed.

(** What [sign] returns, in terms of the hash it computed and of the
    primitive's signature over that hash. *)
Lemma ecdsa_sign_Ok (E : Imports) (this : ECDSASigner.t) (data options v : value) :
  ECDSASigner.sign E this data options = Ok v ->
  exists hashMessage addPrefix h sig hex,
    getProp (param (VObj []) options) "hashMessage" = Ok hashMessage
    /\ getProp (param (VObj []) options) "addPrefix" = Ok addPrefix
    /\ ECDSASigner.sign_messageHash E (param (VBool true) hashMessage)
         (param (VBool false) addPrefix) data = Ok h
    /\ secp256k1_sign E h (ECDSASigner._privateKey this) = Ok sig
    /\ bytesToHex E (VBytes h) = Ok hex
    /\ getProp v "signature" = Ok (VStr (sig_toCompactHex sig))
    /\ getProp v "messageHash" = Ok (VStr hex)
    /\ exists r, getProp v "r" = Ok (VStr r).
Proof.
  unfold ECDSASigner.sign. intros H. repeat inv_bind H. injection H as <-.
  do 5 eexists. repeat split; try eassumption. eexists. reflexivity.
Qed.

(** The signature that [verify] hands to the primitive: the decoded bytes
    of a string argument, any other argument as it is. *)
Definition handed_to_primitive (E : Imports) (signature sig : value) : Prop :=
  match signature with
  | VStr hex => exists b, hexToBytes E hex = Ok b /\ sig = VBytes b
  | _ => sig = signature
  end.

(** [verify] answers [true] only when the primitive accepted the
    signature argument against the hash computed by [verify]. *)
Lemma ecdsa_verify_true (E : Imports) (this : ECDSASigner.t) (data signature publicKey : value) :
  ECDSASigner.verify E this data signature publicKey = Ok true ->
  exists h sig,
    ECDSASigner.verify_messageHash E data = Ok h
    /\ handed_to_primitive E signature sig
    /\ secp256k1_verify E sig h (or_else (param VNull publicKey) (ECDSASigner._publicKey this))
       = Ok true.
Proof.
  unfold ECDSASigner.verify, ECDSASigner.verify_body. cbv zeta.
  destruct (ECDSASigner.verify_messageHash E data) as [h|e]; [|discriminate].
  simpl. intros H. exists h.
  destruct signature as [ | |b|n|n|hex|b|items|props];
    try (simpl in H; eexists; split; [reflexivity|]; split; [reflexivity|];
         match type of H with try_catch ?x _ = _ => destruct x as [[]|]; try discriminate end;
         reflexivity).
  simpl in H. destruct (hexToBytes E hex) as [b|e] eqn:Hhex; [|discriminate].
  simpl in H. exists (VBytes b). split; [reflexivity|]. split; [simpl; eauto|].
  match type of H with try_catch ?x _ = _ => destruct x as [[]|]; try discriminate end.
  reflexivity.
Qed.

(** C10.  For every data that serialises to the bytes [message]:
    [verify] hashes [message] itself, without the personal-message prefix,
    while [signMessage] hashes the prefixed bytes (the prefix text, the
    decimal length, then [message]), and the prefixed bytes are never equal
    to [message].  So the hash that [verify] checks is the hash of other
    bytes than the hash that was signed: the two are equal only if
    keccak-256 collides on two different byte strings.  And [verify]
    applied to the same data and to the compact signature returned by
    [signMessage] answers [true] only if the primitive accepts, against the
    hash of [message], the signature it made for the hash of the prefixed
    bytes; whatever the signature argument, [verify] answers [true] only if
    the primitive accepted it against the hash of [message]. *)
Theorem signMessage_signs_what_verify_does_not_check (E : Imports) (this : ECDSASigner.t)
    (data : value) (message : list byte) :
  ECDSASigner._dataToBytes E data = Ok message ->
  let prefixed := utf8ToBytes (ECDSASigner.message_prefix (length message)) ++ message in
  prefixed <> message
  /\ ECDSASigner.sign_messageHash E (VBool true) (VBool true) data = keccak_256 E (VBytes prefixed)
  /\ ECDSASigner.verify_messageHash E data = keccak_256 E (VBytes message)
  /\ (forall h,
        ECDSASigner.sign_messageHash E (VBool true) (VBool true) data = Ok h ->
        ECDSASigner.verify_messageHash E data = Ok h ->
        exists x y : list byte,
          x <> y /\ keccak_256 E (VBytes x) = Ok h /\ keccak_256 E (VBytes y) = Ok h)
  /\ (forall v compact publicKey,
        ECDSASigner.signMessage E this data = Ok v ->
        getProp v "signature" = Ok compact ->
        ECDSASigner.verify E this data compact publicKey = Ok true ->
        exists signed checked sig b,
          keccak_256 E (VBytes prefixed) = Ok signed
          /\ keccak_256 E (VBytes message) = Ok checked
          /\ secp256k1_sign E signed (ECDSASigner._privateKey this) = Ok sig
          /\ hexToBytes E (sig_toCompactHex sig) = Ok b
          /\ secp256k1_verify E (VBytes b) checked
               (or_else (param VNull publicKey) (ECDSASigner._publicKey this)) = Ok true)
  /\ (forall signature publicKey,
        ECDSASigner.verify E this data signature publicKey = Ok true ->
        exists checked handed,
          keccak_256 E (VBytes message) = Ok checked
          /\ handed_to_primitive E signature handed
          /\ secp256k1_verify E handed checked
               (or_else (param VNull publicKey) (ECDSASigner._publicKey this)) = Ok true).
Proof.
  intros Hdata prefixed.
  assert (Hs : ECDSASigner.sign_messageHash E (VBool true) (VBool true) data
               = keccak_256 E (VBytes prefixed)).
  { unfold ECDSASigner.sign_messageHash. rewrite Hdata. reflexivity. }
  assert (Hv : ECDSASigner.verify_messageHash E data = keccak_256 E (VBytes message)).
  { unfold ECDSASigner.verify_messageHash. rewrite Hdata. reflexivity. }
  split; [apply prefixed_message_differs|]. split; [exact Hs|]. split; [exact Hv|].
  split; [|split].
  - intros h H1 H2. rewrite Hs in H1. rewrite Hv in H2.
    exists prefixed, message. split; [apply prefixed_message_differs | auto].
  - intros v compact publicKey Hsign Hcompact Hverify.
    unfold ECDSASigner.signMessage in Hsign.
    destruct (ecdsa_sign_Ok E this data _ v Hsign)
      as (hm & ap & h & sig & hex & Hhm & Hap & Hh & Hsig & Hhex & Hv1 & Hv2 & _).
    injection Hhm as <-. injection Hap as <-. simpl in Hh. rewrite Hs in Hh.
    rewrite Hv1 in Hcompact. injection Hcompact as <-.
    destruct (ecdsa_verify_true E this data _ publicKey Hverify)
      as (h' & sig' & Hh' & (b & Hb & ->) & Hp).
    rewrite Hv in Hh'.
    exists h, h', sig, b. auto.
  - intros signature publicKey Hverify.
    destruct (ecdsa_verify_true E this data signature publicKey Hverify)
      as (h' & sig' & Hh' & Hhanded & Hp).
    rewrite Hv in Hh'. eauto.
Qed.

Lemma signMessage_signs_what_verify_does_not_check_witness :
  let E := Reference.imports true true in
  let this := reference_signer (replicate 32 x01) in
  let data := VStr "test message" in
  let message := utf8ToBytes "test message" in
  let prefixed := utf8ToBytes (ECDSASigner.message_prefix (length message)) ++ message in
  ECDSASigner._dataToBytes E data = Ok message
  /\ prefixed <> message
  /\ ECDSASigner.sign_messageHash E (VBool true) (VBool true) data = keccak_256 E (VBytes prefixed)
  /\ ECDSASigner.verify_messageHash E data = keccak_256 E (VBytes message).
Proof.
  intros E this data message prefixed.
  split; [reflexivity|].
  destruct (signMessage_signs_what_verify_does_not_check E this data message eq_refl)
    as (H1 & H2 & H3 & _).
  auto.
Defined.

(** On the reference instance: the compact signature made by [sign]
    verifies against the same data, the one made by [signMessage] does
    not, and the two hashes reported differ. *)
Example signMessage_roundtrip_on_reference :
  let E := Reference.imports true true in
  let this := reference_signer (replicate 32 x01) in
  let data := VStr "test message" in
  match ECDSASigner.sign E this data VUndefined, ECDSASigner.signMessage E this data with
  | Ok plain, Ok personal =>
      match getProp plain "signature", getProp personal "signature" with
      | Ok compact, Ok compact' =>
          ECDSASigner.verify E this data compact VUndefined = Ok true
          /\ ECDSASigner.verify E this data compact' VUndefined = Ok false
          /\ getProp plain "messageHash" <> getProp personal "messageHash"
      | _, _ => False
      end
  | _, _ => False
  end.
Proof. vm_compute. repeat split. discriminate. Qed.

(** ** The round trip of the classical signer *)

(** The input contract of the curve primitive's [verify]: an object is
    taken for a signature only when its [r] is a BigInt. *)
Definition rejects_foreign_objects (E : Imports) : Prop :=
  forall props h publicKey,
    (forall n, assoc "r" props <> Some (VBigInt n)) ->
    secp256k1_verify E (VObj props) h publicKey <> Ok true.

Lemma reference_rejects_foreign_objects (pq hex : bool) :
  rejects_foreign_objects (Reference.imports pq hex).
Proof.
  intros props h publicKey Hr. simpl. unfold Reference.secp_verify.
  destruct (Reference.as_bytes publicKey) as [pk|e]; [|discriminate]. simpl.
  destruct (assoc "r" props) as [[ | |b|n|n|s|b|items|ps]|] eqn:Hr'; try discriminate.
  exfalso. exact (Hr n eq_refl).
Qed.

(** C3.  Under the input contract of the curve primitive, the classical
    [verify] applied to the data and to the object that [sign] returned for
    it (default options on both calls) answers [false]: [sign] returns an
    object whose [r] and [s] are strings, and [verify] hands that object to
    the primitive as it is. *)
Theorem ecdsa_verify_rejects_the_sign_result (E : Imports) (this : ECDSASigner.t)
    (data v : value) :
  rejects_foreign_objects E ->
  ECDSASigner.sign E this data VUndefined = Ok v ->
  ECDSASigner.verify E this data v VUndefined = Ok false.
Proof.
  intros Hcontract Hsign.
  pose proof Hsign as Hshape. unfold ECDSASigner.sign in Hshape.
  repeat inv_bind Hshape. injection Hshape as <-.
  unfold ECDSASigner.verify, ECDSASigner.verify_body. cbv zeta.
  destruct (ECDSASigner.verify_messageHash E data) as [h|e]; [|reflexivity].
  simpl bind.
  match goal with
  | |- try_catch (secp256k1_verify E (VObj ?props) h ?pk) _ = _ =>
      pose proof (Hcontract props h pk) as Hno;
      destruct (secp256k1_verify E (VObj props) h pk) as [[]|]
  end; try reflexivity.
  exfalso. apply Hno; [|reflexivity]. intros n. discriminate.
Qed.

Lemma ecdsa_verify_rejects_the_sign_result_witness :
  let E := Reference.imports true true in
  let this := reference_signer (replicate 32 x01) in
  exists v,
    ECDSASigner.sign E this (VStr "test message") VUndefined = Ok v
    /\ ECDSASigner.verify E this (VStr "test message") v VUndefined = Ok false.
Proof.
  intros E this.
  destruct (ECDSASigner.sign E this (VStr "test message") VUndefined) as [v|e] eqn:Hsign.
  - exists v. split; [reflexivity|].
    exact (ecdsa_verify_rejects_the_sign_result E this (VStr "test message") v
             (reference_rejects_foreign_objects true true) Hsign).
  - exfalso. revert Hsign. vm_compute. discriminate.
Defined.

(** ** Further properties of the signers and of initialisation *)

(** The object returned by [_generateMLDSAFromSeed], in either mode. *)
Lemma generate_result (E : Imports) (seed : list byte) :
  exists sk pk placeholder seed',
    DualKeyDerivation._generateMLDSAFromSeed E seed
    = Ok (VObj [ ("privateKey", VBytes sk); ("publicKey", VBytes pk);
                 ("__placeholder", VBool placeholder); ("__seed", VBytes seed') ]).
Proof.
  unfold DualKeyDerivation._generateMLDSAFromSeed.
  destruct (ml_dsa65_keygen E) as [keygen|]; simpl.
  - destruct (keygen _) as [[sk pk]|e]; simpl; do 4 eexists; reflexivity.
  - do 4 eexists; reflexivity.
Qed.

(** Whatever the mode, the signer constructor rejects the object that
    [deriveMLDSAKey] returns: ['ML-DSA-65'] is not a key of
    [ML_DSA_LEVELS], whose keys are spelt with underscores. *)
Lemma constructor_rejects_derived_key (E : Imports) (this this' : DualKeyDerivation.t)
    (a i kp : value) :
  DualKeyDerivation.deriveMLDSAKey E a i this = (Ok kp, this') ->
  MLDSASigner.constructor kp = Throw "Unknown ML-DSA algorithm: ML-DSA-65".
Proof.
  intros H. unfold DualKeyDerivation.deriveMLDSAKey in H.
  inv_bindM H. inv_bindM H. inv_bindM H.
  destruct (hd_privateKey x1) as [sk|]; [|discriminate].
  destruct (generate_result E (take 32 sk)) as (sk' & pk' & ph & seed' & Hg).
  rewrite Hg in H. injection H as <- _. reflexivity.
Qed.

Lemma on_keyDerivation_Ok {A} (m : M DualKeyDerivation.t A) (s s' : DualSignatureProtocol.t)
    (a : A) :
  DualSignatureProtocol.on_keyDerivation m s = (Ok a, s') ->
  exists engine engine', m engine = (Ok a, engine').
Proof.
  unfold DualSignatureProtocol.on_keyDerivation.
  destruct (DualSignatureProtocol._keyDerivation s) as [engine|]; [|discriminate].
  destruct (m engine) as [r engine'] eqn:Hm. intros [= -> _]. eauto.
Qed.

(** A step that can succeed only from a configuration satisfying [Q]. *)
Definition succeeds_only_if {A} (m : M DualSignatureProtocol.t A) (Q : value -> Prop) : Prop :=
  forall s a s', m s = (Ok a, s') -> Q (DualSignatureProtocol._config s).

Lemma succeeds_only_if_later {A B} (m : M DualSignatureProtocol.t A)
    (k : A -> M DualSignatureProtocol.t B) (Q : value -> Prop) :
  keeps_config m -> (forall a, succeeds_only_if (k a) Q) -> succeeds_only_if (bindM m k) Q.
Proof.
  intros Hm Hk s b s' H. inv_bindM H.
  rewrite <- (Hm _ _ _ Hx). exact (Hk _ _ _ _ H).
Qed.

(** Initialisation cannot succeed while the configuration enables the
    post-quantum algorithm: the key is derived, and the signer constructor
    rejects it. *)
Lemma initialize_body_needs_mldsa_disabled (E : Imports) :
  succeeds_only_if (DualSignatureProtocol._initialize_body E)
    (fun config => exists flag, getProp config "mldsaEnabled" = Ok flag /\ truthy flag = false).
Proof.
  unfold DualSignatureProtocol._initialize_body.
  do 9 (apply succeeds_only_if_later;
        [unfold DualSignatureProtocol._getAccountIndex, DualSignatureProtocol._getAddressIndex;
         keeps_config | intros ?]).
  intros s u s' H.
  inv_bindM H. unfold DualSignatureProtocol.config in Hx. injection Hx as Hflag <-.
  exists x. split; [exact Hflag|].
  destruct (truthy x); [|reflexivity]. exfalso.
  inv_bindM H. inv_bindM Hx. inv_bindM Hx.
  destruct (on_keyDerivation_Ok _ _ _ _ Hx0) as (engine & engine' & Hderive).
  unfold lift in Hx1. injection Hx1 as Hx1 _.
  rewrite (constructor_rejects_derived_key E _ _ _ _ _ Hderive) in Hx1. discriminate.
Qed.

(** X1.  The post-quantum signer of a protocol is never set: [initialize()],
    explicit or automatic, throws whenever the configuration enables the
    post-quantum algorithm. *)
Theorem initialize_fails_when_mldsa_enabled (E : Imports) (this : DualSignatureProtocol.t) :
  DualSignatureProtocol._initialized this = false ->
  enabled this "mldsaEnabled" ->
  exists e,
    fst (DualSignatureProtocol.initialize E this) = Throw e
    /\ forall ready, DualSignatureProtocol._ensureInitialized E this <> (Ok tt, ready).
Proof.
  intros Hi (flag & Hflag & Htruthy).
  assert (Hbody : forall s1, DualSignatureProtocol._initialize_body E this <> (Ok tt, s1)).
  { intros s1 H. destruct (initialize_body_needs_mldsa_disabled E _ _ _ H) as (flag' & Hf & Hfalsy).
    rewrite Hflag in Hf. injection Hf as <-. congruence. }
  assert (Hinit : exists e s1, DualSignatureProtocol._initialize E this = (Throw e, s1)).
  { unfold DualSignatureProtocol._initialize. rewrite Hi. unfold try_catchM.
    destruct (DualSignatureProtocol._initialize_body E this) as [[[]|e] s1] eqn:Hb.
    - exfalso. exact (Hbody s1 eq_refl).
    - unfold throw. eauto. }
  destruct Hinit as (e & s1 & Hinit).
  exists e. split.
  - unfold DualSignatureProtocol.initialize. rewrite Hinit. reflexivity.
  - intros ready. unfold DualSignatureProtocol._ensureInitialized. rewrite Hi.
    unfold bindM, DualSignatureProtocol.config.
    destruct (getProp (DualSignatureProtocol._config this) "autoInitialize") as [auto|e0];
      [|discriminate].
    destruct (truthy auto); [rewrite Hinit|]; discriminate.
Qed.

Lemma initialize_fails_when_mldsa_enabled_witness :
  let E := Reference.imports true true in
  exists this e,
    DualSignatureProtocol.constructor (Some Reference.account) VUndefined = Ok this
    /\ fst (DualSignatureProtocol.initialize E this) = Throw e.
Proof.
  intros E.
  destruct (DualSignatureProtocol.constructor (Some Reference.account) VUndefined)
    as [this|e0] eqn:Hc; [|discriminate].
  injection Hc as Hc.
  destruct (initialize_fails_when_mldsa_enabled E this) as (e & He & _).
  - rewrite <- Hc. reflexivity.
  - exists (VBool true). rewrite <- Hc. split; reflexivity.
  - exists this, e. split; [reflexivity | exact He].
Defined.

(** The sizes of the table are positive. *)
Lemma levels_Own (algorithm : value) (sizes : MLDSASigner.Level) :
  MLDSASigner.levels algorithm = Own sizes -> 0 < MLDSASigner.signatureSize sizes.
Proof.
  unfold MLDSASigner.levels, table_get. simpl.
  repeat match goal with
         | |- context [if ?c then _ else _] => destruct c
         end; intros [= <-] || discriminate; reflexivity.
Qed.

(** The extendable-output function returns as many bytes as it is asked
    for. *)
Definition shake256_has_requested_length (E : Imports) : Prop :=
  forall input n out,
    0 <= n -> shake256 E input (VNum n) = Ok out -> Z.of_nat (length out) = n.

Lemma reference_shake256_length (pq hex : bool) :
  shake256_has_requested_length (Reference.imports pq hex).
Proof.
  intros input n out Hn. simpl. intros [= <-]. unfold Reference.stream.
  rewrite length_map, length_seq. lia.
Qed.

(** X2.  The post-quantum round trip in the size-only mode (the signer holds
    placeholder material, or the primitive cannot be imported): [verify]
    accepts what [sign] returned for the same data, default options on
    both calls. *)
Theorem mldsa_size_only_roundtrip (E : Imports) (this : MLDSASigner.t) (data v : value)
    (sizes : MLDSASigner.Level) :
  shake256_has_requested_length E ->
  MLDSASigner.levels (MLDSASigner._algorithm this) = Own sizes ->
  truthy (MLDSASigner._hasRealImplementation this) = false \/ ml_dsa_65 E = None ->
  MLDSASigner.sign E this data VUndefined = Ok v ->
  MLDSASigner.verify E this data v VUndefined = Ok true.
Proof.
  intros Hshake Hlevels Hmode Hsign.
  assert (Hplaceholder : exists message,
    MLDSASigner._dataToBytes E data = Ok message
    /\ MLDSASigner._signWithPlaceholder E this message (VBytes []) (VBool true) = Ok v).
  { unfold MLDSASigner.sign in Hsign. simpl in Hsign. inv_bind Hsign.
    exists x. split; [assumption|].
    destruct Hmode as [Hmode|Hmode].
    - rewrite Hmode in Hsign. exact Hsign.
    - destruct (truthy (MLDSASigner._hasRealImplementation this)); [|exact Hsign].
      unfold MLDSASigner._signWithRealImplementation, MLDSASigner.sign_real_attempt in Hsign.
      rewrite Hmode in Hsign. exact Hsign. }
  destruct Hplaceholder as (message & Hdata & Hp).
  unfold MLDSASigner._signWithPlaceholder in Hp.
  unfold MLDSASigner.levels_signatureSize in Hp. rewrite Hlevels in Hp.
  simpl in Hp. repeat inv_bind Hp. injection Hp as <-.
  unfold MLDSASigner.verify, MLDSASigner.verify_body. cbv zeta. rewrite Hdata. simpl.
  assert (Hattempt : forall sigBytes pubKey,
            MLDSASigner.verify_real_attempt E this sigBytes message pubKey = None).
  { intros. unfold MLDSASigner.verify_real_attempt.
    destruct Hmode as [->| ->]; [reflexivity|].
    destruct (truthy _); reflexivity. }
  rewrite Hattempt. unfold MLDSASigner.levels_signatureSize. rewrite Hlevels. simpl.
  match goal with
  | H : shake256 E _ _ = Ok _ |- _ =>
      rewrite (Hshake _ _ _ (Z.lt_le_incl _ _ (levels_Own _ _ Hlevels)) H)
  end.
  rewrite Z.eqb_refl. reflexivity.
Qed.

Lemma mldsa_size_only_roundtrip_witness :
  let E := Reference.imports false true in
  let this :=
    {| MLDSASigner._privateKey := VBytes (replicate 4032 x00);
       MLDSASigner._publicKey := VBytes (replicate 1952 x00);
       MLDSASigner._seed := VBytes (replicate 32 x01);
       MLDSASigner._path := VStr "";
       MLDSASigner._algorithm := VStr "ML_DSA_65";
       MLDSASigner._securityLevel := VNum 3;
       MLDSASigner._accountIndex := VNum 0;
       MLDSASigner._addressIndex := VNum 0;
       MLDSASigner._hasRealImplementation := VBool false |} in
  MLDSASigner.constructor
    (VObj [ ("privateKey", VBytes (replicate 4032 x00));
            ("publicKey", VBytes (replicate 1952 x00));
            ("seed", VBytes (replicate 32 x01));
            ("algorithm", VStr "ML_DSA_65");
            ("__placeholder", VBool true) ]) = Ok this
  /\ exists v,
       MLDSASigner.sign E this (VStr "test message") VUndefined = Ok v
       /\ MLDSASigner.verify E this (VStr "test message") v VUndefined = Ok true.
Proof.
  intros E this. split; [reflexivity|].
  destruct (MLDSASigner.sign E this (VStr "test message") VUndefined) as [v|e] eqn:Hsign.
  - exists v. split; [reflexivity|].
    exact (mldsa_size_only_roundtrip E this (VStr "test message") v
             {| MLDSASigner.level := 3; MLDSASigner.privateKeySize := 4032;
                MLDSASigner.publicKeySize := 1952; MLDSASigner.signatureSize := 3293 |}
             (reference_shake256_length false true) eq_refl (or_introl eq_refl) Hsign).
  - exfalso. revert Hsign. vm_compute. discriminate.
Defined.

(** The size-only check: in that mode [verify] accepts any byte array of
    the expected length, for any data it can serialise. *)
Lemma mldsa_size_only_accepts_any_bytes (E : Imports) (this : MLDSASigner.t)
    (data : value) (message sigBytes : list byte) (sizes : MLDSASigner.Level) :
  MLDSASigner.levels (MLDSASigner._algorithm this) = Own sizes ->
  truthy (MLDSASigner._hasRealImplementation this) = false \/ ml_dsa_65 E = None ->
  MLDSASigner._dataToBytes E data = Ok message ->
  Z.of_nat (length sigBytes) = MLDSASigner.signatureSize sizes ->
  MLDSASigner.verify E this data (VBytes sigBytes) VUndefined = Ok true.
Proof.
  intros Hlevels Hmode Hdata Hlen.
  unfold MLDSASigner.verify, MLDSASigner.verify_body. cbv zeta. rewrite Hdata. simpl.
  assert (Hattempt : MLDSASigner.verify_real_attempt E this (VBytes sigBytes) message
                       (or_else VNull (MLDSASigner._publicKey this)) = None).
  { unfold MLDSASigner.verify_real_attempt.
    destruct Hmode as [->| ->]; [reflexivity|].
    destruct (truthy _); reflexivity. }
  rewrite Hattempt. unfold MLDSASigner.levels_signatureSize. rewrite Hlevels. simpl.
  rewrite Hlen, Z.eqb_refl. reflexivity.
Qed.

(** The curve primitive, on the hash [h]: the signature it makes with the
    signer's private key is accepted, in compact form and against [h],
    under the signer's public key. *)
Definition curve_roundtrip (E : Imports) (this : ECDSASigner.t) (h : list byte) : Prop :=
  forall sig,
    secp256k1_sign E h (ECDSASigner._privateKey this) = Ok sig ->
    exists b,
      hexToBytes E (sig_toCompactHex sig) = Ok b
      /\ secp256k1_verify E (VBytes b) h (ECDSASigner._publicKey this) = Ok true.

(** X3.  The round trip of the classical signer on the compact signature: when
    the curve primitive is consistent on the hash of the data, [verify]
    accepts the [signature] property of what [sign] returned for the same
    data (default options on both calls). *)
Theorem ecdsa_compact_roundtrip (E : Imports) (this : ECDSASigner.t) (data v compact : value) :
  (forall h, ECDSASigner.verify_messageHash E data = Ok h -> curve_roundtrip E this h) ->
  ECDSASigner.sign E this data VUndefined = Ok v ->
  getProp v "signature" = Ok compact ->
  ECDSASigner.verify E this data compact VUndefined = Ok true.
Proof.
  intros Hcurve Hsign Hcompact.
  destruct (ecdsa_sign_Ok E this data _ v Hsign)
    as (hm & ap & h & sig & hex & Hhm & Hap & Hh & Hsig & Hhex & Hv1 & _).
  injection Hhm as <-. injection Hap as <-. simpl in Hh.
  rewrite Hv1 in Hcompact. injection Hcompact as <-.
  unfold ECDSASigner.verify, ECDSASigner.verify_body. cbv zeta.
  assert (Hvh : ECDSASigner.verify_messageHash E data = Ok h).
  { unfold ECDSASigner.sign_messageHash, ECDSASigner.with_prefix in Hh. exact Hh. }
  destruct (Hcurve h Hvh sig Hsig) as (b & Hb & Hverify).
  rewrite Hvh. simpl. rewrite Hb. simpl.
  unfold or_else. simpl. rewrite Hverify. reflexivity.
Qed.

Lemma ecdsa_compact_roundtrip_witness :
  let E := Reference.imports true true in
  let this := reference_signer (replicate 32 x01) in
  exists v compact,
    ECDSASigner.sign E this (VStr "test message") VUndefined = Ok v
    /\ getProp v "signature" = Ok compact
    /\ ECDSASigner.verify E this (VStr "test message") compact VUndefined = Ok true.
Proof.
  intros E this.
  destruct (ECDSASigner.sign E this (VStr "test message") VUndefined) as [v|e] eqn:Hsign;
    [|exfalso; revert Hsign; vm_compute; discriminate].
  destruct (getProp v "signature") as [compact|e] eqn:Hcompact;
    [|exfalso; revert Hsign Hcompact; vm_compute; intros [= <-]; discriminate].
  exists v, compact. split; [reflexivity|]. split; [exact Hcompact|].
  refine (ecdsa_compact_roundtrip E this (VStr "test message") v compact _ Hsign Hcompact).
  intros h Hh sig Hsig.
  vm_compute in Hh. injection Hh as <-.
  vm_compute in Hsig. injection Hsig as <-.
  vm_compute. eexists. split; reflexivity.
Defined.

(** X4.  [sign] hands the strings [r.toString(16)] and [s.toString(16)] to
    [bytesToHex]: where [bytesToHex] insists on a [Uint8Array], [sign]
    throws on every input. *)
Theorem ecdsa_sign_needs_bytesToHex_of_string (E : Imports) (this : ECDSASigner.t)
    (data options : value) :
  (forall s, exists e, bytesToHex E (VStr s) = Throw e) ->
  exists e, ECDSASigner.sign E this data options = Throw e.
Proof.
  intros Hstrict. unfold ECDSASigner.sign. cbv zeta.
  repeat match goal with
         | |- exists e, bind ?x _ = Throw e =>
             match x with
             | bytesToHex E (VStr ?s) => destruct (Hstrict s) as [e0 ->]; simpl; eauto
             | _ => destruct x as [?|e0]; simpl; [|eauto]
             end
         end.
Qed.

Lemma ecdsa_sign_needs_bytesToHex_of_string_witness :
  exists e,
    ECDSASigner.sign (Reference.imports true false) (reference_signer (replicate 32 x01))
      (VStr "test message") VUndefined = Throw e.
Proof.
  apply (ecdsa_sign_needs_bytesToHex_of_string (Reference.imports true false)).
  intros s. simpl. eauto.
Defined.

(* ===================================================================== *)
(** * Further properties of the four modules                             *)
(* ===================================================================== *)

(** ** Strings and object literals *)

Lemma prefix_append (p s : string) : String.prefix p (p +:+ s) = true.
Proof.
  induction p as [|c p IH]; simpl.
  - destruct s; reflexivity.
  - rewrite IH. destruct (Ascii.ascii_dec c c); [reflexivity | contradiction].
Qed.

Lemma substring_all (s : string) : String.substring 0 (String.length s) s = s.
Proof. induction s as [|c s IH]; simpl; [reflexivity | rewrite IH; reflexivity]. Qed.

Lemma length_append (p s : string) :
  String.length (p +:+ s) = (String.length p + String.length s)%nat.
Proof. induction p as [|c p IH]; simpl; [reflexivity | rewrite IH; reflexivity]. Qed.

(** [(p + s).slice(p.length)] is [s]. *)
Lemma slice_from_append (p s : string) : slice_from (String.length p) (p +:+ s) = s.
Proof.
  unfold slice_from. rewrite length_append.
  replace (String.length p + String.length s - String.length p)%nat
    with (String.length s) by lia.
  induction p as [|c p IH]; simpl; [apply substring_all | exact IH].
Qed.

Lemma string_map_append (f : ascii -> ascii) (p s : string) :
  string_map f (p +:+ s) = string_map f p +:+ string_map f s.
Proof. induction p as [|c p IH]; simpl; [reflexivity | rewrite IH; reflexivity]. Qed.

Lemma string_map_length (f : ascii -> ascii) (s : string) :
  String.length (string_map f s) = String.length s.
Proof. induction s as [|c s IH]; simpl; [reflexivity | rewrite IH; reflexivity]. Qed.

(** Reading a property after an assignment. *)
Lemma assoc_setProp (k k' : string) (v : value) (ps : list (string * value)) :
  assoc k (setProp k' v ps) = if String.eqb k k' then Some v else assoc k ps.
Proof.
  induction ps as [|[k0 v0] ps IH]; simpl.
  - destruct (String.eqb k k'); reflexivity.
  - destruct (String.eqb k' k0) eqn:H0; simpl.
    + apply String.eqb_eq in H0. subst k0.
      destruct (String.eqb k k'); reflexivity.
    + destruct (String.eqb k k0) eqn:H1.
      * apply String.eqb_eq in H1. subst k0.
        rewrite String.eqb_sym, H0. reflexivity.
      * exact IH.
Qed.

(** Reading a property of [{ ...base, ...extra }]: the value given by
    [extra] (by its last entry for the key, should it repeat one),
    otherwise the value given by [base]. *)
Lemma assoc_spread (k : string) (base extra : list (string * value)) :
  assoc k (spread base extra)
  = match assoc k (rev extra) with
    | Some v => Some v
    | None => assoc k base
    end.
Proof.
  unfold spread. revert base.
  induction extra as [|[k' v'] extra IH]; intros base; simpl; [reflexivity|].
  rewrite IH, assoc_setProp.
  assert (Happ : forall l, assoc k (l ++ [(k', v')])
                           = match assoc k l with
                             | Some v => Some v
                             | None => if String.eqb k k' then Some v' else None
                             end).
  { induction l as [|[k0 v0] l IHl]; simpl; [reflexivity|].
    destruct (String.eqb k k0); [reflexivity | exact IHl]. }
  rewrite Happ. destruct (assoc k (rev extra)); [reflexivity|].
  destruct (String.eqb k k'); reflexivity.
Qed.

(** A property that [extra] does not name is the one of [base]. *)
Lemma assoc_spread_other (k : string) (base extra : list (string * value)) :
  ~ In k (map fst extra) -> assoc k (spread base extra) = assoc k base.
Proof.
  intros Hk. rewrite assoc_spread.
  assert (Hnone : forall l : list (string * value), ~ In k (map fst l) -> assoc k l = None).
  { induction l as [|[k0 v0] l IHl]; simpl; intros H; [reflexivity|].
    destruct (String.eqb k k0) eqn:H0.
    - apply String.eqb_eq in H0. exfalso. apply H. left. symmetry. exact H0.
    - apply IHl. intros Hin. apply H. right. exact Hin. }
  rewrite Hnone; [reflexivity|].
  rewrite map_rev, <- in_rev. exact Hk.
Qed.

(** ** Steps that leave a component of the state as it is *)

Definition preserves {S A X} (f : S -> X) (m : M S A) : Prop :=
  forall s r s', m s = (r, s') -> f s' = f s.

Section Preserves.
Context {S X : Type} (f : S -> X).

Lemma preserves_ret {A} (a : A) : preserves f (ret a).
Proof. intros s r s' [= _ <-]. reflexivity. Qed.

Lemma preserves_throw {A} (e : string) : preserves f (throw (A:=A) e).
Proof. intros s r s' [= _ <-]. reflexivity. Qed.

Lemma preserves_lift {A} (x : result A) : preserves f (lift x).
Proof. intros s r s' [= _ <-]. reflexivity. Qed.

Lemma preserves_get : preserves f get.
Proof. intros s r s' [= _ <-]. reflexivity. Qed.

Lemma preserves_bindM {A B} (m : M S A) (k : A -> M S B) :
  preserves f m -> (forall a, preserves f (k a)) -> preserves f (bindM m k).
Proof.
  intros Hm Hk s r s'. unfold bindM.
  destruct (m s) as [[a|e] s1] eqn:Hms.
  - intros H. rewrite (Hk a _ _ _ H). exact (Hm _ _ _ Hms).
  - intros [= _ <-]. exact (Hm _ _ _ Hms).
Qed.

Lemma preserves_try_catchM {A} (body : M S A) (handler : string -> M S A) :
  preserves f body -> (forall e, preserves f (handler e)) -> preserves f (try_catchM body handler).
Proof.
  intros Hb Hh s r s'. unfold try_catchM.
  destruct (body s) as [[a|e] s1] eqn:Hbs.
  - intros [= _ <-]. exact (Hb _ _ _ Hbs).
  - intros H. rewrite (Hh e _ _ _ H). exact (Hb _ _ _ Hbs).
Qed.

Lemma preserves_promise_all2 {A B} (a : M S A) (b : M S B) :
  preserves f a -> preserves f b -> preserves f (promise_all2 a b).
Proof.
  intros Ha Hb s r s'. unfold promise_all2.
  destruct (a s) as [ra s1] eqn:Has. destruct (b s1) as [rb s2] eqn:Hbs.
  intros [= _ <-]. rewrite (Hb _ _ _ Hbs). exact (Ha _ _ _ Has).
Qed.

End Preserves.

(** ** The derivation engine: seeds, disposal, paths *)

(** A seed that [_initialize] cannot use: neither a string nor a
    [Uint8Array]. *)
Definition unusable_seed (seed : value) : bool :=
  match seed with
  | VStr _ | VBytes _ => false
  | _ => true
  end.

Definition seed_error : string := "Seed must be a BIP-39 mnemonic string or Uint8Array".

Lemma initialize_unusable_seed (E : Imports) (this : DualKeyDerivation.t) :
  DualKeyDerivation._initialized this = false ->
  unusable_seed (DualKeyDerivation._seed this) = true ->
  DualKeyDerivation._initialize E this = (Throw seed_error, this).
Proof.
  intros Hi Hs. unfold DualKeyDerivation._initialize. rewrite Hi.
  destruct (DualKeyDerivation._seed this); try discriminate Hs; reflexivity.
Qed.

(** The four derivation methods on an engine whose [_initialize] throws. *)
Lemma derivations_when_initialize_throws (E : Imports) (this : DualKeyDerivation.t)
    (a i : value) (e : string) :
  DualKeyDerivation._initialize E this = (Throw e, this) ->
  DualKeyDerivation.deriveECDSAKey E a i this = (Throw e, this)
  /\ DualKeyDerivation.deriveMLDSAKey E a i this = (Throw e, this)
  /\ DualKeyDerivation.deriveBothKeys E a i this = (Throw e, this)
  /\ DualKeyDerivation.validateDeterministic E a i this = (Throw e, this).
Proof.
  intros Hinit.
  assert (Hc : forall a i, DualKeyDerivation.deriveECDSAKey E a i this = (Throw e, this)).
  { intros. unfold DualKeyDerivation.deriveECDSAKey. cbv zeta. apply bindM_Throw, Hinit. }
  assert (Hm : forall a i, DualKeyDerivation.deriveMLDSAKey E a i this = (Throw e, this)).
  { intros. unfold DualKeyDerivation.deriveMLDSAKey. cbv zeta. apply bindM_Throw, Hinit. }
  assert (Hb : forall a i, DualKeyDerivation.deriveBothKeys E a i this = (Throw e, this)).
  { intros. unfold DualKeyDerivation.deriveBothKeys. cbv zeta. apply bindM_Throw.
    unfold promise_all2. rewrite Hc, Hm. reflexivity. }
  repeat split; auto.
  unfold DualKeyDerivation.validateDeterministic. cbv zeta. apply bindM_Throw, Hb.
Qed.

(** X5.  The constructor of the engine takes any value as seed; the seed is
    looked at by the first derivation.  On an engine that is not
    initialised and whose seed is neither a string nor a [Uint8Array]
    ([undefined], [null], a number, an array of numbers, an object),
    [deriveECDSAKey], [deriveMLDSAKey], [deriveBothKeys] and
    [validateDeterministic] all throw the seed error and leave the engine
    as it was, whatever the indices; [getDerivationPaths] does not look at
    the seed and still answers. *)
Theorem derivation_rejects_an_unusable_seed (E : Imports) (this : DualKeyDerivation.t)
    (a i : value) :
  DualKeyDerivation._initialized this = false ->
  unusable_seed (DualKeyDerivation._seed this) = true ->
  DualKeyDerivation.deriveECDSAKey E a i this = (Throw seed_error, this)
  /\ DualKeyDerivation.deriveMLDSAKey E a i this = (Throw seed_error, this)
  /\ DualKeyDerivation.deriveBothKeys E a i this = (Throw seed_error, this)
  /\ DualKeyDerivation.validateDeterministic E a i this = (Throw seed_error, this)
  /\ exists paths, DualKeyDerivation.getDerivationPaths a i this = (Ok paths, this).
Proof.
  intros Hi Hs.
  destruct (derivations_when_initialize_throws E this a i seed_error
              (initialize_unusable_seed E this Hi Hs)) as (H1 & H2 & H3 & H4).
  repeat split; try assumption.
  eexists. reflexivity.
Qed.

Lemma derivation_rejects_an_unusable_seed_witness :
  let E := Reference.imports true true in
  let this := DualKeyDerivation.constructor (VArr [VNum 1; VNum 2; VNum 3]) in
  DualKeyDerivation.deriveBothKeys E (VNum 0) (VNum 0) this = (Throw seed_error, this).
Proof.
  intros E this.
  exact (proj1 (proj2 (proj2
    (derivation_rejects_an_unusable_seed E this (VNum 0) (VNum 0) eq_refl eq_refl)))).
Defined.

(** X6.  [dispose()] of the engine returns normally from every state and
    drops the seed, the master seed and the master key; [getInfo()] then
    reports [initialized: false].  A disposed engine derives nothing any
    more: the four derivation methods throw the seed error, for all
    indices, and leave the engine disposed; disposing it again changes
    nothing. *)
Theorem disposed_engine_refuses_to_derive (E : Imports) (this : DualKeyDerivation.t)
    (a i : value) :
  let disposed := snd (DualKeyDerivation.dispose this) in
  fst (DualKeyDerivation.dispose this) = Ok tt
  /\ DualKeyDerivation._seed disposed = VNull
  /\ DualKeyDerivation._masterKey disposed = None
  /\ DualKeyDerivation._masterSeed disposed = None
  /\ getProp (DualKeyDerivation.getInfo disposed) "initialized" = Ok (VBool false)
  /\ DualKeyDerivation.deriveECDSAKey E a i disposed = (Throw seed_error, disposed)
  /\ DualKeyDerivation.deriveMLDSAKey E a i disposed = (Throw seed_error, disposed)
  /\ DualKeyDerivation.deriveBothKeys E a i disposed = (Throw seed_error, disposed)
  /\ DualKeyDerivation.validateDeterministic E a i disposed = (Throw seed_error, disposed)
  /\ DualKeyDerivation.dispose disposed = (Ok tt, disposed).
Proof.
  cbv zeta.
  set (disposed := snd (DualKeyDerivation.dispose this)).
  assert (Hinit : DualKeyDerivation._initialize E disposed = (Throw seed_error, disposed))
    by (apply initialize_unusable_seed; reflexivity).
  destruct (derivations_when_initialize_throws E disposed a i seed_error Hinit)
    as (H1 & H2 & H3 & H4).
  repeat split; assumption || reflexivity.
Qed.

(** A default applied twice is applied once. *)
Lemma param_param (default v : value) : param default (param default v) = param default v.
Proof. destruct v; try reflexivity. destruct default; reflexivity. Qed.

(** The two branches of [Promise.all] when the joined promise is
    fulfilled. *)
Lemma promise_all2_Ok {S A B} (a : M S A) (b : M S B) (s s' : S) (x : A) (y : B) :
  promise_all2 a b s = (Ok (x, y), s') ->
  exists s1, a s = (Ok x, s1) /\ b s1 = (Ok y, s').
Proof.
  unfold promise_all2.
  destruct (a s) as [[x0|e] s1]; destruct (b s1) as [[y0|e'] s2] eqn:Hb;
    intros [= <- <- <-] || discriminate.
  exists s1. split; [reflexivity | exact Hb].
Qed.

(** X7.  The keys returned by [deriveBothKeys(a, i)] carry the paths that
    [getDerivationPaths(a, i)] announces: the [path] of the classical key
    is the [ecdsa] path, the [path] of the post-quantum key is the [mldsa]
    path, and the two are different strings; the indices of the result are
    the ones asked for (0 for a missing one). *)
Theorem derived_keys_carry_their_paths (E : Imports) (this this' : DualKeyDerivation.t)
    (a i keys : value) :
  DualKeyDerivation.deriveBothKeys E a i this = (Ok keys, this') ->
  exists ecdsa mldsa paths,
    getProp keys "ecdsa" = Ok ecdsa
    /\ getProp keys "mldsa" = Ok mldsa
    /\ fst (DualKeyDerivation.getDerivationPaths a i this') = Ok paths
    /\ getProp ecdsa "path" = getProp paths "ecdsa"
    /\ getProp mldsa "path" = getProp paths "mldsa"
    /\ getProp ecdsa "path" <> getProp mldsa "path"
    /\ getProp keys "accountIndex" = Ok (param (VNum 0) a)
    /\ getProp keys "addressIndex" = Ok (param (VNum 0) i).
Proof.
  unfold DualKeyDerivation.deriveBothKeys. cbv zeta. intros H.
  inv_bindM H. destruct x as [kc km]. injection H as <- _.
  apply promise_all2_Ok in Hx. destruct Hx as (s1 & Hc & Hm).
  unfold DualKeyDerivation.deriveECDSAKey in Hc. cbv zeta in Hc.
  inv_bindM Hc. inv_bindM Hc. inv_bindM Hc.
  destruct (hd_privateKey x1) as [sk|]; [|discriminate].
  injection Hc as <- _.
  unfold DualKeyDerivation.deriveMLDSAKey in Hm. cbv zeta in Hm.
  inv_bindM Hm. inv_bindM Hm. inv_bindM Hm.
  destruct (hd_privateKey x4) as [sk'|]; [|discriminate].
  inv_bindM Hm. inv_bindM Hm. inv_bindM Hm.
  injection Hm as <- _.
  unfold lift in Hx0, Hx3. injection Hx0 as <- _. injection Hx3 as <- _.
  rewrite !param_param.
  do 3 eexists.
  split; [reflexivity|]. split; [reflexivity|].
  split.
  { unfold DualKeyDerivation.getDerivationPaths, bindM, lift, ret.
    rewrite buildPath_ECDSA, buildPath_MLDSA, !param_param. reflexivity. }
  simpl. repeat split. discriminate.
Qed.

Lemma derived_keys_carry_their_paths_witness :
  let E := Reference.imports true true in
  let engine := DualKeyDerivation.constructor Reference.mnemonic in
  exists keys ecdsa mldsa,
    fst (DualKeyDerivation.deriveBothKeys E (VNum 1) (VNum 4) engine) = Ok keys
    /\ getProp keys "ecdsa" = Ok ecdsa
    /\ getProp keys "mldsa" = Ok mldsa
    /\ getProp ecdsa "path" = Ok (VStr "m/44'/60'/1'/0/4")
    /\ getProp mldsa "path" = Ok (VStr "m/44'/9000'/1'/0/4").
Proof.
  intros E engine.
  destruct (DualKeyDerivation.deriveBothKeys E (VNum 1) (VNum 4) engine) as [[keys|e] s] eqn:Hd;
    [|exfalso; revert Hd; vm_compute; discriminate].
  destruct (derived_keys_carry_their_paths E engine s (VNum 1) (VNum 4) keys Hd)
    as (ecdsa & mldsa & paths & He & Hm & Hp & Hpe & Hpm & _).
  exists keys, ecdsa, mldsa.
  simpl in Hp. injection Hp as <-.
  repeat split; assumption.
Defined.

(** [_initialize] leaves an initialised engine alone, and an engine on
    which it succeeded is initialised. *)
Lemma initialize_initialised (E : Imports) (this : DualKeyDerivation.t) :
  DualKeyDerivation._initialized this = true ->
  DualKeyDerivation._initialize E this = (Ok tt, this).
Proof. intros H. unfold DualKeyDerivation._initialize. rewrite H. reflexivity. Qed.

Lemma initialize_Ok (E : Imports) (this s : DualKeyDerivation.t) :
  DualKeyDerivation._initialize E this = (Ok tt, s) ->
  DualKeyDerivation._initialized s = true.
Proof.
  unfold DualKeyDerivation._initialize.
  destruct (DualKeyDerivation._initialized this) eqn:Hi; [intros [= <-]; exact Hi|].
  destruct (DualKeyDerivation._seed this); try discriminate.
  - destruct (mnemonicToSeed E s0); [|discriminate].
    destruct (fromMasterSeed E a); [|discriminate]. intros [= <-]. reflexivity.
  - destruct (fromMasterSeed E b); [|discriminate]. intros [= <-]. reflexivity.
Qed.

Lemma after_initialize_Ok (E : Imports) {A} (k : unit -> M DualKeyDerivation.t A)
    (this : DualKeyDerivation.t) :
  is_ok (fst (bindM (DualKeyDerivation._initialize E) k this)) = true ->
  DualKeyDerivation._initialized (snd (DualKeyDerivation._initialize E this)) = true.
Proof.
  unfold bindM.
  destruct (DualKeyDerivation._initialize E this) as [[[]|e] s] eqn:Hinit; [|discriminate].
  intros _. exact (initialize_Ok E this s Hinit).
Qed.

Lemma deriveBothKeys_state (E : Imports) (this : DualKeyDerivation.t) (a i : value) :
  snd (DualKeyDerivation.deriveBothKeys E a i this) = snd (DualKeyDerivation._initialize E this).
Proof.
  unfold DualKeyDerivation.deriveBothKeys. cbv zeta.
  set (a0 := param (VNum 0) a). set (i0 := param (VNum 0) i).
  destruct (derive_state E this a0 i0) as [H1 _].
  destruct (derive_state E (snd (DualKeyDerivation.deriveECDSAKey E a0 i0 this)) a0 i0)
    as [_ H2].
  unfold bindM, promise_all2.
  destruct (DualKeyDerivation.deriveECDSAKey E a0 i0 this) as [rc s1]. simpl in *.
  destruct (DualKeyDerivation.deriveMLDSAKey E a0 i0 s1) as [rm s2]. simpl in *.
  assert (Hs2 : s2 = snd (DualKeyDerivation._initialize E this)).
  { rewrite H2, H1. apply (f_equal snd (initialize_again E this)). }
  destruct rc, rm; simpl; exact Hs2.
Qed.

(** X8.  The [initialized] flag that [getInfo()] reports: false on a new
    engine; true after any derivation that returned a key; and once the
    engine is initialised, [deriveECDSAKey], [deriveMLDSAKey] and
    [deriveBothKeys] leave every field of it as it was, whether they return
    or throw (so the flag stays true until [dispose()]). *)
Theorem initialised_engine_is_stable (E : Imports) (seed : value) (this : DualKeyDerivation.t)
    (a i : value) :
  let initialized (s : DualKeyDerivation.t) := getProp (DualKeyDerivation.getInfo s) "initialized" in
  let classical := DualKeyDerivation.deriveECDSAKey E a i this in
  let postQuantum := DualKeyDerivation.deriveMLDSAKey E a i this in
  let both := DualKeyDerivation.deriveBothKeys E a i this in
  initialized (DualKeyDerivation.constructor seed) = Ok (VBool false)
  /\ (is_ok (fst classical) = true -> initialized (snd classical) = Ok (VBool true))
  /\ (is_ok (fst postQuantum) = true -> initialized (snd postQuantum) = Ok (VBool true))
  /\ (is_ok (fst both) = true -> initialized (snd both) = Ok (VBool true))
  /\ (initialized this = Ok (VBool true) ->
        snd classical = this /\ snd postQuantum = this /\ snd both = this).
Proof.
  cbv zeta.
  destruct (derive_state E this a i) as [Hsc Hsm].
  pose proof (deriveBothKeys_state E this a i) as Hsb.
  split; [reflexivity|].
  split; [|split; [|split]].
  - intros Hok. rewrite Hsc.
    destruct (deriveECDSAKey_reads E a i) as (k & _ & Heq). rewrite Heq in Hok.
    simpl. rewrite (after_initialize_Ok E k this Hok). reflexivity.
  - intros Hok. rewrite Hsm.
    destruct (deriveMLDSAKey_reads E a i) as (k & _ & Heq). rewrite Heq in Hok.
    simpl. rewrite (after_initialize_Ok E k this Hok). reflexivity.
  - intros Hok. rewrite Hsb. simpl.
    assert (Hc : is_ok (fst (DualKeyDerivation.deriveECDSAKey E (param (VNum 0) a)
                               (param (VNum 0) i) this)) = true).
    { clear - Hok. revert Hok. unfold DualKeyDerivation.deriveBothKeys. cbv zeta.
      set (a0 := param (VNum 0) a). set (i0 := param (VNum 0) i).
      unfold bindM, promise_all2.
      destruct (DualKeyDerivation.deriveECDSAKey E a0 i0 this) as [[kc|e] s1]; [reflexivity|].
      destruct (DualKeyDerivation.deriveMLDSAKey E a0 i0 s1) as [rm s2]. discriminate. }
    destruct (deriveECDSAKey_reads E (param (VNum 0) a) (param (VNum 0) i)) as (k & _ & Heq).
    rewrite Heq in Hc. rewrite (after_initialize_Ok E k this Hc). reflexivity.
  - simpl. intros [= Hi].
    rewrite Hsc, Hsm, Hsb, (initialize_initialised E this Hi). auto.
Qed.

(** ** The classical signer: construction, data, transactions, addresses *)

(** X9.  The classical signer built from a key that [deriveECDSAKey(a, i)]
    returned: the constructor accepts the key exactly when the derived node
    has a public key, and throws its own error when it has none; the signer
    holds the derived private and public key, reports the path
    [m/44'/60'/a'/0/i] under which the key was derived, and holds the two
    indices, a falsy index ([0], [null], the empty string) being held as the
    number [0]. *)
Theorem derived_key_builds_the_classical_signer (E : Imports)
    (engine engine' : DualKeyDerivation.t) (a i key : value) :
  DualKeyDerivation.deriveECDSAKey E a i engine = (Ok key, engine') ->
  exists privateKey publicKey,
    getProp key "privateKey" = Ok (VBytes privateKey)
    /\ getProp key "publicKey" = Ok (of_option_bytes publicKey)
    /\ match publicKey with
       | None => ECDSASigner.constructor key = Throw "Invalid key pair provided to ECDSASigner"
       | Some pk =>
           ECDSASigner.constructor key
           = Ok {| ECDSASigner._privateKey := VBytes privateKey;
                   ECDSASigner._publicKey := VBytes pk;
                   ECDSASigner._path :=
                     VStr ("m/44'/60'/" +:+ toString (param (VNum 0) a) +:+ "'/0/"
                           +:+ toString (param (VNum 0) i));
                   ECDSASigner._accountIndex := or_else (param (VNum 0) a) (VNum 0);
                   ECDSASigner._addressIndex := or_else (param (VNum 0) i) (VNum 0) |}
       end.
Proof.
  unfold DualKeyDerivation.deriveECDSAKey. cbv zeta. intros H.
  inv_bindM H. inv_bindM H. inv_bindM H.
  destruct (hd_privateKey x1) as [sk|]; [|discriminate].
  injection H as <- _.
  unfold lift in Hx0. injection Hx0 as <- _.
  rewrite !param_param.
  exists sk, (hd_publicKey x1).
  split; [reflexivity|]. split; [reflexivity|].
  destruct (hd_publicKey x1) as [pk|]; reflexivity.
Qed.

Lemma derived_key_builds_the_classical_signer_witness :
  let E := Reference.imports true true in
  let engine := DualKeyDerivation.constructor Reference.mnemonic in
  exists key signer,
    fst (DualKeyDerivation.deriveECDSAKey E (VNum 2) VUndefined engine) = Ok key
    /\ ECDSASigner.constructor key = Ok signer
    /\ ECDSASigner._path signer = VStr "m/44'/60'/2'/0/0".
Proof.
  intros E engine.
  destruct (DualKeyDerivation.deriveECDSAKey E (VNum 2) VUndefined engine) as [[key|e] s] eqn:Hd;
    [|exfalso; revert Hd; vm_compute; discriminate].
  destruct (derived_key_builds_the_classical_signer E engine s (VNum 2) VUndefined key Hd)
    as (sk & [pk|] & Hsk & Hpk & Hc).
  - exists key. eexists. split; [reflexivity|]. split; [exact Hc | reflexivity].
  - exfalso. revert Hd Hpk. vm_compute. intros [= <-]. discriminate.
Defined.

(** The serialisation of a text that starts with [0x]. *)
Lemma dataToBytes_hex_text (E : Imports) (hex : string) :
  ECDSASigner._dataToBytes E (VStr ("0x" +:+ hex)) = hexToBytes E hex
  /\ MLDSASigner._dataToBytes E (VStr ("0x" +:+ hex)) = hexToBytes E hex.
Proof.
  unfold ECDSASigner._dataToBytes, MLDSASigner._dataToBytes, startsWith.
  rewrite prefix_append.
  assert (Hslice : slice_from 2 ("0x" +:+ hex) = hex) by exact (slice_from_append "0x" hex).
  rewrite Hslice. split; reflexivity.
Qed.

(** X10.  A string that starts with [0x] is not signed as text: both signers
    decode what follows as hexadecimal digits and sign the decoded bytes.
    So for every string [hex] that [hexToBytes] decodes to the bytes [b],
    signing or verifying the text ["0x" + hex] is signing or verifying the
    byte array [b], with the same options, signature and key, on the
    classical and on the post-quantum signer. *)
Theorem hex_text_is_signed_as_bytes (E : Imports) (classical : ECDSASigner.t)
    (postQuantum : MLDSASigner.t) (hex : string) (b : list byte)
    (options signature publicKey : value) :
  hexToBytes E hex = Ok b ->
  let text := VStr ("0x" +:+ hex) in
  ECDSASigner.sign E classical text options = ECDSASigner.sign E classical (VBytes b) options
  /\ ECDSASigner.signMessage E classical text = ECDSASigner.signMessage E classical (VBytes b)
  /\ ECDSASigner.verify E classical text signature publicKey
     = ECDSASigner.verify E classical (VBytes b) signature publicKey
  /\ MLDSASigner.sign E postQuantum text options = MLDSASigner.sign E postQuantum (VBytes b) options
  /\ MLDSASigner.verify E postQuantum text signature publicKey
     = MLDSASigner.verify E postQuantum (VBytes b) signature publicKey.
Proof.
  intros Hhex. cbv zeta.
  destruct (dataToBytes_hex_text E hex) as [Hc Hm]. rewrite Hhex in Hc, Hm.
  assert (Hsign : forall options,
    ECDSASigner.sign E classical (VStr ("0x" +:+ hex)) options
    = ECDSASigner.sign E classical (VBytes b) options).
  { intros o. unfold ECDSASigner.sign, ECDSASigner.sign_messageHash. rewrite Hc. reflexivity. }
  split; [apply Hsign|].
  split; [apply Hsign|].
  split.
  { unfold ECDSASigner.verify, ECDSASigner.verify_body, ECDSASigner.verify_messageHash.
    rewrite Hc. reflexivity. }
  split.
  - unfold MLDSASigner.sign. rewrite Hm. reflexivity.
  - unfold MLDSASigner.verify, MLDSASigner.verify_body. rewrite Hm. reflexivity.
Qed.

Lemma hex_text_is_signed_as_bytes_witness :
  let E := Reference.imports true true in
  let this := reference_signer (replicate 32 x01) in
  ECDSASigner.sign E this (VStr "0x6869") VUndefined
  = ECDSASigner.sign E this (VBytes [x68; x69]) VUndefined.
Proof.
  intros E this.
  exact (proj1 (hex_text_is_signed_as_bytes E this
    {| MLDSASigner._privateKey := VNull; MLDSASigner._publicKey := VNull;
       MLDSASigner._seed := VNull; MLDSASigner._path := VNull;
       MLDSASigner._algorithm := VNull; MLDSASigner._securityLevel := VNull;
       MLDSASigner._accountIndex := VNull; MLDSASigner._addressIndex := VNull;
       MLDSASigner._hasRealImplementation := VNull |}
    "6869" [x68; x69] VUndefined VUndefined VUndefined eq_refl)).
Defined.

(** What [signTransaction] returns, for a transaction object. *)
Lemma signTransaction_Ok (E : Imports) (this : ECDSASigner.t) (tx signed : value) :
  ECDSASigner.signTransaction E this tx = Ok signed ->
  exists txData signature v r s,
    ECDSASigner._serializeTransaction E tx = Ok txData
    /\ ECDSASigner.sign E this (VBytes txData)
         (VObj [("hashMessage", VBool true); ("addPrefix", VBool false)]) = Ok signature
    /\ getProp signature "v" = Ok v
    /\ getProp signature "r" = Ok r
    /\ getProp signature "s" = Ok s
    /\ signed = VObj (spread (ownProps tx)
                        [("signature", signature); ("v", v); ("r", r); ("s", s)]).
Proof.
  unfold ECDSASigner.signTransaction. intros H. repeat inv_bind H. injection H as <-.
  do 5 eexists. repeat split; eassumption.
Qed.

Lemma getProp_spread (base extra : list (string * value)) (k : string) :
  getProp (VObj (spread base extra)) k
  = Ok (match assoc k (rev extra) with
        | Some v => v
        | None => match assoc k base with Some v => v | None => VUndefined end
        end).
Proof. simpl. rewrite assoc_spread. destruct (assoc k (rev extra)); reflexivity. Qed.

(** X11.  [signTransaction(tx)] on a transaction object returns the
    transaction with four properties set: [signature] is what [sign]
    returned for the serialised transaction (hashed, without the message
    prefix), and [v], [r], [s] are copied from it, replacing properties of
    these names that the transaction had.  Every other property of the
    result is the property of the transaction: none is dropped, none is
    changed, none is added. *)
Theorem signTransaction_keeps_other_fields (E : Imports) (this : ECDSASigner.t)
    (props : list (string * value)) (signed : value) :
  ECDSASigner.signTransaction E this (VObj props) = Ok signed ->
  exists txData signature,
    ECDSASigner._serializeTransaction E (VObj props) = Ok txData
    /\ ECDSASigner.sign E this (VBytes txData)
         (VObj [("hashMessage", VBool true); ("addPrefix", VBool false)]) = Ok signature
    /\ getProp signed "signature" = Ok signature
    /\ getProp signed "v" = getProp signature "v"
    /\ getProp signed "r" = getProp signature "r"
    /\ getProp signed "s" = getProp signature "s"
    /\ forall k, ~ In k ["signature"; "v"; "r"; "s"] ->
                 getProp signed k = getProp (VObj props) k.
Proof.
  intros H.
  destruct (signTransaction_Ok E this _ _ H)
    as (txData & signature & v & r & s & Htx & Hsign & Hv & Hr & Hs & ->).
  exists txData, signature.
  split; [exact Htx|]. split; [exact Hsign|].
  rewrite Hv, Hr, Hs, !getProp_spread.
  repeat split.
  intros k Hk. cbn [getProp ownProps]. rewrite assoc_spread_other; [reflexivity | exact Hk].
Qed.

Lemma signTransaction_keeps_other_fields_witness :
  let E := Reference.imports true true in
  let this := reference_signer (replicate 32 x01) in
  let tx := [("to", VStr "0x742d"); ("value", VStr "1000"); ("v", VNum 1); ("memo", VStr "rent")] in
  exists signed,
    ECDSASigner.signTransaction E this (VObj tx) = Ok signed
    /\ getProp signed "memo" = Ok (VStr "rent")
    /\ getProp signed "to" = Ok (VStr "0x742d").
Proof.
  intros E this tx.
  destruct (ECDSASigner.signTransaction E this (VObj tx)) as [signed|e] eqn:H;
    [|exfalso; revert H; vm_compute; discriminate].
  destruct (signTransaction_keeps_other_fields E this tx signed H)
    as (txData & signature & _ & _ & _ & _ & _ & _ & Hother).
  exists signed. split; [reflexivity|]. split.
  - rewrite Hother; [reflexivity|]. simpl. intros [H0|[H0|[H0|[H0|[]]]]]; discriminate H0.
  - rewrite Hother; [reflexivity|]. simpl. intros [H0|[H0|[H0|[H0|[]]]]]; discriminate H0.
Defined.

(** The properties of a transaction that [_serializeTransaction] reads. *)
Definition serialized_fields : list string :=
  ["nonce"; "gasPrice"; "gasLimit"; "gas"; "to"; "value"; "data"; "chainId"].

(** X12.  The signature made by [signTransaction] covers eight properties
    of the transaction and nothing else: [nonce], [gasPrice], [gasLimit],
    [gas], [to], [value], [data], [chainId].  Two transactions that agree
    on these serialise to the same bytes, and whenever one is signed the
    other is signed too, with the same [signature], [v], [r] and [s],
    whatever else they contain (a [from], a [type], fee fields). *)
Theorem signTransaction_covers_listed_fields_only (E : Imports) (this : ECDSASigner.t)
    (tx tx' : value) :
  (forall k, In k serialized_fields -> getProp tx k = getProp tx' k) ->
  ECDSASigner._serializeTransaction E tx = ECDSASigner._serializeTransaction E tx'
  /\ forall signed,
       ECDSASigner.signTransaction E this tx = Ok signed ->
       exists signed',
         ECDSASigner.signTransaction E this tx' = Ok signed'
         /\ getProp signed' "signature" = getProp signed "signature"
         /\ getProp signed' "v" = getProp signed "v"
         /\ getProp signed' "r" = getProp signed "r"
         /\ getProp signed' "s" = getProp signed "s".
Proof.
  intros Hagree.
  assert (Hser : ECDSASigner._serializeTransaction E tx
                 = ECDSASigner._serializeTransaction E tx').
  { unfold ECDSASigner._serializeTransaction, prop_or.
    rewrite (Hagree "nonce"), (Hagree "gasPrice"), (Hagree "gasLimit"), (Hagree "gas"),
      (Hagree "to"), (Hagree "value"), (Hagree "data"), (Hagree "chainId");
      try reflexivity; unfold serialized_fields; simpl; tauto. }
  split; [exact Hser|].
  intros signed H.
  destruct (signTransaction_Ok E this _ _ H)
    as (txData & signature & v & r & s & Htx & Hsign & Hv & Hr & Hs & ->).
  exists (VObj (spread (ownProps tx') [("signature", signature); ("v", v); ("r", r); ("s", s)])).
  split.
  - unfold ECDSASigner.signTransaction. rewrite <- Hser, Htx. simpl.
    rewrite Hsign. simpl. rewrite Hv, Hr, Hs. reflexivity.
  - rewrite !getProp_spread. repeat split.
Qed.

Lemma signTransaction_covers_listed_fields_only_witness :
  let E := Reference.imports true true in
  let this := reference_signer (replicate 32 x01) in
  let tx := VObj [("to", VStr "0x742d"); ("value", VStr "1000"); ("nonce", VNum 7)] in
  let tx' := VObj [("from", VStr "0xbeef"); ("nonce", VNum 7); ("to", VStr "0x742d");
                   ("value", VStr "1000"); ("maxFeePerGas", VNum 5)] in
  ECDSASigner._serializeTransaction E tx = ECDSASigner._serializeTransaction E tx'.
Proof.
  intros E this tx tx'.
  refine (proj1 (signTransaction_covers_listed_fields_only E this tx tx' _)).
  intros k Hk. unfold serialized_fields in Hk. simpl in Hk.
  repeat (destruct Hk as [<-|Hk]; [reflexivity|]). destruct Hk.
Defined.

(** Lower-case hexadecimal digits, what [bytesToHex] is made of. *)
Definition is_lower_hex_digit (c : ascii) : bool :=
  let n := nat_of_ascii c in
  ((Nat.leb 48 n && Nat.leb n 57) || (Nat.leb 97 n && Nat.leb n 102))%bool.

Fixpoint lower_hex (s : string) : bool :=
  match s with
  | EmptyString => true
  | String c rest => (is_lower_hex_digit c && lower_hex rest)%bool
  end.

Definition bytesToHex_gives_lower_hex (E : Imports) : Prop :=
  forall v s, bytesToHex E v = Ok s -> lower_hex s = true.

Lemma ascii_lower_upper (c : ascii) : ascii_lower (ascii_upper c) = ascii_lower c.
Proof. destruct c as [[] [] [] [] [] [] [] []]; reflexivity. Qed.

Lemma ascii_lower_hex_digit (c : ascii) : is_lower_hex_digit c = true -> ascii_lower c = c.
Proof. destruct c as [[] [] [] [] [] [] [] []]; intros H; try discriminate H; reflexivity. Qed.

Lemma toLowerCase_lower_hex (s : string) : lower_hex s = true -> toLowerCase s = s.
Proof.
  induction s as [|c s IH]; simpl; [reflexivity|].
  intros H. apply andb_true_iff in H. destruct H as [Hc Hs].
  unfold toLowerCase in *. simpl. rewrite (ascii_lower_hex_digit c Hc), (IH Hs). reflexivity.
Qed.

(** The loop of [getChecksumAddress] changes the case of letters and
    nothing else. *)
Lemma checksum_loop_lower (address hash : string) :
  toLowerCase (ECDSASigner.checksum_loop address hash) = toLowerCase address.
Proof.
  revert hash. induction address as [|a rest IH]; intros hash; [reflexivity|].
  unfold toLowerCase in *. cbn [ECDSASigner.checksum_loop string_map]. rewrite IH. f_equal.
  match goal with
  | |- ascii_lower (if ?c then _ else _) = _ => destruct c
  end; [apply ascii_lower_upper | reflexivity].
Qed.

Lemma checksum_loop_length (address hash : string) :
  String.length (ECDSASigner.checksum_loop address hash) = String.length address.
Proof.
  revert hash. induction address as [|a rest IH]; intros hash; [reflexivity|].
  cbn [ECDSASigner.checksum_loop String.length]. rewrite IH. reflexivity.
Qed.

(** [(p + s).replace(p, '')] is [s]. *)
Lemma remove_first_prefix (p s : string) : ECDSASigner.remove_first p (p +:+ s) = s.
Proof.
  assert (Hstep : forall s0, ECDSASigner.remove_first p s0
                             = if String.prefix p s0 then slice_from (String.length p) s0
                               else match s0 with
                                    | EmptyString => EmptyString
                                    | String c rest => String c (ECDSASigner.remove_first p rest)
                                    end)
    by (intros [|c rest]; reflexivity).
  rewrite Hstep, prefix_append. apply slice_from_append.
Qed.

(** What [getAddress] returns: [0x] and the digits that [bytesToHex]
    returned. *)
Lemma getAddress_Ok (E : Imports) (this : ECDSASigner.t) (a : string) :
  ECDSASigner.getAddress E this = Ok a ->
  exists v hex, bytesToHex E v = Ok hex /\ a = "0x" +:+ hex.
Proof.
  unfold ECDSASigner.getAddress. intros H. repeat inv_bind H. injection H as <-. eauto.
Qed.

(** X13.  With a [bytesToHex] that returns lower-case hexadecimal digits,
    the address returned by [getChecksumAddress()] is the address returned
    by [getAddress()] up to the case of its letters: lower-casing the
    former gives the latter, and the two have the same length. *)
Theorem checksum_address_differs_in_case_only (E : Imports) (this : ECDSASigner.t)
    (checksummed : string) :
  bytesToHex_gives_lower_hex E ->
  ECDSASigner.getChecksumAddress E this = Ok checksummed ->
  exists address,
    ECDSASigner.getAddress E this = Ok address
    /\ toLowerCase checksummed = address
    /\ String.length checksummed = String.length address.
Proof.
  intros Hhex H. unfold ECDSASigner.getChecksumAddress in H.
  inv_bind H. rename x into address. inv_bind H. inv_bind H. injection H as <-.
  destruct (getAddress_Ok E this address Hx) as (v & hex & Hv & ->).
  pose proof (toLowerCase_lower_hex hex (Hhex _ _ Hv)) as Hlow.
  assert (Haddr : ECDSASigner.remove_first "0x" (toLowerCase ("0x" +:+ hex)) = hex).
  { unfold toLowerCase in *. rewrite string_map_append, Hlow.
    change (string_map ascii_lower "0x") with "0x". apply remove_first_prefix. }
  exists ("0x" +:+ hex). split; [exact Hx|].
  rewrite Haddr. split.
  - unfold toLowerCase in *. rewrite string_map_append.
    change (string_map ascii_lower "0x") with "0x".
    fold toLowerCase. rewrite checksum_loop_lower. unfold toLowerCase. rewrite Hlow. reflexivity.
  - rewrite !length_append, checksum_loop_length. reflexivity.
Qed.

Lemma hex_of_bytes_lower_hex (b : list byte) : lower_hex (Reference.hex_of_bytes b) = true.
Proof.
  induction b as [|x rest IH]; [reflexivity|].
  cbn [Reference.hex_of_bytes lower_hex]. rewrite IH.
  destruct x; reflexivity.
Qed.

Lemma reference_bytesToHex_lower_hex (pq hex : bool) :
  bytesToHex_gives_lower_hex (Reference.imports pq hex).
Proof.
  intros v s. simpl.
  destruct v; try discriminate.
  - destruct hex; [|discriminate]. intros [= <-]. apply hex_of_bytes_lower_hex.
  - intros [= <-]. apply hex_of_bytes_lower_hex.
Qed.

Lemma checksum_address_differs_in_case_only_witness :
  let E := Reference.imports true true in
  let this := reference_signer (replicate 32 x01) in
  exists checksummed address,
    ECDSASigner.getChecksumAddress E this = Ok checksummed
    /\ ECDSASigner.getAddress E this = Ok address
    /\ toLowerCase checksummed = address.
Proof.
  intros E this.
  destruct (ECDSASigner.getChecksumAddress E this) as [checksummed|e] eqn:H;
    [|exfalso; revert H; vm_compute; discriminate].
  destruct (checksum_address_differs_in_case_only E this checksummed
              (reference_bytesToHex_lower_hex true true) H) as (address & Ha & Hl & _).
  exists checksummed, address. repeat split; assumption.
Defined.

(** X14.  The address does not depend on the encoding of the public key.
    A signer holding the 33-byte compressed key and a signer holding the
    65-byte uncompressed key (the byte [04] and 64 more) that the curve
    library decompresses it to have the same [getAddress()] and the same
    [getChecksumAddress()]: both hash the 64 bytes behind the [04]. *)
Theorem address_is_independent_of_key_encoding (E : Imports) (this this' : ECDSASigner.t)
    (compressed rest : list byte) (hex : string) :
  ECDSASigner._publicKey this = VBytes compressed ->
  ECDSASigner._publicKey this' = VBytes (x04 :: rest) ->
  length compressed = 33%nat ->
  length rest = 64%nat ->
  bytesToHex E (VBytes compressed) = Ok hex ->
  point_toRawBytes E hex false = Ok (x04 :: rest) ->
  ECDSASigner.getAddress E this = ECDSASigner.getAddress E this'
  /\ ECDSASigner.getChecksumAddress E this = ECDSASigner.getChecksumAddress E this'
  /\ ECDSASigner.getAddress E this
     = (pubKeyHash <- keccak_256 E (VBytes rest) ;;
        digits <- bytesToHex E (VBytes (ECDSASigner.last20 pubKeyHash)) ;;
        Ok ("0x" +:+ digits)).
Proof.
  intros Hpk Hpk' Hlen Hlen' Hhex Hpoint.
  assert (H1 : ECDSASigner.getAddress E this
               = (pubKeyHash <- keccak_256 E (VBytes rest) ;;
                  digits <- bytesToHex E (VBytes (ECDSASigner.last20 pubKeyHash)) ;;
                  Ok ("0x" +:+ digits))).
  { unfold ECDSASigner.getAddress. rewrite Hpk. cbn [getProp String.eqb Ascii.eqb Bool.eqb].
    rewrite Hlen. cbn [strict_eq_num Z.of_nat Z.eqb Pos.of_succ_nat Pos.succ Pos.eqb andb].
    rewrite Hhex. cbn [bind]. rewrite Hpoint. reflexivity. }
  assert (H2 : ECDSASigner.getAddress E this'
               = (pubKeyHash <- keccak_256 E (VBytes rest) ;;
                  digits <- bytesToHex E (VBytes (ECDSASigner.last20 pubKeyHash)) ;;
                  Ok ("0x" +:+ digits))).
  { unfold ECDSASigner.getAddress. rewrite Hpk'. cbn [getProp String.eqb Ascii.eqb Bool.eqb length].
    rewrite Hlen'. reflexivity. }
  split; [congruence|]. split; [|exact H1].
  unfold ECDSASigner.getChecksumAddress. rewrite H1, H2. reflexivity.
Qed.

Lemma address_is_independent_of_key_encoding_witness :
  let E := Reference.imports true true in
  let compressed := Reference.secp_publicKey (replicate 32 x01) in
  let rest := Reference.stream 12 64 compressed in
  let signer (publicKey : list byte) :=
    {| ECDSASigner._privateKey := VBytes (replicate 32 x01);
       ECDSASigner._publicKey := VBytes publicKey;
       ECDSASigner._path := VStr ""; ECDSASigner._accountIndex := VNum 0;
       ECDSASigner._addressIndex := VNum 0 |} in
  ECDSASigner.getAddress E (signer compressed) = ECDSASigner.getAddress E (signer (x04 :: rest)).
Proof.
  intros E compressed rest signer.
  refine (proj1 (address_is_independent_of_key_encoding E (signer compressed)
                   (signer (x04 :: rest)) compressed rest
                   (Reference.hex_of_bytes compressed) eq_refl eq_refl _ _ eq_refl _)).
  - reflexivity.
  - unfold rest, Reference.stream. rewrite length_map, length_seq. reflexivity.
  - vm_compute. reflexivity.
Defined.

(** X15.  [dispose()] of the classical signer clears the public key and
    the path, and the private key when it is a [Uint8Array]; a private key
    of another type (a hexadecimal string, which the constructor accepts
    like any truthy value) is still held afterwards.  Disposing twice is
    disposing once.  On a disposed signer [getAddress()],
    [getChecksumAddress()], [getPublicKey()] and [getInfo()] throw a
    [TypeError], reading [length] of the cleared public key. *)
Theorem disposed_classical_signer (E : Imports) (this : ECDSASigner.t) :
  let disposed := ECDSASigner.dispose this in
  let error := "Cannot read properties of null (reading 'length')" in
  ECDSASigner._publicKey disposed = VNull
  /\ ECDSASigner._path disposed = VNull
  /\ (is_Uint8Array (ECDSASigner._privateKey this) = true ->
        ECDSASigner._privateKey disposed = VNull)
  /\ (is_Uint8Array (ECDSASigner._privateKey this) = false ->
        ECDSASigner._privateKey disposed = ECDSASigner._privateKey this)
  /\ ECDSASigner.dispose disposed = disposed
  /\ ECDSASigner.getAddress E disposed = Throw error
  /\ ECDSASigner.getChecksumAddress E disposed = Throw error
  /\ ECDSASigner.getPublicKey E disposed = Throw error
  /\ ECDSASigner.getInfo E disposed = Throw error.
Proof.
  cbv zeta. destruct this as [sk pk path ai adi].
  unfold ECDSASigner.dispose. cbn [ECDSASigner._privateKey ECDSASigner._publicKey
    ECDSASigner._path ECDSASigner._accountIndex ECDSASigner._addressIndex].
  split; [reflexivity|]. split; [reflexivity|].
  split; [intros H; destruct sk; try discriminate H; reflexivity|].
  split; [intros ->; rewrite andb_false_r; reflexivity|].
  split; [destruct sk; cbn [is_Uint8Array]; rewrite ?andb_false_r; reflexivity|].
  repeat split.
Qed.

(** ** The post-quantum signer: construction, placeholder signatures,
       verification by size, disposal *)

(** The own property [k] of an object literal, [undefined] when it has
    none. *)
Definition field (props : list (string * value)) (k : string) : value :=
  match assoc k props with
  | Some v => v
  | None => VUndefined
  end.

Lemma getProp_VObj (props : list (string * value)) (k : string) :
  getProp (VObj props) k = Ok (field props k).
Proof. reflexivity. Qed.

Lemma assoc_None {A} (k : string) (l : list (string * A)) :
  assoc k l = None <-> ~ In k (map fst l).
Proof.
  induction l as [|[k0 v0] l IH]; simpl.
  - tauto.
  - destruct (String.eqb k k0) eqn:H0.
    + apply String.eqb_eq in H0. subst k0. split; [discriminate | intros H; exfalso; auto].
    + apply String.eqb_neq in H0. rewrite IH. split.
      * intros H [H1|H1]; [apply H0; symmetry; exact H1 | exact (H H1)].
      * intros H H1. apply H. right. exact H1.
Qed.

(** The names under which [ML_DSA_LEVELS[name]] is not [undefined]: the
    three keys of the table, and the members that every object inherits. *)
Definition accepted_algorithms : list string :=
  map fst MLDSASigner.ML_DSA_LEVELS ++ Object_prototype.

Lemma levels_Missing (algorithm : value) :
  MLDSASigner.levels algorithm = Missing <-> ~ In (toString algorithm) accepted_algorithms.
Proof.
  unfold MLDSASigner.levels, table_get, accepted_algorithms.
  rewrite in_app_iff.
  destruct (assoc (toString algorithm) MLDSASigner.ML_DSA_LEVELS) as [sizes|] eqn:Ha.
  - split; [discriminate|]. intros H. exfalso. apply H. left.
    destruct (in_dec string_dec (toString algorithm) (map fst MLDSASigner.ML_DSA_LEVELS))
      as [Hin|Hout]; [exact Hin|].
    apply assoc_None in Hout. congruence.
  - apply assoc_None in Ha.
    destruct (existsb (String.eqb (toString algorithm)) Object_prototype) eqn:Hp.
    + split; [discriminate|]. intros H. exfalso. apply H. right.
      apply existsb_exists in Hp. destruct Hp as (x & Hin & Heq).
      apply String.eqb_eq in Heq. subst x. exact Hin.
    + split; [|reflexivity]. intros _ [H|H]; [exact (Ha H)|].
      assert (Hex : existsb (String.eqb (toString algorithm)) Object_prototype = true).
      { apply existsb_exists. exists (toString algorithm). split; [exact H|].
        apply String.eqb_refl. }
      congruence.
Qed.

(** X16.  The constructor of the post-quantum signer, on a key-pair
    object.  It returns a signer exactly when [privateKey] and [publicKey]
    are truthy and the algorithm name ([algorithm], or ['ML-DSA-65'] when
    that is missing or falsy) is a key of [ML_DSA_LEVELS] or the name of an
    inherited member; the lengths of the keys play no part.  The keys of
    the table are spelt [ML_DSA_44], [ML_DSA_65], [ML_DSA_87]: none of the
    documented names ['ML-DSA-44'], ['ML-DSA-65'], ['ML-DSA-87'] is
    accepted, so a key pair without [algorithm] is always rejected, with
    the error that names the default.  The signer returned holds the given
    keys and reports a real implementation exactly when [__placeholder] is
    falsy. *)
Theorem mldsa_constructor_accepts_iff (props : list (string * value)) :
  let keyPair := VObj props in
  let algorithm := or_else (field props "algorithm") (VStr "ML-DSA-65") in
  ((exists signer, MLDSASigner.constructor keyPair = Ok signer)
   <-> truthy (field props "privateKey") = true
       /\ truthy (field props "publicKey") = true
       /\ In (toString algorithm) accepted_algorithms)
  /\ (forall signer,
        MLDSASigner.constructor keyPair = Ok signer ->
        MLDSASigner._privateKey signer = field props "privateKey"
        /\ MLDSASigner._publicKey signer = field props "publicKey"
        /\ MLDSASigner._algorithm signer = algorithm
        /\ MLDSASigner.hasRealImplementation signer
           = VBool (negb (truthy (field props "__placeholder"))))
  /\ Forall (fun name => ~ In name accepted_algorithms) ["ML-DSA-44"; "ML-DSA-65"; "ML-DSA-87"]
  /\ (truthy (field props "privateKey") = true ->
      truthy (field props "publicKey") = true ->
      truthy (field props "algorithm") = false ->
      MLDSASigner.constructor keyPair = Throw "Unknown ML-DSA algorithm: ML-DSA-65").
Proof.
  cbv zeta.
  assert (Hrun : MLDSASigner.constructor (VObj props)
    = if negb (truthy (field props "privateKey")) then Throw "Invalid key pair provided to MLDSASigner"
      else if negb (truthy (field props "publicKey")) then Throw "Invalid key pair provided to MLDSASigner"
      else match MLDSASigner.levels (or_else (field props "algorithm") (VStr "ML-DSA-65")) with
           | Missing =>
               Throw ("Unknown ML-DSA algorithm: "
                      +:+ toString (or_else (field props "algorithm") (VStr "ML-DSA-65")))
           | _ =>
               Ok {| MLDSASigner._privateKey := field props "privateKey";
                     MLDSASigner._publicKey := field props "publicKey";
                     MLDSASigner._seed := field props "seed";
                     MLDSASigner._path := or_else (field props "path") (VStr "");
                     MLDSASigner._algorithm := or_else (field props "algorithm") (VStr "ML-DSA-65");
                     MLDSASigner._securityLevel := or_else (field props "securityLevel") (VNum 3);
                     MLDSASigner._accountIndex := or_else (field props "accountIndex") (VNum 0);
                     MLDSASigner._addressIndex := or_else (field props "addressIndex") (VNum 0);
                     MLDSASigner._hasRealImplementation :=
                       VBool (negb (truthy (field props "__placeholder"))) |}
           end).
  { unfold MLDSASigner.constructor, MLDSASigner.invalid_keyPair, prop_or,
      MLDSASigner._validateKeySizes.
    rewrite !getProp_VObj. cbn [truthy negb bind].
    destruct (truthy (field props "privateKey")); cbn [negb bind]; [|reflexivity].
    destruct (truthy (field props "publicKey")); cbn [negb bind]; [|reflexivity].
    cbn [MLDSASigner._algorithm MLDSASigner._hasRealImplementation truthy negb].
    destruct (MLDSASigner.levels _); reflexivity. }
  rewrite Hrun. clear Hrun.
  split; [split|split; [|split]].
  - intros [signer H].
    destruct (truthy (field props "privateKey")); [|discriminate H].
    destruct (truthy (field props "publicKey")); [|discriminate H].
    repeat split. cbn [negb] in H.
    destruct (in_dec string_dec
                (toString (or_else (field props "algorithm") (VStr "ML-DSA-65")))
                accepted_algorithms) as [Hin|Hout]; [exact Hin|].
    apply levels_Missing in Hout. rewrite Hout in H. discriminate H.
  - intros (Hsk & Hpk & Hin). rewrite Hsk, Hpk. cbn [negb].
    destruct (MLDSASigner.levels _) eqn:Hl; eauto.
    exfalso. apply levels_Missing in Hl. exact (Hl Hin).
  - intros signer H.
    destruct (truthy (field props "privateKey")); [|discriminate H].
    destruct (truthy (field props "publicKey")); [|discriminate H].
    cbn [negb] in H.
    destruct (MLDSASigner.levels _); injection H as <- || discriminate H; repeat split.
  - repeat constructor; unfold accepted_algorithms, Object_prototype; simpl;
      intros H; repeat (destruct H as [H|H]; [discriminate H|]); exact H.
  - intros Hsk Hpk Halg. rewrite Hsk, Hpk. cbn [negb].
    unfold or_else. rewrite Halg. reflexivity.
Qed.

(** The signer signs with the placeholder: it holds placeholder material,
    or the lattice primitive cannot be imported. *)
Definition signs_with_placeholder (E : Imports) (this : MLDSASigner.t) : Prop :=
  truthy (MLDSASigner._hasRealImplementation this) = false \/ ml_dsa_65 E = None.

Lemma sign_with_placeholder (E : Imports) (this : MLDSASigner.t) (data options : value) :
  signs_with_placeholder E this ->
  MLDSASigner.sign E this data options
  = (deterministic <- getProp (param (VObj []) options) "deterministic" ;;
     context <- getProp (param (VObj []) options) "context" ;;
     message <- MLDSASigner._dataToBytes E data ;;
     MLDSASigner._signWithPlaceholder E this message (param (VBytes []) context)
       (param (VBool true) deterministic)).
Proof.
  intros Hmode. unfold MLDSASigner.sign. cbv zeta.
  destruct (getProp (param (VObj []) options) "deterministic") as [d|e]; [|reflexivity].
  destruct (getProp (param (VObj []) options) "context") as [c|e]; [|reflexivity].
  destruct (MLDSASigner._dataToBytes E data) as [m|e]; [|reflexivity].
  cbn [bind]. destruct Hmode as [->|Hnone]; [reflexivity|].
  destruct (truthy (MLDSASigner._hasRealImplementation this)); [|reflexivity].
  unfold MLDSASigner._signWithRealImplementation, MLDSASigner.sign_real_attempt.
  rewrite Hnone. reflexivity.
Qed.

(** The placeholder signature in terms of what it is computed from. *)
Lemma signWithPlaceholder_Ok (E : Imports) (this : MLDSASigner.t) (message : list byte)
    (context deterministic v : value) :
  MLDSASigner._signWithPlaceholder E this message context deterministic = Ok v ->
  exists messageHash seedHash ctx combinedHash expectedSize signature signatureHex,
    sha3_256 E (VBytes message) = Ok messageHash
    /\ sha3_256 E (or_else (MLDSASigner._seed this) (VBytes (replicate 32 x00))) = Ok seedHash
    /\ spreadBytes E context = Ok ctx
    /\ sha3_256 E (VBytes (messageHash ++ seedHash ++ ctx)) = Ok combinedHash
    /\ MLDSASigner.levels_signatureSize (MLDSASigner._algorithm this) = Ok expectedSize
    /\ shake256 E combinedHash expectedSize = Ok signature
    /\ bytesToHex E (VBytes signature) = Ok signatureHex
    /\ getProp v "signature" = Ok (VBytes signature)
    /\ getProp v "signatureHex" = Ok (VStr signatureHex)
    /\ getProp v "publicKey" = Ok (MLDSASigner._publicKey this)
    /\ getProp v "__placeholder" = Ok (VBool true).
Proof.
  unfold MLDSASigner._signWithPlaceholder. intros H. repeat inv_bind H. injection H as <-.
  do 7 eexists. repeat split; eassumption.
Qed.

(** Two signers with the same seed and algorithm return placeholder
    signatures with the same bytes. *)
Lemma signWithPlaceholder_alike (E : Imports) (this this' : MLDSASigner.t) (message : list byte)
    (context deterministic v : value) :
  or_else (MLDSASigner._seed this) (VBytes (replicate 32 x00))
  = or_else (MLDSASigner._seed this') (VBytes (replicate 32 x00)) ->
  MLDSASigner._algorithm this = MLDSASigner._algorithm this' ->
  MLDSASigner._signWithPlaceholder E this message context deterministic = Ok v ->
  exists v',
    MLDSASigner._signWithPlaceholder E this' message context deterministic = Ok v'
    /\ getProp v' "signature" = getProp v "signature"
    /\ getProp v' "signatureHex" = getProp v "signatureHex"
    /\ getProp v' "__placeholder" = Ok (VBool true).
Proof.
  intros Hseed Halg H. unfold MLDSASigner._signWithPlaceholder in *.
  rewrite <- Hseed, <- Halg.
  repeat inv_bind H. injection H as <-.
  rewrite Hx, Hx0, Hx1. cbn [bind]. rewrite Hx2. cbn [bind]. rewrite Hx3. cbn [bind].
  rewrite Hx4. cbn [bind]. rewrite Hx5, Hx6, Hx7. cbn [bind].
  eexists. split; [reflexivity|]. repeat split.
Qed.

Lemma sign_alike (E : Imports) (this this' : MLDSASigner.t) (data options v : value) :
  signs_with_placeholder E this ->
  signs_with_placeholder E this' ->
  or_else (MLDSASigner._seed this) (VBytes (replicate 32 x00))
  = or_else (MLDSASigner._seed this') (VBytes (replicate 32 x00)) ->
  MLDSASigner._algorithm this = MLDSASigner._algorithm this' ->
  MLDSASigner.sign E this data options = Ok v ->
  exists v',
    MLDSASigner.sign E this' data options = Ok v'
    /\ getProp v' "signature" = getProp v "signature"
    /\ getProp v' "signatureHex" = getProp v "signatureHex"
    /\ getProp v' "__placeholder" = Ok (VBool true).
Proof.
  intros Hmode Hmode' Hseed Halg H.
  rewrite (sign_with_placeholder E this' data options Hmode').
  rewrite (sign_with_placeholder E this data options Hmode) in H.
  do 3 inv_bind H. rewrite Hx, Hx0, Hx1. cbn [bind].
  exact (signWithPlaceholder_alike E this this' _ _ _ v Hseed Halg H).
Qed.

(** X17.  The placeholder signature is not made with the key pair.  When
    two signers sign with the placeholder (they hold placeholder material,
    or the lattice primitive cannot be imported) and have the same seed and
    the same algorithm, whatever one of them returns for some data and
    options, the other returns too, with the same [signature] bytes and the
    same [signatureHex], and marked [__placeholder: true]: the private and
    the public key are never read. *)
Theorem placeholder_signature_ignores_the_keys (E : Imports) (this this' : MLDSASigner.t)
    (data options v : value) :
  signs_with_placeholder E this ->
  signs_with_placeholder E this' ->
  MLDSASigner._seed this = MLDSASigner._seed this' ->
  MLDSASigner._algorithm this = MLDSASigner._algorithm this' ->
  MLDSASigner.sign E this data options = Ok v ->
  exists v',
    MLDSASigner.sign E this' data options = Ok v'
    /\ getProp v' "signature" = getProp v "signature"
    /\ getProp v' "signatureHex" = getProp v "signatureHex"
    /\ getProp v' "__placeholder" = Ok (VBool true).
Proof.
  intros Hmode Hmode' Hseed Halg H.
  apply (sign_alike E this this' data options v Hmode Hmode'); [|exact Halg | exact H].
  rewrite Hseed. reflexivity.
Qed.

(** A signer of the reference instance that holds placeholder material. *)
Definition placeholder_signer (privateKey publicKey seed : value) : MLDSASigner.t :=
  {| MLDSASigner._privateKey := privateKey;
     MLDSASigner._publicKey := publicKey;
     MLDSASigner._seed := seed;
     MLDSASigner._path := VStr "";
     MLDSASigner._algorithm := VStr "ML_DSA_65";
     MLDSASigner._securityLevel := VNum 3;
     MLDSASigner._accountIndex := VNum 0;
     MLDSASigner._addressIndex := VNum 0;
     MLDSASigner._hasRealImplementation := VBool false |}.

Lemma placeholder_signature_ignores_the_keys_witness :
  let E := Reference.imports false true in
  let this := placeholder_signer (VBytes (replicate 4032 x00)) (VBytes (replicate 1952 x00))
                (VBytes (replicate 32 x01)) in
  let this' := placeholder_signer (VBytes (replicate 4032 x07)) (VBytes (replicate 1952 x09))
                 (VBytes (replicate 32 x01)) in
  exists v v',
    MLDSASigner.sign E this (VStr "test message") VUndefined = Ok v
    /\ MLDSASigner.sign E this' (VStr "test message") VUndefined = Ok v'
    /\ getProp v' "signature" = getProp v "signature".
Proof.
  intros E this this'.
  destruct (MLDSASigner.sign E this (VStr "test message") VUndefined) as [v|e] eqn:H;
    [|exfalso; revert H; vm_compute; discriminate].
  destruct (placeholder_signature_ignores_the_keys E this this' (VStr "test message")
              VUndefined v (or_introl eq_refl) (or_introl eq_refl) eq_refl eq_refl H)
    as (v' & Hv' & Hsig & _).
  exists v, v'. repeat split; assumption.
Defined.

(** The three ways in which [verify] comes to its last two statements with
    the signature bytes [sigBytes]: the signer holds placeholder material;
    the lattice primitive cannot be imported; or the primitive throws on
    these arguments. *)
Definition verifies_by_size (E : Imports) (this : MLDSASigner.t) (sigBytes : value)
    (message : list byte) (pubKey : value) : Prop :=
  truthy (MLDSASigner._hasRealImplementation this) = false
  \/ ml_dsa_65 E = None
  \/ exists primitive e,
       ml_dsa_65 E = Some primitive
       /\ mldsa_verify primitive sigBytes message pubKey = Throw e.

(** X18.  In each of these three cases [verify] compares the length of the
    signature bytes with the signature size of the algorithm and nothing
    else: for data it can serialise, it returns [true] for every byte array
    of that length and [false] for every other, whatever the data, the
    bytes and the public key are.  An error of the lattice primitive (a
    malformed key, say) is thus answered by accepting on size. *)
Theorem mldsa_verify_checks_only_the_size (E : Imports) (this : MLDSASigner.t)
    (data publicKey : value) (message sigBytes : list byte) (sizes : MLDSASigner.Level) :
  MLDSASigner.levels (MLDSASigner._algorithm this) = Own sizes ->
  MLDSASigner._dataToBytes E data = Ok message ->
  verifies_by_size E this (VBytes sigBytes) message
    (or_else (param VNull publicKey) (MLDSASigner._publicKey this)) ->
  MLDSASigner.verify E this data (VBytes sigBytes) publicKey
  = Ok (Z.of_nat (length sigBytes) =? MLDSASigner.signatureSize sizes).
Proof.
  intros Hlevels Hdata Hmode.
  unfold MLDSASigner.verify, MLDSASigner.verify_body. cbv zeta. rewrite Hdata.
  cbn [bind MLDSASigner.extract_sigBytes is_Uint8Array].
  assert (Hattempt : MLDSASigner.verify_real_attempt E this (VBytes sigBytes) message
                       (or_else (param VNull publicKey) (MLDSASigner._publicKey this)) = None).
  { unfold MLDSASigner.verify_real_attempt.
    destruct Hmode as [->|[->|(primitive & e & -> & ->)]]; [reflexivity| |].
    - destruct (truthy _); reflexivity.
    - destruct (truthy _); reflexivity. }
  rewrite Hattempt. unfold MLDSASigner.levels_signatureSize. rewrite Hlevels. reflexivity.
Qed.

Lemma mldsa_verify_checks_only_the_size_witness :
  let E := Reference.imports true true in
  let this :=
    {| MLDSASigner._privateKey := VBytes (Reference.stream 7 4032 (replicate 32 x01));
       MLDSASigner._publicKey :=
         VBytes (Reference.mldsa_publicKey (Reference.stream 7 4032 (replicate 32 x01)));
       MLDSASigner._seed := VBytes (replicate 32 x01);
       MLDSASigner._path := VStr "";
       MLDSASigner._algorithm := VStr "ML_DSA_65";
       MLDSASigner._securityLevel := VNum 3;
       MLDSASigner._accountIndex := VNum 0;
       MLDSASigner._addressIndex := VNum 0;
       MLDSASigner._hasRealImplementation := VBool true |} in
  MLDSASigner.verify E this (VStr "pay 10 to Bob") (VBytes (replicate 3293 x00))
    (VStr "not a key") = Ok true.
Proof.
  intros E this.
  refine (mldsa_verify_checks_only_the_size E this (VStr "pay 10 to Bob") (VStr "not a key")
            (utf8ToBytes "pay 10 to Bob") (replicate 3293 x00)
            {| MLDSASigner.level := 3; MLDSASigner.privateKeySize := 4032;
               MLDSASigner.publicKeySize := 1952; MLDSASigner.signatureSize := 3293 |}
            eq_refl eq_refl _).
  right. right. exists Reference.mldsa, "Uint8Array expected". split; reflexivity.
Defined.

(** What [dispose()] leaves of a seed that is a [Uint8Array] or falsy
    counts as no seed. *)
Definition releasable (seed : value) : bool := (is_Uint8Array seed || negb (truthy seed))%bool.

Lemma disposed_seed (this : MLDSASigner.t) :
  releasable (MLDSASigner._seed this) = true ->
  or_else (MLDSASigner._seed (MLDSASigner.dispose this)) (VBytes (replicate 32 x00))
  = VBytes (replicate 32 x00).
Proof.
  destruct this as [sk pk seed path alg level ai adi flag].
  cbn [MLDSASigner._seed MLDSASigner.dispose].
  unfold releasable, or_else.
  destruct seed as [ | |b|n|n|s|b|l|ps]; cbn [is_Uint8Array orb andb]; rewrite ?andb_false_r;
    intros H; try discriminate H; try reflexivity;
    apply negb_true_iff in H; rewrite H; reflexivity.
Qed.

Lemma dispose_keeps_the_mode (E : Imports) (this : MLDSASigner.t) :
  signs_with_placeholder E this -> signs_with_placeholder E (MLDSASigner.dispose this).
Proof. intros H. exact H. Qed.

(** X19.  [dispose()] does not disable the post-quantum signer.  A signer
    that signs with the placeholder still signs after [dispose()], and what
    it signs no longer depends on the secret it held: two disposed signers
    of the same algorithm, whose seeds were byte arrays (or missing),
    return the same [signature] bytes for the same data and options; the
    seed that enters the signature is then the array of 32 zero bytes. *)
Theorem disposed_signers_sign_alike (E : Imports) (this this' : MLDSASigner.t)
    (data options v : value) :
  signs_with_placeholder E this ->
  signs_with_placeholder E this' ->
  releasable (MLDSASigner._seed this) = true ->
  releasable (MLDSASigner._seed this') = true ->
  MLDSASigner._algorithm this = MLDSASigner._algorithm this' ->
  MLDSASigner.sign E (MLDSASigner.dispose this) data options = Ok v ->
  exists v',
    MLDSASigner.sign E (MLDSASigner.dispose this') data options = Ok v'
    /\ getProp v' "signature" = getProp v "signature"
    /\ getProp v' "signatureHex" = getProp v "signatureHex"
    /\ getProp v "publicKey" = Ok VNull.
Proof.
  intros Hmode Hmode' Hseed Hseed' Halg H.
  pose proof (dispose_keeps_the_mode E this Hmode) as Hd.
  pose proof (dispose_keeps_the_mode E this' Hmode') as Hd'.
  destruct (sign_alike E (MLDSASigner.dispose this) (MLDSASigner.dispose this') data options v
              Hd Hd') as (v' & Hv' & Hsig & Hhex & _).
  - rewrite (disposed_seed this Hseed), (disposed_seed this' Hseed'). reflexivity.
  - exact Halg.
  - exact H.
  - exists v'. repeat split; try assumption.
    rewrite (sign_with_placeholder E _ data options Hd) in H.
    do 3 inv_bind H.
    destruct (signWithPlaceholder_Ok E _ _ _ _ _ H)
      as (? & ? & ? & ? & ? & ? & ? & _ & _ & _ & _ & _ & _ & _ & _ & _ & Hpk & _).
    exact Hpk.
Qed.

Lemma disposed_signers_sign_alike_witness :
  let E := Reference.imports false true in
  let this := placeholder_signer (VBytes (replicate 4032 x00)) (VBytes (replicate 1952 x00))
                (VBytes (replicate 32 x01)) in
  let this' := placeholder_signer (VBytes (replicate 4032 x00)) (VBytes (replicate 1952 x00))
                 (VBytes (replicate 32 x02)) in
  exists v v',
    MLDSASigner.sign E (MLDSASigner.dispose this) (VStr "test message") VUndefined = Ok v
    /\ MLDSASigner.sign E (MLDSASigner.dispose this') (VStr "test message") VUndefined = Ok v'
    /\ getProp v' "signature" = getProp v "signature".
Proof.
  intros E this this'.
  destruct (MLDSASigner.sign E (MLDSASigner.dispose this) (VStr "test message") VUndefined)
    as [v|e] eqn:H; [|exfalso; revert H; vm_compute; discriminate].
  destruct (disposed_signers_sign_alike E this this' (VStr "test message") VUndefined v
              (or_introl eq_refl) (or_introl eq_refl) eq_refl eq_refl eq_refl H)
    as (v' & Hv' & Hsig & _).
  exists v, v'. repeat split; assumption.
Defined.

(** The signer with its flag cleared: what it is when it was built from
    placeholder material. *)
Definition flagged_placeholder (this : MLDSASigner.t) : MLDSASigner.t :=
  {| MLDSASigner._privateKey := MLDSASigner._privateKey this;
     MLDSASigner._publicKey := MLDSASigner._publicKey this;
     MLDSASigner._seed := MLDSASigner._seed this;
     MLDSASigner._path := MLDSASigner._path this;
     MLDSASigner._algorithm := MLDSASigner._algorithm this;
     MLDSASigner._securityLevel := MLDSASigner._securityLevel this;
     MLDSASigner._accountIndex := MLDSASigner._accountIndex this;
     MLDSASigner._addressIndex := MLDSASigner._addressIndex this;
     MLDSASigner._hasRealImplementation := VBool false |}.

Lemma signWithPlaceholder_flag (E : Imports) (this : MLDSASigner.t) (message : list byte)
    (context deterministic : value) :
  MLDSASigner._signWithPlaceholder E (flagged_placeholder this) message context deterministic
  = MLDSASigner._signWithPlaceholder E this message context deterministic.
Proof. reflexivity. Qed.

(** X30.  An error of the lattice primitive while signing is not reported.
    When the signer holds real material and the imported primitive throws
    on its private key (a key of the wrong length, or the [null] left by
    [dispose()]), [sign] returns what the same signer returns when it is
    flagged as holding placeholder material: a placeholder signature,
    marked [__placeholder: true], made from the seed and not from the
    key. *)
Theorem signing_errors_fall_back_to_the_placeholder (E : Imports) (this : MLDSASigner.t)
    (primitive : MlDsa) (data options : value) :
  ml_dsa_65 E = Some primitive ->
  (forall message context deterministic,
     exists e, mldsa_sign primitive message (MLDSASigner._privateKey this) context deterministic
               = Throw e) ->
  MLDSASigner.sign E this data options
  = MLDSASigner.sign E (flagged_placeholder this) data options
  /\ forall v, MLDSASigner.sign E this data options = Ok v ->
               getProp v "__placeholder" = Ok (VBool true).
Proof.
  intros Hprimitive Hthrows.
  assert (Hsame : MLDSASigner.sign E this data options
                  = MLDSASigner.sign E (flagged_placeholder this) data options).
  { rewrite (sign_with_placeholder E (flagged_placeholder this) data options
               (or_introl eq_refl)).
    unfold MLDSASigner.sign. cbv zeta.
    destruct (getProp (param (VObj []) options) "deterministic") as [d|e]; [|reflexivity].
    destruct (getProp (param (VObj []) options) "context") as [c|e]; [|reflexivity].
    destruct (MLDSASigner._dataToBytes E data) as [m|e]; [|reflexivity].
    cbn [bind]. rewrite signWithPlaceholder_flag.
    destruct (truthy (MLDSASigner._hasRealImplementation this)); [|reflexivity].
    unfold MLDSASigner._signWithRealImplementation, MLDSASigner.sign_real_attempt.
    rewrite Hprimitive.
    destruct (Hthrows m (param (VBytes []) c) (param (VBool true) d)) as [e ->].
    reflexivity. }
  split; [exact Hsame|].
  intros v Hv. rewrite Hsame in Hv.
  rewrite (sign_with_placeholder E (flagged_placeholder this) data options
             (or_introl eq_refl)) in Hv.
  do 3 inv_bind Hv.
  destruct (signWithPlaceholder_Ok E _ _ _ _ _ Hv)
    as (? & ? & ? & ? & ? & ? & ? & _ & _ & _ & _ & _ & _ & _ & _ & _ & _ & Hflag).
  exact Hflag.
Qed.

Lemma signing_errors_fall_back_to_the_placeholder_witness :
  let E := Reference.imports true true in
  let this :=
    {| MLDSASigner._privateKey := VNull;
       MLDSASigner._publicKey := VNull;
       MLDSASigner._seed := VNull;
       MLDSASigner._path := VNull;
       MLDSASigner._algorithm := VStr "ML_DSA_65";
       MLDSASigner._securityLevel := VNum 3;
       MLDSASigner._accountIndex := VNum 0;
       MLDSASigner._addressIndex := VNum 0;
       MLDSASigner._hasRealImplementation := VBool true |} in
  exists v,
    MLDSASigner.sign E this (VStr "test message") VUndefined = Ok v
    /\ getProp v "__placeholder" = Ok (VBool true).
Proof.
  intros E this.
  destruct (MLDSASigner.sign E this (VStr "test message") VUndefined) as [v|e] eqn:H;
    [|exfalso; revert H; vm_compute; discriminate].
  exists v. split; [reflexivity|].
  refine (proj2 (signing_errors_fall_back_to_the_placeholder E this Reference.mldsa
                   (VStr "test message") VUndefined eq_refl _) v H).
  intros message context deterministic. eexists. reflexivity.
Defined.

(** ** The protocol: configuration, initialisation, caches, dispatch *)

Lemma assoc_rev_NoDup (k : string) (l : list (string * value)) :
  List.NoDup (map fst l) -> assoc k (rev l) = assoc k l.
Proof.
  induction l as [|[k0 v0] l IH]; [reflexivity|].
  cbn [map fst rev assoc]. intros Hnd. inversion Hnd as [|? ? Hout Hnd']; subst.
  assert (Happ : forall l', assoc k (l' ++ [(k0, v0)])
                            = match assoc k l' with
                              | Some v => Some v
                              | None => if String.eqb k k0 then Some v0 else None
                              end).
  { induction l' as [|[k1 v1] l' IHl]; simpl; [reflexivity|].
    destruct (String.eqb k k1); [reflexivity | exact IHl]. }
  rewrite Happ, (IH Hnd').
  destruct (String.eqb k k0) eqn:H0.
  - apply String.eqb_eq in H0. subst k0.
    apply assoc_None in Hout. rewrite Hout. reflexivity.
  - destruct (assoc k l); reflexivity.
Qed.

(** X20.  The constructor of the protocol.  Without an account it throws.
    With an account and a configuration object (its keys distinct, as the
    keys of an object are), it returns a protocol that is not initialised,
    has no signer and empty caches, and whose configuration gives, for
    every key, the value of the configuration object when that object has
    the key (also when the value is [undefined], [null] or [false]) and the
    default otherwise: [ecdsaEnabled] and [mldsaEnabled] true,
    [defaultSignatureType] ['ecdsa'], [mldsaAlgorithm] ['ML-DSA-65'],
    [autoInitialize] true. *)
Theorem constructor_merges_the_configuration (account : DualSignatureProtocol.Account)
    (props : list (string * value)) :
  List.NoDup (map fst props) ->
  DualSignatureProtocol.constructor None (VObj props)
  = Throw "Account is required for DualSignatureProtocol"
  /\ exists this,
       DualSignatureProtocol.constructor (Some account) (VObj props) = Ok this
       /\ DualSignatureProtocol.isInitialized this = false
       /\ DualSignatureProtocol._ecdsaSigner this = None
       /\ DualSignatureProtocol._mldsaSigner this = None
       /\ DualSignatureProtocol._addressCache this = ∅
       /\ DualSignatureProtocol._publicKeyCache this = ∅
       /\ forall k,
            getProp (DualSignatureProtocol._config this) k
            = Ok (match assoc k props with
                  | Some v => v
                  | None => field DualSignatureProtocol.default_config k
                  end).
Proof.
  intros Hnd. split; [reflexivity|].
  eexists. split; [reflexivity|].
  cbn [DualSignatureProtocol.isInitialized DualSignatureProtocol._initialized
       DualSignatureProtocol._ecdsaSigner DualSignatureProtocol._mldsaSigner
       DualSignatureProtocol._addressCache DualSignatureProtocol._publicKeyCache
       DualSignatureProtocol._config param ownProps].
  repeat split.
  intros k. rewrite getProp_spread, (assoc_rev_NoDup k props Hnd). reflexivity.
Qed.

Lemma constructor_merges_the_configuration_witness :
  exists this,
    DualSignatureProtocol.constructor (Some Reference.account)
      (VObj [("mldsaEnabled", VUndefined); ("defaultSignatureType", VStr "dual")]) = Ok this
    /\ getProp (DualSignatureProtocol._config this) "mldsaEnabled" = Ok VUndefined
    /\ getProp (DualSignatureProtocol._config this) "ecdsaEnabled" = Ok (VBool true)
    /\ getProp (DualSignatureProtocol._config this) "defaultSignatureType" = Ok (VStr "dual").
Proof.
  assert (Hnd : List.NoDup (map fst [("mldsaEnabled", VUndefined);
                                ("defaultSignatureType", VStr "dual")])).
  { repeat constructor; simpl; intros H; repeat (destruct H as [H|H]; [discriminate H|]);
      exact H. }
  destruct (constructor_merges_the_configuration Reference.account _ Hnd)
    as (_ & this & Hthis & _ & _ & _ & _ & _ & Hconfig).
  exists this. split; [exact Hthis|].
  rewrite !Hconfig. repeat split.
Defined.

(** *** Steps of the protocol that leave a component as it is *)

Section ProtocolPreserves.
Context {X : Type} (f : DualSignatureProtocol.t -> X).

Lemma preserves_config (k : string) : preserves f (DualSignatureProtocol.config k).
Proof. intros s r s' [= _ <-]. reflexivity. Qed.

Lemma preserves_account (k : string) : preserves f (DualSignatureProtocol.account k).
Proof.
  intros s r s'. unfold DualSignatureProtocol.account.
  destruct (DualSignatureProtocol._account s); intros [= _ <-]; reflexivity.
Qed.

Lemma preserves_assign (g : DualSignatureProtocol.t -> DualSignatureProtocol.t) :
  (forall s, f (g s) = f s) -> preserves f (DualSignatureProtocol.assign g).
Proof. intros Hg s r s' [= _ <-]. apply Hg. Qed.

Lemma preserves_on_keyDerivation {A} (m : M DualKeyDerivation.t A) :
  (forall x s, f (DualSignatureProtocol.set_keyDerivation x s) = f s) ->
  preserves f (DualSignatureProtocol.on_keyDerivation m).
Proof.
  intros Hf s r s'. unfold DualSignatureProtocol.on_keyDerivation.
  destruct (DualSignatureProtocol._keyDerivation s) as [engine|].
  - destruct (m engine) as [r0 engine']. intros [= _ <-]. apply Hf.
  - intros [= _ <-]. reflexivity.
Qed.

Lemma preserves_initialize (E : Imports) :
  preserves f (DualSignatureProtocol._initialize_body E) ->
  preserves f (DualSignatureProtocol._initialize E).
Proof.
  intros Hbody s r s'. unfold DualSignatureProtocol._initialize.
  destruct (DualSignatureProtocol._initialized s); [intros [= _ <-]; reflexivity|].
  apply preserves_try_catchM; [exact Hbody | intros e; apply preserves_throw].
Qed.

Lemma preserves_ensureInitialized (E : Imports) :
  preserves f (DualSignatureProtocol._initialize_body E) ->
  preserves f (DualSignatureProtocol._ensureInitialized E).
Proof.
  intros Hbody s r s'. unfold DualSignatureProtocol._ensureInitialized.
  destruct (DualSignatureProtocol._initialized s); [intros [= _ <-]; reflexivity|].
  apply preserves_bindM; [apply preserves_config|].
  intros auto. destruct (truthy auto);
    [apply preserves_initialize; exact Hbody | apply preserves_throw].
Qed.

End ProtocolPreserves.

(** Decomposition of a method into steps that preserve [f]; what is left
    are the assignments that do change [f], if any. *)
Ltac preserves_steps :=
  repeat first
    [ apply preserves_ret | apply preserves_throw | apply preserves_lift | apply preserves_get
    | apply preserves_config | apply preserves_account
    | apply preserves_on_keyDerivation; intros ? ?; reflexivity
    | apply preserves_assign; intros ?; reflexivity
    | apply preserves_bindM; [|intros ?]
    | apply preserves_promise_all2
    | match goal with
      | |- preserves _ (match ?x with _ => _ end) => destruct x
      end ].

(** The methods other than [initialize()] and [dispose()], given that the
    check at their head preserves [f] and that [f] does not look at the
    caches. *)
Lemma preserves_methods {X} (f : DualSignatureProtocol.t -> X) (E : Imports)
    (c : DualSignatureProtocol.call) :
  preserves f (DualSignatureProtocol._ensureInitialized E) ->
  (forall x s, f (DualSignatureProtocol.set_addressCache x s) = f s) ->
  (forall x s, f (DualSignatureProtocol.set_publicKeyCache x s) = f s) ->
  match c with
  | DualSignatureProtocol.Initialize | DualSignatureProtocol.Dispose => True
  | _ => preserves f (DualSignatureProtocol.run E c)
  end.
Proof.
  intros Hensure Hac Hpc.
  assert (HsignC : forall data options,
            preserves f (DualSignatureProtocol.signWithECDSA E data options)).
  { intros. unfold DualSignatureProtocol.signWithECDSA, DualSignatureProtocol.enabled_ecdsaSigner.
    cbv zeta. apply preserves_bindM; [exact Hensure | intros ?]. preserves_steps. }
  assert (HsignM : forall data options,
            preserves f (DualSignatureProtocol.signWithMLDSA E data options)).
  { intros. unfold DualSignatureProtocol.signWithMLDSA.
    cbv zeta. apply preserves_bindM; [exact Hensure | intros ?]. preserves_steps. }
  assert (Hdual : forall data options,
            preserves f (DualSignatureProtocol.dualSign E data options)).
  { intros. unfold DualSignatureProtocol.dualSign.
    cbv zeta. apply preserves_bindM; [exact Hensure | intros ?].
    apply preserves_bindM; [|intros ?; preserves_steps].
    apply preserves_promise_all2; (apply preserves_bindM; [apply preserves_config | intros flag]);
      destruct (truthy flag); auto using preserves_ret. }
  assert (Haddresses : preserves f (DualSignatureProtocol.getAddresses E)).
  { unfold DualSignatureProtocol.getAddresses.
    apply preserves_bindM; [exact Hensure | intros ?].
    apply preserves_bindM; [apply preserves_get | intros this].
    destruct (DualSignatureProtocol.cached _ _); [apply preserves_ret|].
    do 4 (apply preserves_bindM; [apply preserves_lift | intros ?]).
    apply preserves_bindM; [apply preserves_assign; apply Hac | intros ?; apply preserves_ret]. }
  assert (HpublicKeys : preserves f (DualSignatureProtocol.getPublicKeys E)).
  { unfold DualSignatureProtocol.getPublicKeys.
    apply preserves_bindM; [exact Hensure | intros ?].
    apply preserves_bindM; [apply preserves_get | intros this].
    destruct (DualSignatureProtocol.cached _ _); [apply preserves_ret|].
    do 2 (apply preserves_bindM; [apply preserves_lift | intros ?]).
    apply preserves_bindM; [apply preserves_assign; apply Hpc | intros ?; apply preserves_ret]. }
  assert (Hfingerprints : preserves f (DualSignatureProtocol.getFingerprints E)).
  { unfold DualSignatureProtocol.getFingerprints.
    apply preserves_bindM; [exact Hensure | intros ?]. preserves_steps. }
  destruct c; cbn [DualSignatureProtocol.run]; try exact I; auto.
  - (* isInitialized *) preserves_steps.
  - (* signMessageWithECDSA *)
    unfold DualSignatureProtocol.signMessageWithECDSA, DualSignatureProtocol.enabled_ecdsaSigner.
    apply preserves_bindM; [exact Hensure | intros ?]. preserves_steps.
  - (* signTransactionWithECDSA *)
    unfold DualSignatureProtocol.signTransactionWithECDSA,
      DualSignatureProtocol.enabled_ecdsaSigner.
    apply preserves_bindM; [exact Hensure | intros ?]. preserves_steps.
  - (* verifyECDSA *)
    unfold DualSignatureProtocol.verifyECDSA. cbv zeta.
    apply preserves_bindM; [exact Hensure | intros ?]. preserves_steps.
  - (* verifyMLDSA *)
    unfold DualSignatureProtocol.verifyMLDSA. cbv zeta.
    apply preserves_bindM; [exact Hensure | intros ?]. preserves_steps.
  - (* exportPublicKeys *)
    unfold DualSignatureProtocol.exportPublicKeys.
    apply preserves_bindM; [exact Hensure | intros ?].
    apply preserves_bindM; [exact Haddresses | intros ?].
    apply preserves_bindM; [exact HpublicKeys | intros ?].
    apply preserves_bindM; [exact Hfingerprints | intros ?]. preserves_steps.
  - (* sign *)
    unfold DualSignatureProtocol.sign. cbv zeta.
    apply preserves_bindM; [apply preserves_lift | intros type].
    apply preserves_bindM; [destruct (truthy type); [apply preserves_ret | apply preserves_config]|].
    intros signatureType.
    destruct (is_string signatureType "ecdsa"); [apply HsignC|].
    destruct (is_string signatureType "mldsa"); [apply HsignM|].
    destruct (is_string signatureType "dual"); [apply Hdual | apply preserves_throw].
  - (* getInfo *)
    unfold DualSignatureProtocol.getInfo.
    apply preserves_bindM; [exact Hensure | intros ?].
    apply preserves_bindM; [exact Haddresses | intros ?]. preserves_steps.
  - (* clearCaches *)
    unfold DualSignatureProtocol.clearCaches.
    apply preserves_bindM; [|intros ?; apply preserves_ret].
    apply preserves_bindM; [apply preserves_assign; apply Hac | intros ?].
    apply preserves_assign; apply Hpc.
Qed.

Definition not_initialized : string :=
  "DualSignatureProtocol not initialized. Call initialize() first.".

Lemma ensureInitialized_manual (E : Imports) (this : DualSignatureProtocol.t) :
  DualSignatureProtocol._initialized this = false ->
  disabled this "autoInitialize" ->
  DualSignatureProtocol._ensureInitialized E this = (Throw not_initialized, this).
Proof.
  intros Hi (flag & Hflag & Hfalsy). unfold DualSignatureProtocol._ensureInitialized.
  rewrite Hi. unfold bindM, DualSignatureProtocol.config. rewrite Hflag, Hfalsy. reflexivity.
Qed.

(** X21.  A protocol configured with a falsy [autoInitialize] does nothing
    before [initialize()] is called: while it is not initialised, every
    signing, verifying, key, address and information method throws and
    leaves the protocol exactly as it was, so that nothing is derived from
    the seed; the error is the one that asks for [initialize()], except for
    [sign], which may fail earlier on its [type] option. *)
Theorem manual_mode_requires_initialize (E : Imports) (this : DualSignatureProtocol.t)
    (c : DualSignatureProtocol.call) :
  DualSignatureProtocol._initialized this = false ->
  disabled this "autoInitialize" ->
  DualSignatureProtocol.is_query c = true ->
  exists e,
    DualSignatureProtocol.run E c this = (Throw e, this)
    /\ match c with
       | DualSignatureProtocol.Sign _ _ => True
       | _ => e = not_initialized
       end.
Proof.
  intros Hi Hmanual Hc.
  pose proof (ensureInitialized_manual E this Hi Hmanual) as Hensure.
  assert (Hgated : forall A (k : unit -> M DualSignatureProtocol.t A),
            bindM (DualSignatureProtocol._ensureInitialized E) k this
            = (Throw not_initialized, this))
    by (intros; apply bindM_Throw, Hensure).
  destruct c; try discriminate Hc; cbn [DualSignatureProtocol.run];
    try (exists not_initialized; split; [|reflexivity];
         unfold DualSignatureProtocol.signWithECDSA, DualSignatureProtocol.signMessageWithECDSA,
           DualSignatureProtocol.signTransactionWithECDSA, DualSignatureProtocol.signWithMLDSA,
           DualSignatureProtocol.dualSign, DualSignatureProtocol.verifyECDSA,
           DualSignatureProtocol.verifyMLDSA, DualSignatureProtocol.getPublicKeys,
           DualSignatureProtocol.getAddresses, DualSignatureProtocol.getFingerprints,
           DualSignatureProtocol.exportPublicKeys, DualSignatureProtocol.getInfo;
         cbv zeta; apply Hgated).
  (* sign *)
  unfold DualSignatureProtocol.sign. cbv zeta.
  unfold bindM at 1. unfold lift at 1.
  destruct (getProp (param (VObj []) options) "type") as [type|e]; [|eauto].
  assert (Hdispatch : forall signatureType, exists e,
    (if is_string signatureType "ecdsa"
     then DualSignatureProtocol.signWithECDSA E data (param (VObj []) options)
     else if is_string signatureType "mldsa"
          then DualSignatureProtocol.signWithMLDSA E data (param (VObj []) options)
          else if is_string signatureType "dual"
               then DualSignatureProtocol.dualSign E data (param (VObj []) options)
               else throw ("Invalid signature type: " +:+ toString signatureType)) this
    = (Throw e, this) /\ True).
  { intros st.
    destruct (is_string st "ecdsa");
      [eexists; split; [unfold DualSignatureProtocol.signWithECDSA; apply Hgated | exact I]|].
    destruct (is_string st "mldsa");
      [eexists; split; [unfold DualSignatureProtocol.signWithMLDSA; apply Hgated | exact I]|].
    destruct (is_string st "dual");
      [eexists; split; [unfold DualSignatureProtocol.dualSign; apply Hgated | exact I]|].
    eexists; split; reflexivity. }
  unfold bindM at 1.
  destruct (truthy type).
  - unfold ret at 1. apply Hdispatch.
  - unfold DualSignatureProtocol.config at 1.
    destruct (getProp (DualSignatureProtocol._config this) "defaultSignatureType") as [st|e];
      [apply Hdispatch | eauto].
Qed.

(** A protocol of the reference instance, built for an account and a
    configuration object. *)
Definition reference_protocol (config : list (string * value)) : DualSignatureProtocol.t :=
  {| DualSignatureProtocol._account := Some Reference.account;
     DualSignatureProtocol._config := VObj (spread DualSignatureProtocol.default_config config);
     DualSignatureProtocol._keyDerivation := None;
     DualSignatureProtocol._ecdsaSigner := None;
     DualSignatureProtocol._mldsaSigner := None;
     DualSignatureProtocol._initialized := false;
     DualSignatureProtocol._accountIndex := VNull;
     DualSignatureProtocol._addressIndex := VNull;
     DualSignatureProtocol._addressCache := ∅;
     DualSignatureProtocol._publicKeyCache := ∅ |}.

Lemma reference_protocol_constructed (config : list (string * value)) :
  DualSignatureProtocol.constructor (Some Reference.account) (VObj config)
  = Ok (reference_protocol config).
Proof. reflexivity. Qed.

Lemma manual_mode_requires_initialize_witness :
  let E := Reference.imports true true in
  let this := reference_protocol [("autoInitialize", VBool false); ("mldsaEnabled", VBool false)] in
  DualSignatureProtocol.run E DualSignatureProtocol.GetAddresses this
  = (Throw not_initialized, this).
Proof.
  intros E this.
  destruct (manual_mode_requires_initialize E this DualSignatureProtocol.GetAddresses)
    as (e & Hrun & ->); [reflexivity | | reflexivity | exact Hrun].
  exists (VBool false). split; reflexivity.
Defined.

(** *** Initialisation *)

Definition preserves_on_throw {S A X} (f : S -> X) (m : M S A) : Prop :=
  forall s e s', m s = (Throw e, s') -> f s' = f s.

Lemma preserves_on_throw_bindM {S A B X} (f : S -> X) (m : M S A) (k : A -> M S B) :
  preserves f m -> (forall a, preserves_on_throw f (k a)) -> preserves_on_throw f (bindM m k).
Proof.
  intros Hm Hk s e s'. unfold bindM.
  destruct (m s) as [[a|e0] s1] eqn:Hms.
  - intros H. rewrite (Hk a _ _ _ H). exact (Hm _ _ _ Hms).
  - intros [= _ <-]. exact (Hm _ _ _ Hms).
Qed.

Lemma preserves_on_throw_assign {X} (f : DualSignatureProtocol.t -> X)
    (g : DualSignatureProtocol.t -> DualSignatureProtocol.t) :
  preserves_on_throw f (DualSignatureProtocol.assign g).
Proof. intros s e s'. discriminate. Qed.

(** Until its last statement, the [try] block of [_initialize] does not
    assign to [_initialized]. *)
Lemma initialize_body_Throw (E : Imports) :
  preserves_on_throw DualSignatureProtocol._initialized (DualSignatureProtocol._initialize_body E).
Proof.
  unfold DualSignatureProtocol._initialize_body.
  do 11 (apply preserves_on_throw_bindM;
         [unfold DualSignatureProtocol._getAccountIndex, DualSignatureProtocol._getAddressIndex;
          preserves_steps | intros ?]).
  apply preserves_on_throw_assign.
Qed.

(** X22.  [initialize()] is all or nothing as far as [isInitialized()]
    tells.  When it returns, the protocol is initialised.  When it throws,
    the protocol was not initialised and still is not, whichever statement
    failed (the seed lookup, a derivation, the construction of a signer),
    and the message of the error starts with
    [Failed to initialize DualSignatureProtocol: ]. *)
Theorem initialize_is_all_or_nothing (E : Imports) (this : DualSignatureProtocol.t) :
  match DualSignatureProtocol.initialize E this with
  | (Ok _, after) => DualSignatureProtocol.isInitialized after = true
  | (Throw e, after) =>
      DualSignatureProtocol.isInitialized this = false
      /\ DualSignatureProtocol.isInitialized after = false
      /\ exists message, e = "Failed to initialize DualSignatureProtocol: " +:+ message
  end.
Proof.
  unfold DualSignatureProtocol.initialize, DualSignatureProtocol._initialize,
    DualSignatureProtocol.isInitialized.
  destruct (DualSignatureProtocol._initialized this) eqn:Hi; [exact Hi|].
  unfold try_catchM.
  destruct (DualSignatureProtocol._initialize_body E this) as [[[]|e] after] eqn:Hbody.
  - exact (initialize_body_Ok E this after Hbody).
  - unfold throw. split; [reflexivity|]. split; [|eauto].
    rewrite (initialize_body_Throw E this e after Hbody). exact Hi.
Qed.

(** X23.  [initialize()] without a seed.  When the configuration has no
    truthy [seed], the account has no [getSeed] method and its [_seed] is
    falsy, [initialize()] throws
    [Failed to initialize DualSignatureProtocol: No seed available for key derivation]
    and leaves the protocol exactly as it was: no engine is created and no
    index is read. *)
Theorem initialize_without_a_seed (E : Imports) (this : DualSignatureProtocol.t)
    (account : DualSignatureProtocol.Account) :
  DualSignatureProtocol._initialized this = false ->
  DualSignatureProtocol._account this = Some account ->
  disabled this "seed" ->
  DualSignatureProtocol.getSeed account = None ->
  truthy (DualSignatureProtocol.account_seed account) = false ->
  DualSignatureProtocol.initialize E this
  = (Throw "Failed to initialize DualSignatureProtocol: No seed available for key derivation",
     this).
Proof.
  intros Hi Haccount (seed & Hseed & Hfalsy) Hmethod Hproperty.
  unfold DualSignatureProtocol.initialize, DualSignatureProtocol._initialize.
  rewrite Hi. unfold try_catchM, DualSignatureProtocol._initialize_body.
  unfold bindM at 1. unfold DualSignatureProtocol.config at 1. rewrite Hseed, Hfalsy.
  unfold bindM at 1. unfold bindM at 1. unfold DualSignatureProtocol.account at 1.
  rewrite Haccount, Hmethod, Hproperty. reflexivity.
Qed.

Lemma initialize_without_a_seed_witness :
  let E := Reference.imports true true in
  let account :=
    {| DualSignatureProtocol.getSeed := None;
       DualSignatureProtocol.account_seed := VUndefined;
       DualSignatureProtocol.getAccountIndex := None;
       DualSignatureProtocol.accountIndex := VNum 3;
       DualSignatureProtocol.getAddressIndex := None;
       DualSignatureProtocol.addressIndex := VUndefined |} in
  exists this,
    DualSignatureProtocol.constructor (Some account) VUndefined = Ok this
    /\ DualSignatureProtocol.initialize E this
       = (Throw "Failed to initialize DualSignatureProtocol: No seed available for key derivation",
          this).
Proof.
  intros E account. eexists. split; [reflexivity|].
  apply (initialize_without_a_seed E _ account); try reflexivity.
  exists VUndefined. split; reflexivity.
Defined.

(** *** Configuration and account *)

Lemma initialize_body_keeps_configuration (E : Imports) :
  preserves (fun s => (DualSignatureProtocol._config s, DualSignatureProtocol._account s))
    (DualSignatureProtocol._initialize_body E).
Proof.
  unfold DualSignatureProtocol._initialize_body, DualSignatureProtocol._getAccountIndex,
    DualSignatureProtocol._getAddressIndex.
  preserves_steps.
Qed.

(** X24.  The configuration and the account of a protocol are fixed by its
    constructor.  No method assigns to them except [dispose()], which
    clears both: after any other call (a signing, verifying or query
    method, [initialize()], [clearCaches()]), whether it returned or threw,
    the protocol has the configuration and the account it had before. *)
Theorem only_dispose_changes_the_configuration (E : Imports) (c : DualSignatureProtocol.call)
    (this : DualSignatureProtocol.t) :
  let after := snd (DualSignatureProtocol.run E c this) in
  match c with
  | DualSignatureProtocol.Dispose =>
      DualSignatureProtocol._config after = VNull
      /\ DualSignatureProtocol._account after = None
  | _ =>
      DualSignatureProtocol._config after = DualSignatureProtocol._config this
      /\ DualSignatureProtocol._account after = DualSignatureProtocol._account this
  end.
Proof.
  cbv zeta.
  set (f := fun s => (DualSignatureProtocol._config s, DualSignatureProtocol._account s)).
  assert (Hrun : match c with
                 | DualSignatureProtocol.Dispose => True
                 | _ => preserves f (DualSignatureProtocol.run E c)
                 end).
  { pose proof (preserves_methods f E c
                  (preserves_ensureInitialized f E (initialize_body_keeps_configuration E))
                  (fun _ _ => eq_refl) (fun _ _ => eq_refl)) as H.
    destruct c; try exact H.
    cbn [DualSignatureProtocol.run]. apply preserves_bindM; [|intros ?; apply preserves_ret].
    apply preserves_initialize, initialize_body_keeps_configuration. }
  destruct c;
    try (specialize (Hrun this _ _ (surjective_pairing _));
         split; [exact (f_equal fst Hrun) | exact (f_equal snd Hrun)]).
  cbn [DualSignatureProtocol.run]. unfold bindM. rewrite dispose_returns. cbn [snd ret].
  destruct this as [acc cfg kd es ms ini ai adi c1 c2].
  destruct es, ms, kd; split; reflexivity.
Qed.

(** *** The post-quantum signer of a protocol *)

(** The statements of [_initialize] that derive the post-quantum key and
    build the signer never reach the assignment to [_mldsaSigner]. *)
Lemma mldsa_block_preserves (E : Imports) (accountIndex addressIndex : value) :
  preserves DualSignatureProtocol._mldsaSigner
    (mldsaKey <~ DualSignatureProtocol.on_keyDerivation
                   (DualKeyDerivation.deriveMLDSAKey E accountIndex addressIndex) ;;
     signer <~ lift (MLDSASigner.constructor mldsaKey) ;;
     DualSignatureProtocol.assign (DualSignatureProtocol.set_mldsaSigner (Some signer))).
Proof.
  intros s r s'. unfold bindM.
  destruct (DualSignatureProtocol.on_keyDerivation _ s) as [[mldsaKey|e] s1] eqn:Hderive.
  - destruct (on_keyDerivation_Ok _ _ _ _ Hderive) as (engine & engine' & Hkey).
    unfold lift. rewrite (constructor_rejects_derived_key E _ _ _ _ _ Hkey).
    intros [= _ <-].
    exact (preserves_on_keyDerivation DualSignatureProtocol._mldsaSigner _
             (fun _ _ => eq_refl) _ _ _ Hderive).
  - intros [= _ <-].
    exact (preserves_on_keyDerivation DualSignatureProtocol._mldsaSigner _
             (fun _ _ => eq_refl) _ _ _ Hderive).
Qed.

Lemma initialize_body_keeps_mldsaSigner (E : Imports) :
  preserves DualSignatureProtocol._mldsaSigner (DualSignatureProtocol._initialize_body E).
Proof.
  unfold DualSignatureProtocol._initialize_body.
  do 10 (apply preserves_bindM;
         [unfold DualSignatureProtocol._getAccountIndex, DualSignatureProtocol._getAddressIndex;
          preserves_steps | intros ?]).
  apply preserves_bindM; [|intros ?; preserves_steps].
  match goal with
  | |- preserves _ (if ?flag then _ else _) => destruct flag
  end; [apply mldsa_block_preserves | apply preserves_ret].
Qed.

Lemma run_keeps_no_mldsaSigner (E : Imports) (c : DualSignatureProtocol.call)
    (this : DualSignatureProtocol.t) :
  DualSignatureProtocol._mldsaSigner this = None ->
  DualSignatureProtocol._mldsaSigner (snd (DualSignatureProtocol.run E c this)) = None.
Proof.
  intros Hnone.
  pose proof (preserves_methods DualSignatureProtocol._mldsaSigner E c
                (preserves_ensureInitialized _ E (initialize_body_keeps_mldsaSigner E))
                (fun _ _ => eq_refl) (fun _ _ => eq_refl)) as H.
  destruct c; try (rewrite (H this _ _ (surjective_pairing _)); exact Hnone).
  - (* initialize *)
    cbn [DualSignatureProtocol.run].
    assert (Hp : preserves DualSignatureProtocol._mldsaSigner
                   (_ <~ DualSignatureProtocol.initialize E ;; ret VUndefined)).
    { apply preserves_bindM; [|intros ?; apply preserves_ret].
      apply preserves_initialize, initialize_body_keeps_mldsaSigner. }
    rewrite (Hp this _ _ (surjective_pairing _)). exact Hnone.
  - (* dispose *)
    cbn [DualSignatureProtocol.run]. unfold bindM. rewrite dispose_returns. cbn [snd ret].
    destruct this as [acc cfg kd es ms ini ai adi c1 c2].
    destruct es, ms, kd; reflexivity.
Qed.

(** The calls that need the post-quantum signer. *)
Definition needs_mldsaSigner (c : DualSignatureProtocol.call) : bool :=
  match c with
  | DualSignatureProtocol.SignWithMLDSA _ _ | DualSignatureProtocol.VerifyMLDSA _ _ _ => true
  | _ => false
  end.

Lemma run_without_mldsaSigner (E : Imports) (c : DualSignatureProtocol.call)
    (this : DualSignatureProtocol.t) :
  DualSignatureProtocol._mldsaSigner this = None ->
  needs_mldsaSigner c = true ->
  exists e, fst (DualSignatureProtocol.run E c this) = Throw e.
Proof.
  intros Hnone Hc.
  pose proof (preserves_ensureInitialized DualSignatureProtocol._mldsaSigner E
                (initialize_body_keeps_mldsaSigner E)) as Hensure.
  destruct c; try discriminate Hc; cbn [DualSignatureProtocol.run].
  - unfold DualSignatureProtocol.signWithMLDSA. cbv zeta. unfold bindM at 1.
    destruct (DualSignatureProtocol._ensureInitialized E this) as [[[]|e] s1] eqn:He; [|eauto].
    pose proof (Hensure _ _ _ He) as Hs1. rewrite Hnone in Hs1.
    unfold bindM, DualSignatureProtocol.config, get.
    destruct (getProp (DualSignatureProtocol._config s1) "mldsaEnabled"); [|eauto].
    rewrite Hs1. eauto.
  - unfold DualSignatureProtocol.verifyMLDSA. cbv zeta. unfold bindM at 1.
    destruct (DualSignatureProtocol._ensureInitialized E this) as [[[]|e] s1] eqn:He; [|eauto].
    pose proof (Hensure _ _ _ He) as Hs1. rewrite Hnone in Hs1.
    unfold bindM, get. rewrite Hs1. eauto.
Qed.

Lemma run_all_without_mldsaSigner (E : Imports) (calls : list DualSignatureProtocol.call)
    (this : DualSignatureProtocol.t) :
  DualSignatureProtocol._mldsaSigner this = None ->
  DualSignatureProtocol._mldsaSigner (snd (DualSignatureProtocol.run_all E calls this)) = None
  /\ Forall2 (fun c r => needs_mldsaSigner c = true -> exists e, r = Throw e)
       calls (fst (DualSignatureProtocol.run_all E calls this)).
Proof.
  revert this. induction calls as [|c rest IH]; intros this Hnone.
  - split; [exact Hnone | constructor].
  - cbn [DualSignatureProtocol.run_all].
    pose proof (run_keeps_no_mldsaSigner E c this Hnone) as H1.
    pose proof (run_without_mldsaSigner E c this Hnone) as H2.
    destruct (DualSignatureProtocol.run E c this) as [r this1]. cbn [fst snd] in H1, H2.
    destruct (IH this1 H1) as [H3 H4].
    destruct (DualSignatureProtocol.run_all E rest this1) as [rs this2].
    split; [exact H3 | constructor; assumption].
Qed.

(** X25.  No protocol ever holds a post-quantum signer.  Starting from
    what the constructor returns, after every sequence of calls of public
    methods the field [_mldsaSigner] is still [null] (the constructor of
    the signer rejects every key that the engine derives, so the
    assignment in [_initialize] is never reached), and every call of
    [signWithMLDSA] or [verifyMLDSA] in the sequence throws, whatever the
    configuration, the account, the data and the imports are. *)
Theorem mldsa_signer_is_never_set (E : Imports) (account : DualSignatureProtocol.Account)
    (config : value) (fresh : DualSignatureProtocol.t)
    (calls : list DualSignatureProtocol.call) :
  DualSignatureProtocol.constructor (Some account) config = Ok fresh ->
  let after := DualSignatureProtocol.run_all E calls fresh in
  DualSignatureProtocol._mldsaSigner (snd after) = None
  /\ Forall2 (fun c r => needs_mldsaSigner c = true -> exists e, r = Throw e) calls (fst after).
Proof.
  intros Hfresh. cbv zeta. apply run_all_without_mldsaSigner.
  unfold DualSignatureProtocol.constructor in Hfresh. injection Hfresh as <-. reflexivity.
Qed.

Lemma mldsa_signer_is_never_set_witness :
  let E := Reference.imports true true in
  let calls := [ DualSignatureProtocol.Initialize;
                 DualSignatureProtocol.SignWithMLDSA (VStr "test message") VUndefined ] in
  exists e,
    nth_error (fst (DualSignatureProtocol.run_all E calls
                      (reference_protocol [("mldsaEnabled", VBool false)]))) 1
    = Some (Throw e).
Proof.
  intros E calls.
  destruct (mldsa_signer_is_never_set E Reference.account
              (VObj [("mldsaEnabled", VBool false)]) _ calls
              (reference_protocol_constructed _)) as [_ Hall].
  cbv zeta in Hall.
  destruct (fst (DualSignatureProtocol.run_all E calls
                   (reference_protocol [("mldsaEnabled", VBool false)]))) as [|r0 [|r1 rs]];
    inversion Hall as [|? ? ? ? _ Hrest]; subst.
  - inversion Hrest.
  - inversion Hrest as [|? ? ? ? Hthrow _]; subst.
    destruct (Hthrow eq_refl) as [e ->]. exists e. reflexivity.
Defined.

(** *** Caches *)

(** The two cached queries, and the cache that each one fills. *)
Inductive cached_query : Type :=
| Addresses
| PublicKeys.

Definition query (E : Imports) (q : cached_query) : M DualSignatureProtocol.t value :=
  match q with
  | Addresses => DualSignatureProtocol.getAddresses E
  | PublicKeys => DualSignatureProtocol.getPublicKeys E
  end.

Definition cache_of (q : cached_query) (this : DualSignatureProtocol.t) : gmap string value :=
  match q with
  | Addresses => DualSignatureProtocol._addressCache this
  | PublicKeys => DualSignatureProtocol._publicKeyCache this
  end.

Lemma cached_Some (cache : gmap string value) (key : string) (v : value) :
  DualSignatureProtocol.cached cache key = Some v -> cache !! key = Some v /\ truthy v = true.
Proof.
  unfold DualSignatureProtocol.cached.
  destruct (cache !! key) as [x|]; [|discriminate].
  destruct (truthy x) eqn:Hx; [|discriminate]. intros [= <-]. auto.
Qed.

Lemma cached_lookup (cache : gmap string value) (key : string) (v : value) :
  cache !! key = Some v -> truthy v = true -> DualSignatureProtocol.cached cache key = Some v.
Proof. unfold DualSignatureProtocol.cached. intros -> ->. reflexivity. Qed.

(** X26.  [getAddresses()] and [getPublicKeys()] are served from their
    cache.  When one of them returns a value, the cache holds that value
    under the key made of the two indices, and calling the same method
    again returns the same value and changes nothing: no signer method is
    called the second time. *)
Theorem second_query_is_served_from_the_cache (E : Imports) (q : cached_query)
    (this after : DualSignatureProtocol.t) (v : value) :
  query E q this = (Ok v, after) ->
  cache_of q after !! DualSignatureProtocol.cacheKey after = Some v
  /\ query E q after = (Ok v, after).
Proof.
  intros H.
  assert (Hshape : exists s1,
    DualSignatureProtocol._ensureInitialized E this = (Ok tt, s1)
    /\ DualSignatureProtocol._initialized after = true
    /\ cache_of q after !! DualSignatureProtocol.cacheKey after = Some v
    /\ truthy v = true).
  { destruct q; cbn [query cache_of] in *.
    - unfold DualSignatureProtocol.getAddresses in H.
      inv_bindM H. destruct x. exists s. split; [exact Hx|].
      destruct (ensureInitialized_Ok E this s Hx) as [Hi _].
      inv_bindM H. unfold get in Hx0. injection Hx0 as <- <-.
      destruct (DualSignatureProtocol.cached _ _) as [hit|] eqn:Hc.
      + injection H as <- <-. destruct (cached_Some _ _ _ Hc) as [Hl Ht]. auto.
      + repeat inv_bindM H. unfold ret in H. injection H as <- <-.
        repeat match goal with
               | H0 : lift _ _ = (Ok _, _) |- _ => unfold lift in H0; injection H0 as _ <-
               | H0 : DualSignatureProtocol.assign _ _ = (Ok _, _) |- _ =>
                   unfold DualSignatureProtocol.assign in H0; injection H0 as _ <-
               end.
        split; [exact Hi|]. split; [|reflexivity].
        unfold DualSignatureProtocol.cacheKey. cbn. apply lookup_insert_eq.
    - unfold DualSignatureProtocol.getPublicKeys in H.
      inv_bindM H. destruct x. exists s. split; [exact Hx|].
      destruct (ensureInitialized_Ok E this s Hx) as [Hi _].
      inv_bindM H. unfold get in Hx0. injection Hx0 as <- <-.
      destruct (DualSignatureProtocol.cached _ _) as [hit|] eqn:Hc.
      + injection H as <- <-. destruct (cached_Some _ _ _ Hc) as [Hl Ht]. auto.
      + repeat inv_bindM H. unfold ret in H. injection H as <- <-.
        repeat match goal with
               | H0 : lift _ _ = (Ok _, _) |- _ => unfold lift in H0; injection H0 as _ <-
               | H0 : DualSignatureProtocol.assign _ _ = (Ok _, _) |- _ =>
                   unfold DualSignatureProtocol.assign in H0; injection H0 as _ <-
               end.
        split; [exact Hi|]. split; [|reflexivity].
        unfold DualSignatureProtocol.cacheKey. cbn. apply lookup_insert_eq. }
  destruct Hshape as (s1 & _ & Hi & Hl & Ht).
  split; [exact Hl|].
  destruct q; cbn [query cache_of] in *.
  - unfold DualSignatureProtocol.getAddresses.
    rewrite (bindM_step _ _ _ _ _ (ensureInitialized_ready E after Hi)).
    unfold bindM, get. rewrite (cached_lookup _ _ _ Hl Ht). reflexivity.
  - unfold DualSignatureProtocol.getPublicKeys.
    rewrite (bindM_step _ _ _ _ _ (ensureInitialized_ready E after Hi)).
    unfold bindM, get. rewrite (cached_lookup _ _ _ Hl Ht). reflexivity.
Qed.

Lemma second_query_is_served_from_the_cache_witness :
  let E := Reference.imports true true in
  let this := reference_protocol [("mldsaEnabled", VBool false)] in
  exists v after,
    DualSignatureProtocol.getAddresses E this = (Ok v, after)
    /\ DualSignatureProtocol.getAddresses E after = (Ok v, after).
Proof.
  intros E this.
  destruct (DualSignatureProtocol.getAddresses E this) as [[v|e] after] eqn:H;
    [|exfalso; revert H; vm_compute; discriminate].
  exists v, after. split; [reflexivity|].
  exact (proj2 (second_query_is_served_from_the_cache E Addresses this after v H)).
Defined.

(** *** The dispatcher [sign] *)

(** The signature type that [sign] selects: [options.type] when it is
    truthy, the configured default otherwise. *)
Definition selects (this : DualSignatureProtocol.t) (options signatureType : value) : Prop :=
  exists type,
    getProp (param (VObj []) options) "type" = Ok type
    /\ if truthy type then signatureType = type
       else getProp (DualSignatureProtocol._config this) "defaultSignatureType" = Ok signatureType.

(** X27.  [sign(data, options)] accepts three signature types, spelt
    ['ecdsa'], ['mldsa'] and ['dual'].  For any other selected type
    (another spelling such as ['ECDSA'], a number, an object) it throws
    [Invalid signature type: ...] and leaves the protocol as it was: the
    protocol is not initialised by the call and no signer is used. *)
Theorem sign_rejects_an_unknown_type (E : Imports) (this : DualSignatureProtocol.t)
    (data options signatureType : value) :
  selects this options signatureType ->
  is_string signatureType "ecdsa" = false ->
  is_string signatureType "mldsa" = false ->
  is_string signatureType "dual" = false ->
  DualSignatureProtocol.sign E data options this
  = (Throw ("Invalid signature type: " +:+ toString signatureType), this).
Proof.
  intros (type & Htype & Hselect) He Hm Hd.
  unfold DualSignatureProtocol.sign. cbv zeta.
  unfold bindM at 1. unfold lift at 1. rewrite Htype.
  unfold bindM at 1.
  destruct (truthy type).
  - subst signatureType. unfold ret at 1. rewrite He, Hm, Hd. reflexivity.
  - unfold DualSignatureProtocol.config at 1. rewrite Hselect, He, Hm, Hd. reflexivity.
Qed.

Lemma sign_rejects_an_unknown_type_witness :
  let E := Reference.imports true true in
  let this := reference_protocol [] in
  DualSignatureProtocol.sign E (VStr "test message") (VObj [("type", VStr "ECDSA")]) this
  = (Throw "Invalid signature type: ECDSA", this).
Proof.
  intros E this.
  apply (sign_rejects_an_unknown_type E this (VStr "test message")
           (VObj [("type", VStr "ECDSA")]) (VStr "ECDSA")); try reflexivity.
  exists (VStr "ECDSA"). split; reflexivity.
Defined.

(** *** Verification through the protocol *)

(** X28.  On an initialised protocol, [verifyECDSA] throws exactly when the
    protocol holds no classical signer (the algorithm was disabled when the
    protocol was initialised); otherwise it returns the boolean that the
    signer's [verify] returns, and never throws.  The same holds for
    [verifyMLDSA] and the post-quantum signer.  Neither changes the
    protocol. *)
Theorem protocol_verification_needs_the_signer (E : Imports) (this : DualSignatureProtocol.t)
    (data signature publicKey : value) :
  DualSignatureProtocol._initialized this = true ->
  match DualSignatureProtocol._ecdsaSigner this with
  | None =>
      DualSignatureProtocol.verifyECDSA E data signature publicKey this
      = (Throw "ECDSA signer not available", this)
  | Some signer =>
      exists b,
        ECDSASigner.verify E signer data signature publicKey = Ok b
        /\ DualSignatureProtocol.verifyECDSA E data signature publicKey this = (Ok (VBool b), this)
  end
  /\ match DualSignatureProtocol._mldsaSigner this with
     | None =>
         DualSignatureProtocol.verifyMLDSA E data signature publicKey this
         = (Throw "ML-DSA signer not available", this)
     | Some signer =>
         exists b,
           MLDSASigner.verify E signer data signature publicKey = Ok b
           /\ DualSignatureProtocol.verifyMLDSA E data signature publicKey this
              = (Ok (VBool b), this)
     end.
Proof.
  intros Hi. split.
  - unfold DualSignatureProtocol.verifyECDSA. cbv zeta.
    rewrite (bindM_step _ _ _ _ _ (ensureInitialized_ready E this Hi)).
    unfold bindM, get.
    destruct (DualSignatureProtocol._ecdsaSigner this) as [signer|]; [|reflexivity].
    destruct (try_catch_total
                (ECDSASigner.verify_body E signer data signature (param VNull publicKey)) false)
      as [b Hb].
    exists b. split; [exact Hb|].
    assert (Hv : ECDSASigner.verify E signer data signature (param VNull publicKey) = Ok b).
    { rewrite <- Hb. unfold ECDSASigner.verify. cbv zeta. rewrite param_param. reflexivity. }
    unfold lift. rewrite Hv. reflexivity.
  - unfold DualSignatureProtocol.verifyMLDSA. cbv zeta.
    rewrite (bindM_step _ _ _ _ _ (ensureInitialized_ready E this Hi)).
    unfold bindM, get.
    destruct (DualSignatureProtocol._mldsaSigner this) as [signer|]; [|reflexivity].
    destruct (try_catch_total
                (MLDSASigner.verify_body E signer data signature (param VNull publicKey)) false)
      as [b Hb].
    exists b. split; [exact Hb|].
    assert (Hv : MLDSASigner.verify E signer data signature (param VNull publicKey) = Ok b).
    { rewrite <- Hb. unfold MLDSASigner.verify. cbv zeta. rewrite param_param. reflexivity. }
    unfold lift. rewrite Hv. reflexivity.
Qed.

Lemma protocol_verification_needs_the_signer_witness :
  let E := Reference.imports true true in
  let fresh := reference_protocol [("ecdsaEnabled", VBool false); ("mldsaEnabled", VBool false)] in
  let ready := snd (DualSignatureProtocol.initialize E fresh) in
  DualSignatureProtocol.isInitialized ready = true
  /\ DualSignatureProtocol.verifyECDSA E (VStr "test message") (VStr "00") VUndefined ready
     = (Throw "ECDSA signer not available", ready).
Proof.
  intros E fresh ready.
  assert (Hready : DualSignatureProtocol._initialized ready = true) by (vm_compute; reflexivity).
  split; [exact Hready|].
  exact (proj1 (protocol_verification_needs_the_signer E ready (VStr "test message")
                  (VStr "00") VUndefined Hready)).
Defined.

(** *** The signers of an initialised protocol *)

(** A step that succeeds and preserves [f], followed by the rest of the
    method. *)
Lemma bindM_Ok_preserves {S A B X} (f : S -> X) (m : M S A) (k : A -> M S B)
    (s s' : S) (b : B) :
  preserves f m ->
  bindM m k s = (Ok b, s') ->
  exists a s1, f s1 = f s /\ k a s1 = (Ok b, s').
Proof.
  intros Hm H. apply bindM_Ok in H. destruct H as (a & s1 & Hstep & Hrest).
  exists a, s1. split; [exact (Hm _ _ _ Hstep) | exact Hrest].
Qed.

(** The classical signer after the [try] block of [_initialize] has run to
    its end on a protocol that had none. *)
Lemma initialize_body_ecdsaSigner (E : Imports) (this ready : DualSignatureProtocol.t) :
  DualSignatureProtocol._initialize_body E this = (Ok tt, ready) ->
  DualSignatureProtocol._ecdsaSigner this = None ->
  (enabled this "ecdsaEnabled" <-> exists signer, DualSignatureProtocol._ecdsaSigner ready = Some signer).
Proof.
  intros H Hnone. unfold DualSignatureProtocol._initialize_body in H.
  set (f := fun s => (DualSignatureProtocol._ecdsaSigner s, DualSignatureProtocol._config s)).
  assert (Hstart : f this = (None, DualSignatureProtocol._config this))
    by (unfold f; rewrite Hnone; reflexivity).
  do 7 (apply (bindM_Ok_preserves f) in H;
        [ destruct H as (? & ? & Hf & H); rewrite <- Hf in Hstart; clear Hf
        | unfold DualSignatureProtocol._getAccountIndex, DualSignatureProtocol._getAddressIndex;
          preserves_steps ]).
  inv_bindM H. unfold DualSignatureProtocol.config in Hx. injection Hx as Hflag <-.
  unfold f in Hstart. injection Hstart as Hsigner Hconfig. rewrite Hconfig in Hflag.
  inv_bindM H.
  assert (Hrest : DualSignatureProtocol._ecdsaSigner ready = DualSignatureProtocol._ecdsaSigner s).
  { match type of H with
    | ?m ?s0 = _ =>
        assert (Hp : preserves DualSignatureProtocol._ecdsaSigner m) by preserves_steps;
        exact (Hp _ _ _ H)
    end. }
  rewrite Hrest. unfold enabled. rewrite Hflag.
  match type of Hflag with
  | _ = Ok ?flag => destruct (truthy flag) eqn:Htruthy
  end.
  - inv_bindM Hx. inv_bindM Hx. unfold DualSignatureProtocol.assign in Hx.
    injection Hx as _ <-. split; [intros _; eexists; reflexivity|].
    intros _. eexists. split; [reflexivity | exact Htruthy].
  - unfold ret in Hx. injection Hx as _ <-. rewrite Hsigner. split.
    + intros (v & [= <-] & Hv). congruence.
    + intros [signer Hs]. discriminate Hs.
Qed.

(** X29.  What a successful [initialize()] leaves, on a protocol as the
    constructor returned it: the protocol is initialised with the
    configuration it was built with; that configuration has a falsy
    [mldsaEnabled] (with a truthy one [initialize()] does not return);
    there is no post-quantum signer; and there is a classical signer
    exactly when [ecdsaEnabled] is truthy. *)
Theorem initialized_protocol_matches_its_configuration (E : Imports)
    (account : DualSignatureProtocol.Account) (config : value)
    (fresh ready : DualSignatureProtocol.t) :
  DualSignatureProtocol.constructor (Some account) config = Ok fresh ->
  DualSignatureProtocol.initialize E fresh = (Ok tt, ready) ->
  DualSignatureProtocol.isInitialized ready = true
  /\ DualSignatureProtocol._config ready = DualSignatureProtocol._config fresh
  /\ disabled ready "mldsaEnabled"
  /\ DualSignatureProtocol._mldsaSigner ready = None
  /\ (enabled ready "ecdsaEnabled"
      <-> exists signer, DualSignatureProtocol._ecdsaSigner ready = Some signer).
Proof.
  intros Hfresh Hinit.
  assert (Hshape : DualSignatureProtocol._initialized fresh = false
                   /\ DualSignatureProtocol._ecdsaSigner fresh = None
                   /\ DualSignatureProtocol._mldsaSigner fresh = None).
  { unfold DualSignatureProtocol.constructor in Hfresh. injection Hfresh as <-. auto. }
  destruct Hshape as (Hi & Hec & Hml).
  unfold DualSignatureProtocol.initialize, DualSignatureProtocol._initialize in Hinit.
  rewrite Hi in Hinit. unfold try_catchM in Hinit.
  destruct (DualSignatureProtocol._initialize_body E fresh) as [[[]|e] s] eqn:Hbody;
    [|discriminate Hinit].
  injection Hinit as <-.
  pose proof (keeps_config_initialize_body E _ _ _ Hbody) as Hconfig.
  split; [exact (initialize_body_Ok E _ _ Hbody)|].
  split; [exact Hconfig|].
  split; [unfold disabled; rewrite Hconfig;
          exact (initialize_body_needs_mldsa_disabled E _ _ _ Hbody)|].
  split; [rewrite (initialize_body_keeps_mldsaSigner E _ _ _ Hbody); exact Hml|].
  unfold enabled. rewrite Hconfig. exact (initialize_body_ecdsaSigner E _ _ Hbody Hec).
Qed.

Lemma initialized_protocol_matches_its_configuration_witness :
  let E := Reference.imports true true in
  let fresh := reference_protocol [("mldsaEnabled", VBool false)] in
  exists ready signer,
    DualSignatureProtocol.initialize E fresh = (Ok tt, ready)
    /\ DualSignatureProtocol._ecdsaSigner ready = Some signer.
Proof.
  intros E fresh.
  destruct (DualSignatureProtocol.initialize E fresh) as [[[]|e] ready] eqn:Hinit;
    [|exfalso; revert Hinit; vm_compute; discriminate].
  destruct (initialized_protocol_matches_its_configuration E Reference.account
              (VObj [("mldsaEnabled", VBool false)]) fresh ready
              (reference_protocol_constructed _) Hinit) as (_ & Hconfig & _ & _ & Hsigner).
  destruct (proj1 Hsigner) as [signer Hs].
  - exists (VBool true). rewrite Hconfig. split; reflexivity.
  - exists ready, signer. split; [reflexivity | exact Hs].
Defined.

(** *** Dual signing while the post-quantum algorithm is enabled *)

(** A protocol that is not initialised and whose configuration enables the
    post-quantum algorithm, as the default configuration does. *)
Definition blocked (this : DualSignatureProtocol.t) : Prop :=
  DualSignatureProtocol._initialized this = false /\ enabled this "mldsaEnabled".

(** Initialisation of a blocked protocol throws and leaves it blocked. *)
Lemma initialize_blocked (E : Imports) (this : DualSignatureProtocol.t) :
  blocked this ->
  exists e s1, DualSignatureProtocol._initialize E this = (Throw e, s1) /\ blocked s1.
Proof.
  intros [Hi Hen]. unfold DualSignatureProtocol._initialize. rewrite Hi. unfold try_catchM.
  destruct (DualSignatureProtocol._initialize_body E this) as [[[]|e] s1] eqn:Hbody.
  - exfalso.
    destruct (initialize_body_needs_mldsa_disabled E _ _ _ Hbody) as (flag' & Hflag' & Hfalsy).
    destruct Hen as (flag & Hflag & Htruthy). congruence.
  - unfold throw. do 2 eexists. split; [reflexivity|]. split.
    + rewrite (initialize_body_Throw E this e s1 Hbody). exact Hi.
    + unfold enabled. rewrite (keeps_config_initialize_body E _ _ _ Hbody). exact Hen.
Qed.

Lemma ensureInitialized_blocked (E : Imports) (this : DualSignatureProtocol.t) :
  blocked this ->
  exists e s1, DualSignatureProtocol._ensureInitialized E this = (Throw e, s1) /\ blocked s1.
Proof.
  intros Hb. pose proof Hb as [Hi Hen].
  unfold DualSignatureProtocol._ensureInitialized. rewrite Hi.
  unfold bindM, DualSignatureProtocol.config.
  destruct (getProp (DualSignatureProtocol._config this) "autoInitialize") as [auto|e]; [|eauto].
  destruct (truthy auto); [apply initialize_blocked, Hb | unfold throw; eauto].
Qed.

(** A method whose first statement is [await this._ensureInitialized()]. *)
Lemma gated_blocked (E : Imports) (this : DualSignatureProtocol.t) {A}
    (k : unit -> M DualSignatureProtocol.t A) :
  blocked this ->
  exists e s1,
    bindM (DualSignatureProtocol._ensureInitialized E) k this = (Throw e, s1) /\ blocked s1.
Proof.
  intros Hb. destruct (ensureInitialized_blocked E this Hb) as (e & s1 & H & Hs1).
  exists e, s1. split; [apply bindM_Throw, H | exact Hs1].
Qed.

Lemma sign_blocked (E : Imports) (this : DualSignatureProtocol.t) (data options : value) :
  blocked this ->
  exists e s1, DualSignatureProtocol.sign E data options this = (Throw e, s1) /\ blocked s1.
Proof.
  intros Hb. unfold DualSignatureProtocol.sign. cbv zeta.
  unfold bindM at 1. unfold lift at 1.
  destruct (getProp (param (VObj []) options) "type") as [type|e]; [|eauto].
  assert (Hdispatch : forall signatureType, exists e s1,
    (if is_string signatureType "ecdsa"
     then DualSignatureProtocol.signWithECDSA E data (param (VObj []) options)
     else if is_string signatureType "mldsa"
          then DualSignatureProtocol.signWithMLDSA E data (param (VObj []) options)
          else if is_string signatureType "dual"
               then DualSignatureProtocol.dualSign E data (param (VObj []) options)
               else throw ("Invalid signature type: " +:+ toString signatureType)) this
    = (Throw e, s1) /\ blocked s1).
  { intros st.
    destruct (is_string st "ecdsa"); [apply gated_blocked, Hb|].
    destruct (is_string st "mldsa"); [apply gated_blocked, Hb|].
    destruct (is_string st "dual"); [apply gated_blocked, Hb|].
    unfold throw. eauto. }
  unfold bindM at 1.
  destruct (truthy type).
  - unfold ret at 1. apply Hdispatch.
  - unfold DualSignatureProtocol.config at 1.
    destruct (getProp (DualSignatureProtocol._config this) "defaultSignatureType") as [st|e];
      [apply Hdispatch | eauto].
Qed.

(** A protocol on which no signing or query call can succeed any more. *)
Definition stuck (this : DualSignatureProtocol.t) : Prop := blocked this \/ Disposed this.

Lemma run_blocked (E : Imports) (c : DualSignatureProtocol.call) (this : DualSignatureProtocol.t) :
  blocked this ->
  stuck (snd (DualSignatureProtocol.run E c this))
  /\ (needs_configuration c = true -> exists e, fst (DualSignatureProtocol.run E c this) = Throw e).
Proof.
  intros Hb.
  destruct c; cbn [DualSignatureProtocol.run needs_configuration];
    try (unfold DualSignatureProtocol.signWithECDSA, DualSignatureProtocol.signMessageWithECDSA,
           DualSignatureProtocol.signTransactionWithECDSA, DualSignatureProtocol.signWithMLDSA,
           DualSignatureProtocol.dualSign, DualSignatureProtocol.verifyECDSA,
           DualSignatureProtocol.verifyMLDSA, DualSignatureProtocol.getPublicKeys,
           DualSignatureProtocol.getAddresses, DualSignatureProtocol.getFingerprints,
           DualSignatureProtocol.exportPublicKeys, DualSignatureProtocol.getInfo;
         cbv zeta;
         match goal with
         | |- context [bindM (DualSignatureProtocol._ensureInitialized E) ?k this] =>
             destruct (gated_blocked E this k Hb) as (e & s1 & -> & Hs1)
         end;
         cbn [fst snd]; split; [left; exact Hs1 | eauto]).
  - (* initialize *)
    unfold bindM, DualSignatureProtocol.initialize.
    destruct (initialize_blocked E this Hb) as (e & s1 & -> & Hs1).
    cbn [fst snd]. split; [left; exact Hs1 | eauto].
  - (* isInitialized *)
    split; [left; exact Hb | discriminate].
  - (* sign *)
    destruct (sign_blocked E this data options Hb) as (e & s1 & -> & Hs1).
    cbn [fst snd]. split; [left; exact Hs1 | eauto].
  - (* clearCaches *)
    split; [left; exact Hb | discriminate].
  - (* dispose *)
    split; [|discriminate].
    right. unfold bindM. rewrite dispose_returns. apply dispose_Disposed.
Qed.

Lemma run_stuck (E : Imports) (c : DualSignatureProtocol.call) (this : DualSignatureProtocol.t) :
  stuck this ->
  stuck (snd (DualSignatureProtocol.run E c this))
  /\ (needs_configuration c = true -> exists e, fst (DualSignatureProtocol.run E c this) = Throw e).
Proof.
  intros [Hb|Hd]; [exact (run_blocked E c this Hb)|].
  destruct (run_Disposed E c this Hd) as [H1 H2]. split; [right; exact H1 | exact H2].
Qed.

Lemma run_all_stuck (E : Imports) (calls : list DualSignatureProtocol.call)
    (this : DualSignatureProtocol.t) :
  stuck this ->
  stuck (snd (DualSignatureProtocol.run_all E calls this))
  /\ Forall2 (fun c r => needs_configuration c = true -> exists e, r = Throw e)
       calls (fst (DualSignatureProtocol.run_all E calls this)).
Proof.
  revert this. induction calls as [|c rest IH]; intros this H.
  - split; [exact H | constructor].
  - cbn [DualSignatureProtocol.run_all]. destruct (run_stuck E c this H) as [H1 H2].
    destruct (DualSignatureProtocol.run E c this) as [r this1]. cbn [fst snd] in H1, H2.
    destruct (IH this1 H1) as [H3 H4].
    destruct (DualSignatureProtocol.run_all E rest this1) as [rs this2].
    split; [exact H3 | constructor; assumption].
Qed.

Lemma stuck_not_initialized (this : DualSignatureProtocol.t) :
  stuck this -> DualSignatureProtocol.isInitialized this = false.
Proof. intros [[H _]|[H _]]; exact H. Qed.

(** The default configuration enables the post-quantum algorithm. *)
Lemma default_configuration_is_blocked (account : DualSignatureProtocol.Account)
    (fresh : DualSignatureProtocol.t) :
  DualSignatureProtocol.constructor (Some account) VUndefined = Ok fresh -> blocked fresh.
Proof.
  intros [= <-]. split; [reflexivity|]. exists (VBool true). split; reflexivity.
Qed.

(** C4.  [dualSign] does not return while the post-quantum algorithm is
    enabled.  On a protocol built by the constructor with a truthy
    [mldsaEnabled] (the default), after any sequence of calls of public
    methods, [dualSign(data)] throws for every data, options and imports,
    and so does [signWithMLDSA]; the protocol never becomes initialised,
    and every signing, verifying and query call of the sequence throws.
    The initialisation that these methods start derives the post-quantum
    key and hands it to the constructor of the signer, which rejects the
    algorithm name written by [deriveMLDSAKey]. *)
Theorem dualSign_throws_while_mldsa_is_enabled (E : Imports)
    (account : DualSignatureProtocol.Account) (config : value)
    (fresh : DualSignatureProtocol.t) (calls : list DualSignatureProtocol.call)
    (data options : value) :
  DualSignatureProtocol.constructor (Some account) config = Ok fresh ->
  enabled fresh "mldsaEnabled" ->
  let after := DualSignatureProtocol.run_all E calls fresh in
  (exists e, fst (DualSignatureProtocol.dualSign E data options (snd after)) = Throw e)
  /\ (exists e, fst (DualSignatureProtocol.signWithMLDSA E data options (snd after)) = Throw e)
  /\ DualSignatureProtocol.isInitialized (snd after) = false
  /\ Forall2 (fun c r => needs_configuration c = true -> exists e, r = Throw e)
       calls (fst after).
Proof.
  intros Hfresh Henabled. cbv zeta.
  assert (Hstuck : stuck fresh).
  { left. split; [|exact Henabled].
    unfold DualSignatureProtocol.constructor in Hfresh. injection Hfresh as <-. reflexivity. }
  destruct (run_all_stuck E calls fresh Hstuck) as [Hafter Hall].
  pose proof (run_stuck E (DualSignatureProtocol.DualSign data options) _ Hafter) as [_ Hdual].
  pose proof (run_stuck E (DualSignatureProtocol.SignWithMLDSA data options) _ Hafter)
    as [_ Hmldsa].
  split; [exact (Hdual eq_refl)|].
  split; [exact (Hmldsa eq_refl)|].
  split; [exact (stuck_not_initialized _ Hafter) | exact Hall].
Qed.

(** The default configuration on the reference instance: [dualSign] after
    an explicit [initialize()] and a query. *)
Lemma dualSign_throws_while_mldsa_is_enabled_witness :
  let E := Reference.imports true true in
  let calls := [DualSignatureProtocol.Initialize; DualSignatureProtocol.GetAddresses] in
  exists e,
    fst (DualSignatureProtocol.dualSign E (VStr "test message") VUndefined
           (snd (DualSignatureProtocol.run_all E calls (reference_protocol []))))
    = Throw e.
Proof.
  intros E calls.
  refine (proj1 (dualSign_throws_while_mldsa_is_enabled E Reference.account (VObj [])
                   (reference_protocol []) calls (VStr "test message") VUndefined
                   (reference_protocol_constructed []) _)).
  exists (VBool true). split; reflexivity.
Defined.

(** What the tests and the example scripts run: a protocol with the
    default configuration for an account with a seed, then
    [dualSign(message)]. *)
Example dualSign_with_the_default_configuration :
  let E := Reference.imports true true in
  match DualSignatureProtocol.constructor (Some Reference.account) VUndefined with
  | Throw _ => False
  | Ok protocol =>
      fst (DualSignatureProtocol.dualSign E (VStr "test message") VUndefined protocol)
      = Throw "Failed to initialize DualSignatureProtocol: Unknown ML-DSA algorithm: ML-DSA-65"
      /\ fst (DualSignatureProtocol.signWithMLDSA E (VStr "test message") VUndefined protocol)
         = Throw "Failed to initialize DualSignatureProtocol: Unknown ML-DSA algorithm: ML-DSA-65"
  end.
Proof. vm_compute. split; reflexivity. Qed.

(** The case in which [dualSign] does return: on an initialised protocol
    whose configuration disables the post-quantum algorithm and enables
    the classical one, it returns as soon as the classical signer does,
    with that signature as [ecdsa] and [null] as [mldsa], and leaves the
    protocol as it was. *)
Lemma dualSign_returns_the_classical_signature (E : Imports) (this : DualSignatureProtocol.t)
    (signer : ECDSASigner.t) (data options signature : value) :
  DualSignatureProtocol._initialized this = true ->
  enabled this "ecdsaEnabled" ->
  disabled this "mldsaEnabled" ->
  DualSignatureProtocol._ecdsaSigner this = Some signer ->
  ECDSASigner.sign E signer data (param (VObj []) options) = Ok signature ->
  DualSignatureProtocol.dualSign E data options this
  = (Ok (VObj [ ("ecdsa", signature); ("mldsa", VNull); ("data", data);
                ("timestamp", VNum (Date_now E));
                ("accountIndex", DualSignatureProtocol._accountIndex this);
                ("addressIndex", DualSignatureProtocol._addressIndex this) ]), this).
Proof.
  intros Hi (fe & Hfe & Hte) (fm & Hfm & Htm) Hsigner Hsign.
  unfold DualSignatureProtocol.dualSign. cbv zeta.
  rewrite (bindM_step _ _ _ _ _ (ensureInitialized_ready E this Hi)).
  unfold bindM at 1. unfold promise_all2.
  unfold bindM at 1. unfold DualSignatureProtocol.config at 1. rewrite Hfe, Hte.
  rewrite (signWithECDSA_ready E this data _ Hi), Hfe, Hsigner, Hte, param_param, Hsign.
  unfold bindM at 1. unfold DualSignatureProtocol.config at 1. rewrite Hfm, Htm.
  reflexivity.
Qed.
